(** * A chunked, replicated file store: chunk nodes, metadata server, gateway

    The development follows the three services of the repository:
    - [Node]      the chunk store of [backend/node.py],
    - [Metadata]  the namespace and chunk directory of
                  [backend/metadata_server/metadata5.py], with its reconciler,
    - [Gateway]   the upload and download paths of
                  [backend/api_gateway/api5.py].

    Conventions of the embedding.
    - A Flask handler is a function from its request data and the state it
      touches to a reply and the new state.  [jsonify(x), code] is [Ok code x]
      for a payload and [Err code msg] for [{"error": msg}].
    - The file a service persists (metadata.json, the blobs under chunks/) is
      the state itself: every handler loads it first and saves it last.
    - [uuid.uuid4()] is a supply of identifiers that never repeats: the n-th
      identifier drawn is the number n, and the server state counts the draws.
    - [datetime.now()] is read from a clock given to the handler.
    - A request to a node that is not running raises in [requests]; so does
      [NODE_MAP[node_id]] on an unknown node.  Both are the [None] of an
      option, handled where the source has its [except].
    - A JSON body, a raw body, a header and a chunk identifier in a URL
      arrive as they were sent.  A path that the gateway pastes, unencoded,
      behind [?path=] or [?directory=] does not: the metadata server reads
      [Gateway.query_arg] of it.
    - A string is the UTF-8 text of a Python [str]; an escape that decodes to
      bytes which are not UTF-8 (replaced by U+FFFD in the source) is left
      out.
    - The metadata server is always reachable, and a node that is up
      answers.  Disk errors of a node (its 500 replies) are left out. *)

From Stdlib Require Import ZArith Strings.Byte Strings.Ascii.
From stdpp Require Import gmap strings list fin_maps sorting.

Local Open Scope Z_scope.

(** Chunk identifiers (the text of a uuid4 in the source) are numbers, raw
    bodies are lists of bytes, paths and node identifiers are strings. *)

(** The reply of a handler: a status code with a payload, or a status code
    with the message of [jsonify({"error": msg})]. *)
Inductive Reply (A : Type) : Type :=
| Ok (code : nat) (payload : A)
| Err (code : nat) (msg : string).
Arguments Ok {A} code payload.
Arguments Err {A} code msg.

Definition status_code {A} (r : Reply A) : nat :=
  match r with Ok code _ => code | Err code _ => code end.

(** [CHUNK_SIZE = 4194304], the same constant in node.py, metadata5.py and
    api5.py. *)
Definition CHUNK_SIZE : Z := 4194304.

(** [NODE_MAP], the same table in metadata5.py and api5.py. *)
Definition NODE_MAP : list (string * string) :=
  [ ("node1", "http://localhost:5001");
    ("node2", "http://localhost:5002");
    ("node3", "http://localhost:5003") ].

(** [NODE_MAP[node_id]]; [None] is the KeyError. *)
Definition node_url (node_id : string) : option string :=
  (list_to_map NODE_MAP : gmap string string) !! node_id.

(** The blobs of one node, by chunk identifier (the files of its chunks/
    directory). *)
Abbreviation Store := (gmap nat (list byte)).

(** The nodes that are up, by base URL, each with its blobs. *)
Abbreviation Net := (gmap string (gmap nat (list byte))).

(* ===================================================================== *)
(** ** backend/node.py *)
(* ===================================================================== *)
Module Node.

(** The bytes of the JSON text [{"error": msg}] that a caller reading
    [response.content] of an error reply sees (quotes are byte 34). *)
Definition error_content (msg : string) : list byte :=
  String.list_byte_of_string
    ("{" +:+ String (Ascii.ascii_of_byte "034"%byte) "error"
         +:+ String (Ascii.ascii_of_byte "034"%byte) ":"
         +:+ String (Ascii.ascii_of_byte "034"%byte) msg
         +:+ String (Ascii.ascii_of_byte "034"%byte) "}").

(** [response.content]. *)
Definition content (r : Reply (list byte)) : list byte :=
  match r with
  | Ok _ data => data
  | Err _ msg => error_content msg
  end.

(** [upload_chunk]: POST /chunk.  [header] is the X-Chunk-ID header; [None]
    stands for a header that is absent or empty, both falsy in the source.
    The payload of the 201 reply is the chunk identifier. *)
Definition upload_chunk (header : option nat) (chunk_data : list byte)
    (store : Store) : Reply nat * Store :=
  match header with
  | None => (Err 400 "Missing X-Chunk-ID header", store)
  | Some chunk_id =>
      match chunk_data with
      | [] => (Err 400 "No chunk data provided", store)
      | _ :: _ => (Ok 201 chunk_id, <[chunk_id := chunk_data]> store)
      end
  end.

(** [download_chunk]: GET /chunk/<chunk_id>. *)
Definition download_chunk (chunk_id : nat) (store : Store)
    : Reply (list byte) :=
  match store !! chunk_id with
  | None => Err 404 "Chunk not found"
  | Some chunk_data => Ok 200 chunk_data
  end.

(** [delete_chunk]: DELETE /chunk/<chunk_id>. *)
Definition delete_chunk (chunk_id : nat) (store : Store)
    : Reply nat * Store :=
  match store !! chunk_id with
  | None => (Err 404 "Chunk not found", store)
  | Some _ => (Ok 200 chunk_id, delete chunk_id store)
  end.

(** [check_chunk_exists]: GET /chunk/<chunk_id>/exists.  Always 200. *)
Definition check_chunk_exists (chunk_id : nat) (store : Store)
    : Reply bool :=
  match store !! chunk_id with
  | Some _ => Ok 200 true
  | None => Ok 200 false
  end.

(** [bool(response.json().get("exists"))] on a reply of the exists route: an
    error body has no such field, and [bool(None)] is [False]. *)
Definition json_exists (r : Reply bool) : bool :=
  match r with
  | Ok _ b => b
  | Err _ _ => false
  end.

End Node.

(* ===================================================================== *)
(** ** Requests to the nodes, as the services issue them *)
(* ===================================================================== *)

(** [requests.get(f"{url}/chunk/{chunk_id}/exists")]. *)
Definition get_exists (url : string) (chunk_id : nat) (net : Net)
    : option (Reply bool) :=
  match net !! url with
  | None => None
  | Some store => Some (Node.check_chunk_exists chunk_id store)
  end.

(** [requests.get(f"{url}/chunk/{chunk_id}")]. *)
Definition get_chunk (url : string) (chunk_id : nat) (net : Net)
    : option (Reply (list byte)) :=
  match net !! url with
  | None => None
  | Some store => Some (Node.download_chunk chunk_id store)
  end.

(** [async_upload_chunk(node_url, chunk_data, chunk_id)], the same function in
    metadata5.py and api5.py: one POST /chunk with the X-Chunk-ID header; the
    reply is dropped and an exception is only logged. *)
Definition async_upload_chunk (node_url : string) (chunk_data : list byte)
    (chunk_id : nat) (net : Net) : Net :=
  match net !! node_url with
  | None => net
  | Some store =>
      <[node_url := (Node.upload_chunk (Some chunk_id) chunk_data store).2]> net
  end.

(* ===================================================================== *)
(** ** backend/metadata_server/metadata5.py *)
(* ===================================================================== *)
Module Metadata.

Definition LEASE_DURATION : Z := 60.

(** One value of [chunk_metadata]: the ChunkRecord.  The ISO text of the
    lease expiration is the clock value it renders. *)
Record ChunkInfo : Type := mkChunkInfo {
  chunk_servers : list string;
  version : Z;
  primary : string;
  lease_expiration : Z
}.

(** What the server holds: the two dictionaries of metadata.json, and the
    number of identifiers [uuid.uuid4()] has handed out so far. *)
Record State : Type := mkState {
  file_to_chunks : gmap string (list nat);
  chunk_metadata : gmap nat ChunkInfo;
  uuid_drawn : nat
}.

(** [load_metadata()] when no metadata file exists yet. *)
Definition initial : State := mkState ∅ ∅ 0.

(** [(file_size + CHUNK_SIZE - 1) // CHUNK_SIZE]. *)
Definition chunk_count (file_size : Z) : Z :=
  (file_size + CHUNK_SIZE - 1) `div` CHUNK_SIZE.

(** [list(NODE_MAP.keys())]. *)
Definition available_nodes : list string := NODE_MAP.*1.

(** The inner loop of [create_file]:
    [for i in range(2): chunk_servers.append(available_nodes[i % len(available_nodes)])].
    The index is always in range, see [assign_servers_in_range]. *)
Definition assign_servers : list string :=
  foldl (λ chunk_servers i,
           chunk_servers ++ [available_nodes !!! (i mod length available_nodes)%nat])
        [] (seq 0 2).

(** The record [create_file] stores for a chunk; [now] is the reading of
    [datetime.now()] in that iteration. *)
Definition new_chunk_info (now : Z) : ChunkInfo :=
  let chunk_servers := assign_servers in
  {| chunk_servers := chunk_servers;
     version := 0;
     primary := chunk_servers !!! 0%nat;
     lease_expiration := now + LEASE_DURATION |}.

(** [create_file]: POST /api/file.  [now k] is the clock reading in the k-th
    iteration of the loop over the chunks.  The payload is
    [{"path": file_path, "chunks": chunks}]. *)
Definition create_file (now : nat → Z) (file_path : string) (file_size : Z)
    (st : State) : Reply (string * list nat) * State :=
  let count := Z.to_nat (chunk_count file_size) in
  let chunks := seq (uuid_drawn st) count in
  let file_to_chunks := <[file_path := chunks]> (file_to_chunks st) in
  let chunk_metadata :=
    foldl (λ chunk_metadata '(k, chunk_id),
             <[chunk_id := new_chunk_info (now k)]> chunk_metadata)
          (chunk_metadata st) (zip (seq 0 count) chunks) in
  (Ok 200 (file_path, chunks),
   mkState file_to_chunks chunk_metadata (uuid_drawn st + count)).

(** The [metadata] object of the reply of [get_file_metadata]. *)
Record FileMetadata : Type := mkFileMetadata {
  size : Z;
  chunks : list (nat * list string)
}.

(** [get_file_metadata]: GET /api/file.  The payload is
    [{"path": file_path, "metadata": file_metadata}]. *)
Definition get_file_metadata (file_path : string) (st : State)
    : Reply (string * FileMetadata) :=
  match file_to_chunks st !! file_path with
  | None => Err 404 "File not found"
  | Some chunk_ids =>
      let file_metadata := {| size := 0; chunks := [] |} in
      let file_metadata :=
        foldl (λ file_metadata chunk_id,
                 match chunk_metadata st !! chunk_id with
                 | Some info =>
                     {| size := size file_metadata;
                        chunks := chunks file_metadata
                                    ++ [(chunk_id, chunk_servers info)] |}
                 | None => file_metadata
                 end)
              file_metadata chunk_ids in
      Ok 200 (file_path, file_metadata)
  end.

(** [list_files]: GET /api/list; [directory] is the query argument, "/"
    when it is absent.  The payload maps each listed path to its
    [chunk_count]. *)
Definition list_files (directory : option string) (st : State)
    : Reply (gmap string nat) :=
  let directory := default "/" directory in
  let files :=
    foldl (λ (files : gmap string nat) '(path, chunk_ids),
             if String.prefix directory path
             then <[path := length (chunk_ids : list nat)]> files
             else files)
          ∅ (map_to_list (file_to_chunks st)) in
  Ok 200 files.

(** [rename_file]: PUT /api/file/rename. *)
Definition rename_file (old_path new_path : string) (st : State)
    : Reply bool * State :=
  match file_to_chunks st !! old_path with
  | None => (Err 404 "File not found", st)
  | Some chunk_ids =>
      let file_to_chunks := <[new_path := chunk_ids]> (file_to_chunks st) in
      let file_to_chunks := delete old_path file_to_chunks in
      (Ok 200 true, mkState file_to_chunks (chunk_metadata st) (uuid_drawn st))
  end.

(** [delete_file]: DELETE /api/file.  The payload is
    [{"deleted": file_path, "chunks_deleted": chunks_to_delete}].  The handler
    sends nothing to the nodes. *)
Definition delete_file (file_path : string) (st : State)
    : Reply (string * list nat) * State :=
  match file_to_chunks st !! file_path with
  | None => (Err 404 "File not found", st)
  | Some chunks_to_delete =>
      let chunk_metadata :=
        foldl (λ chunk_metadata chunk_id,
                 match chunk_metadata !! chunk_id with
                 | Some _ => delete chunk_id chunk_metadata
                 | None => chunk_metadata
                 end)
              (chunk_metadata st) chunks_to_delete in
      let file_to_chunks := delete file_path (file_to_chunks st) in
      (Ok 200 (file_path, chunks_to_delete),
       mkState file_to_chunks chunk_metadata (uuid_drawn st))
  end.

(** The body of [for node_id in chunk_servers] in [reconcile_chunks], with
    its try/except: an exception leaves the nodes as they are. *)
Definition repair_replica (chunk_servers : list string) (chunk_id : nat)
    (net : Net) (node_id : string) : Net :=
  let attempt : option Net :=
    url ← node_url node_id;
    response ← get_exists url chunk_id net;
    if negb (status_code response =? 200)%nat || negb (Node.json_exists response)
    then
      match List.find (λ potential_node_id,
                         bool_decide (potential_node_id ≠ node_id))
                      chunk_servers with
      | None => Some net
      | Some backup_node_id =>
          backup_url ← node_url backup_node_id;
          backup_response ← get_chunk backup_url chunk_id net;
          if (status_code backup_response =? 200)%nat
          then Some (async_upload_chunk url (Node.content backup_response)
                                        chunk_id net)
          else Some net
      end
    else Some net in
  default net attempt.

(** The body of [for chunk_id in chunk_ids]. *)
Definition reconcile_chunk (st : State) (net : Net) (chunk_id : nat) : Net :=
  match chunk_metadata st !! chunk_id with
  | Some chunk_info =>
      match chunk_servers chunk_info with
      | [] => net
      | chunk_servers => foldl (repair_replica chunk_servers chunk_id) net chunk_servers
      end
  | None => net
  end.

(** One pass of the [while True] loop of [reconcile_chunks], between two
    sleeps.  The dictionary is visited in the order of [map_to_list]. *)
Definition reconcile_cycle (st : State) (net : Net) : Net :=
  foldl (λ net '(file_path, chunk_ids), foldl (reconcile_chunk st) net chunk_ids)
        net (map_to_list (file_to_chunks st)).

End Metadata.

(* ===================================================================== *)
(** ** backend/api_gateway/api5.py *)
(* ===================================================================== *)
Module Gateway.

(** The gateway talks to one metadata server and to the nodes. *)
Record World : Type := mkWorld {
  server : Metadata.State;
  net : Net
}.

(** The value of a hexadecimal digit. *)
Definition hex_digit (c : ascii) : option N :=
  let n := N_of_ascii c in
  if ((48 <=? n) && (n <=? 57))%N then Some (n - 48)%N
  else if ((65 <=? n) && (n <=? 70))%N then Some (n - 55)%N
  else if ((97 <=? n) && (n <=? 102))%N then Some (n - 87)%N
  else None.

(** The byte that the escape [%hl] stands for. *)
Definition hex_byte (h l : ascii) : option ascii :=
  h ← hex_digit h; l ← hex_digit l; Some (ascii_of_N (16 * h + l)).

(** [urllib.parse.unquote]: a [%] followed by two hexadecimal digits becomes
    the byte they write; any other [%] stays. *)
Fixpoint unquote (s : string) : string :=
  match s with
  | EmptyString => EmptyString
  | String c rest =>
      match rest with
      | String h (String l rest') =>
          match (if bool_decide (c = "%"%char) then hex_byte h l else None) with
          | Some b => String b (unquote rest')
          | None => String c (unquote rest)
          end
      | _ => String c (unquote rest)
      end
  end.

(** The part of [s] before the first [sep]. *)
Fixpoint before (sep : ascii) (s : string) : string :=
  match s with
  | EmptyString => EmptyString
  | String c rest =>
      if bool_decide (c = sep) then EmptyString else String c (before sep rest)
  end.

(** Every [%] of [s] starts an escape of two hexadecimal digits. *)
Fixpoint percent_encoded (s : string) : bool :=
  match s with
  | EmptyString => true
  | String c rest =>
      if bool_decide (c = "%"%char) then
        match rest with
        | String h (String l rest') =>
            bool_decide (is_Some (hex_byte h l)) && percent_encoded rest'
        | _ => false
        end
      else percent_encoded rest
  end.

(** [s.replace("+", " ")]. *)
Fixpoint plus_to_space (s : string) : string :=
  match s with
  | EmptyString => EmptyString
  | String c rest =>
      String (if bool_decide (c = "+"%char) then " "%char else c)
             (plus_to_space rest)
  end.

(** What [request.args.get(name)] is on the metadata server when the gateway
    requests the URL ["...?name=" + s] with [s] pasted as it is.  [requests]
    sends the URL up to the first [#]; it leaves the escapes of the query
    alone when every [%] starts one and writes every [%] as [%25] otherwise,
    and it escapes what a URL cannot carry (a space, a byte above 127), which
    the server undoes.  The server ends the argument at the first [&], reads
    [+] as a space and then decodes the escapes. *)
Definition query_arg (s : string) : string :=
  let query := before "#" s in
  let value := plus_to_space (before "&" query) in
  if percent_encoded query then unquote value else value.

(** [path.endswith("/")]. *)
Fixpoint endswith_sep (path : string) : bool :=
  match path with
  | EmptyString => false
  | String c EmptyString => bool_decide (c = "/"%char)
  | String _ rest => endswith_sep rest
  end.

(** [os.path.join(a, b)] of posixpath, for two components. *)
Definition os_path_join (a b : string) : string :=
  if String.prefix "/" b then b
  else if bool_decide (a = "") || endswith_sep a then a +:+ b
  else a +:+ "/" +:+ b.

(** [file.read(CHUNK_SIZE)] returns at most this many bytes. *)
Definition read_size : nat := Z.to_nat CHUNK_SIZE.

(** The arguments of one [threading.Thread(target=async_upload_chunk, ...)]. *)
Definition Thread : Type := string * list byte * nat.

(** [for node_id in ["node1", "node2"]]: a thread per node, started at once.
    The writes of the threads go to different nodes or different chunk
    identifiers, so they are applied in the order the threads start.
    [None] is the KeyError of [NODE_MAP[node_id]]. *)
Fixpoint start_threads (node_ids : list string) (chunk_data : list byte)
    (chunk_id : nat) (threads : list Thread) (net : Net)
    : option (list Thread * Net) :=
  match node_ids with
  | [] => Some (threads, net)
  | node_id :: node_ids =>
      match node_url node_id with
      | None => None
      | Some url =>
          start_threads node_ids chunk_data chunk_id
            (threads ++ [(url, chunk_data, chunk_id)])
            (async_upload_chunk url chunk_data chunk_id net)
      end
  end.

(** How the [while True] loop of [upload_file] ends. *)
Inductive LoopEnd : Type :=
| Break            (* [if not chunk_data: break] *)
| IndexExceeds     (* [return ... "Chunk index exceeds registered chunks", 500] *)
| Raised.          (* an exception, caught by the handler's [except] *)

(** The [while True] loop of [upload_file]; [file] is what is left to read.
    Each turn reads a non-empty chunk or stops, so [fuel] beyond the length
    of [file] is never used up, see [upload_loop_fuel]. *)
Fixpoint upload_loop (fuel : nat) (file : list byte) (chunks : list nat)
    (chunk_index : nat) (threads : list Thread) (net : Net)
    : option (LoopEnd * list Thread * Net) :=
  match fuel with
  | O => None
  | S fuel =>
      let chunk_data := take read_size file in
      let file := drop read_size file in
      match chunk_data with
      | [] => Some (Break, threads, net)
      | _ :: _ =>
          match chunks !! chunk_index with
          | None => Some (IndexExceeds, threads, net)
          | Some chunk_id =>
              match start_threads ["node1"; "node2"] chunk_data chunk_id
                                  threads net with
              | None => Some (Raised, threads, net)
              | Some (threads, net) =>
                  upload_loop fuel file chunks (chunk_index + 1) threads net
              end
          end
      end
  end.

(** [upload_file]: POST /upload.  [file] is the part named file of the
    request, with its name and bytes, when there is one.  The payload of the
    200 reply is the directory; the threads are returned beside the reply. *)
Definition upload_file (now : nat → Z) (file : option (string * list byte))
    (directory : string) (w : World)
    : option (Reply string * list Thread * World) :=
  match file with
  | None => Some (Err 400 "No file part", [], w)
  | Some (filename, data) =>
      if bool_decide (filename = "") then Some (Err 400 "No selected file", [], w)
      else
        let file_size := Z.of_nat (length data) in
        let file_path := os_path_join directory filename in
        let '(file_info, server) :=
          Metadata.create_file now file_path file_size (server w) in
        match file_info with
        | Err _ _ => Some (Err 500 "Upload failed", [], mkWorld server (net w))
        | Ok _ (_, chunks) =>
            match upload_loop (S (length data)) data chunks 0 [] (net w) with
            | None => None
            | Some (Break, threads, net) =>
                Some (Ok 200 directory, threads, mkWorld server net)
            | Some (IndexExceeds, threads, net) =>
                Some (Err 500 "Chunk index exceeds registered chunks", threads,
                      mkWorld server net)
            | Some (Raised, threads, net) =>
                Some (Err 500 "Upload failed", threads, mkWorld server net)
            end
        end
  end.

(** One turn of [for chunk in chunks] in [download_file], with its inner
    try/except: [inl r] when the handler returns [r] from inside the loop,
    [inr file_data] with the value [file_data] has when the turn ends.  The
    turn starts with [file_data = bytearray()]. *)
Definition download_turn (net : Net) (chunk : nat * list string)
    : Reply (list byte) + list byte :=
  let '(chunk_id, chunk_servers) := chunk in
  let attempt : option (Reply (list byte) + list byte) :=
    node_id ← chunk_servers !! 0%nat;
    let file_data : list byte := [] in
    url ← node_url node_id;
    response ← get_exists url chunk_id net;
    if (status_code response =? 200)%nat && Node.json_exists response then
      response ← get_chunk url chunk_id net;
      Some (inr (file_data ++ Node.content response))
    else if (1 <? length chunk_servers)%nat then
      backup_node ← chunk_servers !! 1%nat;
      backup_url ← node_url backup_node;
      backup_response ← get_exists backup_url chunk_id net;
      if (status_code backup_response =? 200)%nat
         && Node.json_exists backup_response
      then
        backup_response ← get_chunk backup_url chunk_id net;
        Some (inr (file_data ++ Node.content backup_response))
      else Some (inl (Err 500 "Failed to retrieve chunk"))
    else Some (inl (Err 500 "Failed to retrieve chunk")) in
  default (inl (Err 500 "Error downloading chunk")) attempt.

(** The loop [for chunk in chunks]; [file_data] is [None] while the variable
    is unbound. *)
Fixpoint download_loop (net : Net)
    (chunks : list (nat * list string)) (file_data : option (list byte))
    : Reply (list byte) + option (list byte) :=
  match chunks with
  | [] => inr file_data
  | chunk :: chunks =>
      match download_turn net chunk with
      | inl r => inl r
      | inr file_data => download_loop net chunks (Some file_data)
      end
  end.

(** [download_file]: GET /download/<path:file_path>; [file_path] is what the
    route hands over, which never starts with a slash.  The metadata server
    is asked with [decoded_path] pasted behind [?path=].  Reading the unbound
    [file_data] after the loop raises, and the outer [except] answers 500. *)
Definition download_file (file_path : string) (w : World) : Reply (list byte) :=
  let decoded_path := unquote file_path in
  let decoded_path :=
    if String.prefix "/" decoded_path then decoded_path
    else "/" +:+ decoded_path in
  match Metadata.get_file_metadata (query_arg decoded_path) (server w) with
  | Err _ _ => Err 404 "File not found"
  | Ok _ (_, file_info) =>
      match download_loop (net w) (Metadata.chunks file_info) None with
      | inl r => r
      | inr None => Err 500 "General error during download"
      | inr (Some file_data) => Ok 200 file_data
      end
  end.

(** [path.split('/')]: the pieces between the slashes, at least one. *)
Fixpoint split_slash (path : string) : list string :=
  match path with
  | EmptyString => [EmptyString]
  | String c rest =>
      if bool_decide (c = "/"%char) then EmptyString :: split_slash rest
      else match split_slash rest with
           | part :: parts => String c part :: parts
           | [] => [String c EmptyString]
           end
  end.

(** ['/'.join(parts)]. *)
Fixpoint join_slash (parts : list string) : string :=
  match parts with
  | [] => EmptyString
  | [part] => part
  | part :: parts => part +:+ "/" +:+ join_slash parts
  end.

(** [browse]: GET /browse; [dir] is the query argument, "/" when absent.
    The listing comes from [list_files] of the metadata server, asked with
    [directory] pasted behind [?directory=]; it never answers an error.  The
    payload is [files], [directories] sorted (in the order [String.le] of
    strings), and [current_dir]. *)
Definition browse (dir : option string) (w : World)
    : Reply (gmap string nat * list string * string) :=
  let directory := default "/" dir in
  match Metadata.list_files (Some (query_arg directory)) (server w) with
  | Err code msg => Err code msg
  | Ok _ files =>
      let directories :=
        foldl (λ (directories : gset string) path,
                 let parts := split_slash path in
                 if (2 <? length parts)%nat then
                   let parent_dir := join_slash (removelast parts) +:+ "/" in
                   if String.prefix directory parent_dir
                      && negb (bool_decide (parent_dir = directory))
                   then {[ parent_dir ]} ∪ directories
                   else directories
                 else directories)
              ∅ (map_to_list files).*1 in
      Ok 200 (files,
              merge_sort String.le (elements directories),
              directory)
  end.

(** [rename_file]: POST /rename; the two form fields, [None] when absent.
    [response.raise_for_status()] raises on a 4xx or 5xx answer of the
    metadata server, and the [except] answers 500. *)
Definition rename_file (old_path new_path : option string) (w : World)
    : Reply string * World :=
  match old_path, new_path with
  | Some old_path, Some new_path =>
      if bool_decide (old_path = "") || bool_decide (new_path = "")
      then (Err 400 "old_path and new_path are required", w)
      else
        let '(response, server) :=
          Metadata.rename_file old_path new_path (server w) in
        if (400 <=? status_code response)%nat
        then (Err 500 "Rename request failed", mkWorld server (net w))
        else (Ok 200 new_path, mkWorld server (net w))
  | _, _ => (Err 400 "old_path and new_path are required", w)
  end.

(** [delete_file_web]: POST /delete/<path:file_path>; [file_path] is what the
    route hands over, which never starts with a slash.  It forwards to the
    metadata server, with [file_path] pasted behind [?path=], and sends
    nothing to the nodes.  The payload of the 200 reply stands for its
    message, which names the file. *)
Definition delete_file_web (file_path : string) (w : World)
    : Reply string * World :=
  let '(response, server) :=
    Metadata.delete_file (query_arg file_path) (server w) in
  if (status_code response =? 200)%nat
  then (Ok 200 file_path, mkWorld server (net w))
  else (Err 400 "Failed to delete file", mkWorld server (net w)).

End Gateway.

(* ===================================================================== *)
(** ** Notions the properties are stated with *)
(* ===================================================================== *)

(** Round-robin choice of [replicas] nodes from [nodes], starting at the
    head of the list. *)
Definition round_robin (nodes : list string) (replicas : nat) : list string :=
  (λ i, nodes !!! (i mod length nodes)%nat) <$> seq 0 replicas.

(** The bytes node [url] holds for [chunk_id], if the node is up and has
    them. *)
Definition blob (net : Net) (url : string)
    (chunk_id : nat) : option (list byte) :=
  net !! url ≫= λ store, store !! chunk_id.

(** What node [url] says of [chunk_id]: [None] when the node is down,
    [Some None] when it is up without the chunk, [Some (Some data)] when it
    holds [data]. *)
Definition replica (net : Net) (url : string)
    (chunk_id : nat) : option (option (list byte)) :=
  (λ store : Store, store !! chunk_id) <$> net !! url.

(** During a reconciliation pass: the node at [url_b] holds [data] for the
    chunk, and the node at [url_a] is up and has nothing else for it. *)
Definition repairable (url_a url_b : string) (chunk_id : nat)
    (data : list byte) (net : Net) : Prop :=
  replica net url_b chunk_id = Some (Some data)
  ∧ (replica net url_a chunk_id = Some None
     ∨ replica net url_a chunk_id = Some (Some data)).

(** Both nodes hold [data] for the chunk. *)
Definition repaired (url_a url_b : string) (chunk_id : nat)
    (data : list byte) (net : Net) : Prop :=
  replica net url_b chunk_id = Some (Some data)
  ∧ replica net url_a chunk_id = Some (Some data).

(** The states of the metadata server that CreateFile, RenameFile and
    DeleteFile can produce from the empty one. *)
Inductive reachable : Metadata.State → Prop :=
| reachable_initial :
    reachable Metadata.initial
| reachable_create now file_path file_size st :
    reachable st →
    reachable (Metadata.create_file now file_path file_size st).2
| reachable_rename old_path new_path st :
    reachable st →
    reachable (Metadata.rename_file old_path new_path st).2
| reachable_delete file_path st :
    reachable st →
    reachable (Metadata.delete_file file_path st).2.

(** A ChunkRecord names known nodes only, and its primary is one of its
    replicas. *)
Definition chunk_record_ok (info : Metadata.ChunkInfo) : Prop :=
  (∀ node_id, node_id ∈ Metadata.chunk_servers info →
              node_id ∈ Metadata.available_nodes)
  ∧ Metadata.primary info ∈ Metadata.chunk_servers info.

(** No chunk identifier is in the chunk sequence of two files. *)
Definition chunks_owned_once (st : Metadata.State) : Prop :=
  ∀ path1 path2 chunk_ids1 chunk_ids2 chunk_id,
    Metadata.file_to_chunks st !! path1 = Some chunk_ids1 →
    Metadata.file_to_chunks st !! path2 = Some chunk_ids2 →
    chunk_id ∈ chunk_ids1 → chunk_id ∈ chunk_ids2 → path1 = path2.

(** What holds of every reachable state, and implies the invariant: the
    records are the ones [create_file] writes, and the identifiers in the
    namespace were all drawn already and belong to one path each. *)
Definition directory_inv (st : Metadata.State) : Prop :=
  (∀ chunk_id info, Metadata.chunk_metadata st !! chunk_id = Some info →
                    ∃ now, info = Metadata.new_chunk_info now)
  ∧ (∀ path chunk_ids chunk_id,
       Metadata.file_to_chunks st !! path = Some chunk_ids →
       chunk_id ∈ chunk_ids → (chunk_id < Metadata.uuid_drawn st)%nat)
  ∧ chunks_owned_once st.

(** From [net] to [net'], no node went up or down, no blob was removed or
    changed, and blobs may have been added. *)
Definition keeps_blobs (net net' : Net) : Prop :=
  ∀ url chunk_id,
    match replica net url chunk_id with
    | None => replica net' url chunk_id = None
    | Some None => is_Some (replica net' url chunk_id)
    | Some (Some data) => replica net' url chunk_id = Some (Some data)
    end.

(** The number of slashes in a string. *)
Fixpoint count_slash (s : string) : nat :=
  match s with
  | EmptyString => 0
  | String c rest =>
      if bool_decide (c = "/"%char) then S (count_slash rest)
      else count_slash rest
  end.

(** A path that a query string carries as it is: it has none of the
    characters [%], [+], [&] and [#]. *)
Fixpoint url_plain (s : string) : bool :=
  match s with
  | EmptyString => true
  | String c rest =>
      negb (bool_decide (c = "%"%char)) && negb (bool_decide (c = "+"%char))
      && negb (bool_decide (c = "&"%char)) && negb (bool_decide (c = "#"%char))
      && url_plain rest
  end.

(** Every chunk a file lists has a ChunkRecord. *)
Definition listed_have_records (st : Metadata.State) : Prop :=
  ∀ path chunk_ids chunk_id,
    Metadata.file_to_chunks st !! path = Some chunk_ids →
    chunk_id ∈ chunk_ids →
    is_Some (Metadata.chunk_metadata st !! chunk_id).

(** Every ChunkRecord is keyed by an identifier that was drawn already. *)
Definition records_drawn (st : Metadata.State) : Prop :=
  ∀ chunk_id info,
    Metadata.chunk_metadata st !! chunk_id = Some info →
    (chunk_id < Metadata.uuid_drawn st)%nat.

(** A DELETE /chunk/<chunk_id> sent to the node at [url] directly, past the
    gateway and the metadata server. *)
Definition lose_chunk (url : string) (chunk_id : nat) (net : Net) : Net :=
  match net !! url with
  | None => net
  | Some store => <[url := (Node.delete_chunk chunk_id store).2]> net
  end.

(** The successive non-empty results of [file.read(CHUNK_SIZE)] on a file
    with the bytes [file] left, for at most [fuel] reads. *)
Fixpoint read_chunks (fuel : nat) (file : list byte) : list (list byte) :=
  match fuel with
  | O => []
  | S fuel =>
      match take Gateway.read_size file with
      | [] => []
      | chunk_data => chunk_data :: read_chunks fuel (drop Gateway.read_size file)
      end
  end.

(** The three configured nodes, all up, with their blobs. *)
Definition cluster (store1 store2 store3 : Store) : Net :=
  {[ "http://localhost:5001" := store1;
     "http://localhost:5002" := store2;
     "http://localhost:5003" := store3 ]}.

(** What the two threads [upload_file] starts for one chunk do to the
    nodes. *)
Definition store_chunk (net : Net)
    (chunk : nat * list byte) : Net :=
  async_upload_chunk "http://localhost:5002" chunk.2 chunk.1
    (async_upload_chunk "http://localhost:5001" chunk.2 chunk.1 net).

(** The threads [upload_file] starts for one chunk, in the order they start. *)
Definition chunk_threads (chunk : nat * list byte) : list Gateway.Thread :=
  [ ("http://localhost:5001", chunk.2, chunk.1);
    ("http://localhost:5002", chunk.2, chunk.1) ].

(* ===================================================================== *)
(** ** Paths in a query string *)
(* ===================================================================== *)
Section query_string.
Import Gateway.
Implicit Types (s : string).

Lemma url_plain_cons c s :
  url_plain (String c s) = true →
  c ≠ "%"%char ∧ c ≠ "+"%char ∧ c ≠ "&"%char ∧ c ≠ "#"%char
  ∧ url_plain s = true.
Proof.
  cbn [url_plain]. rewrite !andb_true_iff, !negb_true_iff.
  intros [[[[H1 H2] H3] H4] H5].
  by apply bool_decide_eq_false_1 in H1, H2, H3, H4.
Qed.

Lemma unquote_plain s : url_plain s = true → unquote s = s.
Proof.
  induction s as [|c s IH]; [done|].
  intros (Hc & _ & _ & _ & Hs)%url_plain_cons. cbn [unquote].
  rewrite bool_decide_eq_false_2 by done. rewrite IH by done.
  by destruct s as [|h [|l s]].
Qed.

Lemma before_hash_plain s : url_plain s = true → before "#" s = s.
Proof.
  induction s as [|c s IH]; [done|].
  intros (_ & _ & _ & Hc & Hs)%url_plain_cons. cbn [before].
  rewrite bool_decide_eq_false_2 by done. by rewrite IH.
Qed.

Lemma before_amp_plain s : url_plain s = true → before "&" s = s.
Proof.
  induction s as [|c s IH]; [done|].
  intros (_ & _ & Hc & _ & Hs)%url_plain_cons. cbn [before].
  rewrite bool_decide_eq_false_2 by done. by rewrite IH.
Qed.

Lemma plus_to_space_plain s : url_plain s = true → plus_to_space s = s.
Proof.
  induction s as [|c s IH]; [done|].
  intros (_ & Hc & _ & _ & Hs)%url_plain_cons. cbn [plus_to_space].
  rewrite bool_decide_eq_false_2 by done. by rewrite IH.
Qed.

Lemma percent_encoded_plain s : url_plain s = true → percent_encoded s = true.
Proof.
  induction s as [|c s IH]; [done|].
  intros (Hc & _ & _ & _ & Hs)%url_plain_cons. cbn [percent_encoded].
  rewrite bool_decide_eq_false_2 by done. by apply IH.
Qed.

(** A plain path reaches the metadata server as it was pasted. *)
Lemma query_arg_plain s : url_plain s = true → query_arg s = s.
Proof.
  intros Hs. unfold query_arg.
  rewrite before_hash_plain, before_amp_plain, plus_to_space_plain by done.
  rewrite percent_encoded_plain by done. by apply unquote_plain.
Qed.

(** The download of a plain route path asks for the path with a slash put
    before it. *)
Lemma download_file_route s (w : World) :
  url_plain s = true → String.prefix "/" s = false →
  download_file s w
  = match Metadata.get_file_metadata ("/" +:+ s) (server w) with
    | Err _ _ => Err 404 "File not found"
    | Ok _ (_, file_info) =>
        match download_loop (net w) (Metadata.chunks file_info) None with
        | inl r => r
        | inr None => Err 500 "General error during download"
        | inr (Some file_data) => Ok 200 file_data
        end
    end.
Proof.
  intros Hs Hslash. unfold download_file.
  rewrite unquote_plain, Hslash by done.
  by rewrite (query_arg_plain ("/" +:+ s)) by done.
Qed.
End query_string.

(* ===================================================================== *)
(** ** The chunk store *)
(* ===================================================================== *)
Section node_facts.
Implicit Types (store : Store) (header : option nat).

Lemma upload_chunk_empty header store :
  Node.upload_chunk header [] store
  = (Err 400 (match header with
              | Some _ => "No chunk data provided"
              | None => "Missing X-Chunk-ID header"
              end), store).
Proof. by destruct header. Qed.

Lemma upload_chunk_lookup header chunk_data store chunk_id :
  (Node.upload_chunk header chunk_data store).2 !! chunk_id
  = if decide (header = Some chunk_id ∧ chunk_data ≠ [])
    then Some chunk_data else store !! chunk_id.
Proof.
  unfold Node.upload_chunk.
  destruct header as [c|]; cbn [snd].
  - destruct chunk_data as [|b d]; cbn [snd].
    + case_decide as H; [by destruct H|done].
    + case_decide as H.
      * destruct H as [[= ->] _]. apply lookup_insert_eq.
      * apply lookup_insert_ne. intros ->. by apply H.
  - case_decide as H; [by destruct H|done].
Qed.

Lemma upload_chunk_is_Some header chunk_data store chunk_id :
  is_Some (store !! chunk_id) →
  is_Some ((Node.upload_chunk header chunk_data store).2 !! chunk_id).
Proof. rewrite upload_chunk_lookup. case_decide; eauto. Qed.
End node_facts.

(** C10. A Put with a zero-length body is answered 400 whatever the chunk
    identifier, and the blobs of the node stay as they were; hence no Put
    leaves an empty blob behind that was not there before, and a stored
    chunk is never replaced by empty bytes. *)
Theorem upload_chunk_rejects_empty_body :
  (∀ (header : option nat) (store : Store),
      ∃ msg, Node.upload_chunk header [] store = (Err 400 msg, store))
  ∧ (∀ (header : option nat) (chunk_data : list byte)
       (store : Store) (chunk_id : nat),
       (Node.upload_chunk header chunk_data store).2 !! chunk_id = Some [] →
       store !! chunk_id = Some []).
Proof.
  split.
  - intros header store. rewrite upload_chunk_empty. eauto.
  - intros header chunk_data store chunk_id.
    rewrite upload_chunk_lookup. case_decide as H; [|done].
    intros [= ->]. by destruct H.
Qed.

(* ===================================================================== *)
(** ** The metadata server: create, get, rename, delete *)
(* ===================================================================== *)
Section metadata_facts.
Import Metadata.
Implicit Types (st : State) (now : nat → Z) (file_path : string).
Implicit Types (cm : gmap nat ChunkInfo).

Lemma CHUNK_SIZE_pos : 0 < CHUNK_SIZE.
Proof. reflexivity. Qed.

Lemma assign_servers_in_range i :
  is_Some (available_nodes !! (i mod length available_nodes)%nat).
Proof.
  apply lookup_lt_is_Some. apply Nat.mod_upper_bound. discriminate.
Qed.

Lemma assign_servers_round_robin :
  assign_servers = round_robin available_nodes 2.
Proof. reflexivity. Qed.

(** The loop of [create_file] that fills [chunk_metadata]. *)
Lemma record_chunks_notin now (l : list (nat * nat)) cm (c : nat) :
  c ∉ l.*2 →
  foldl (λ chunk_metadata '(k, chunk_id),
           <[chunk_id := new_chunk_info (now k)]> chunk_metadata) cm l !! c
  = cm !! c.
Proof.
  revert cm. induction l as [|[k c'] l IH]; intros cm Hc; [done|].
  cbn [foldl]. rewrite fmap_cons, not_elem_of_cons in Hc.
  destruct Hc as [Hne Hc]. rewrite IH by done.
  apply lookup_insert_ne. intros ->. by apply Hne.
Qed.

Lemma record_chunks_in now (l : list (nat * nat)) cm (i k c : nat) :
  NoDup l.*2 → l !! i = Some (k, c) →
  foldl (λ chunk_metadata '(k, chunk_id),
           <[chunk_id := new_chunk_info (now k)]> chunk_metadata) cm l !! c
  = Some (new_chunk_info (now k)).
Proof.
  revert cm i. induction l as [|[k' c'] l IH]; intros cm i Hnd Hi; [done|].
  cbn [foldl]. rewrite fmap_cons in Hnd.
  apply NoDup_cons in Hnd as [Hnotin Hnd].
  destruct i as [|i].
  - injection Hi as -> ->. rewrite record_chunks_notin by done.
    apply lookup_insert_eq.
  - by eapply IH.
Qed.

Lemma record_chunks_lookup now (l : list (nat * nat)) cm c info :
  foldl (λ chunk_metadata '(k, chunk_id),
           <[chunk_id := new_chunk_info (now k)]> chunk_metadata) cm l !! c
  = Some info →
  cm !! c = Some info ∨ ∃ k, info = new_chunk_info (now k).
Proof.
  revert cm. induction l as [|[k c'] l IH]; intros cm; [by left|].
  cbn [foldl]. intros [H|H]%IH; [|by right].
  rewrite lookup_insert in H. case_decide; [|by left].
  injection H as <-. right. by exists k.
Qed.

Lemma zip_seq_lookup (count u k : nat) :
  (k < count)%nat → zip (seq 0 count) (seq u count) !! k = Some (k, (u + k)%nat).
Proof.
  intros Hk. apply lookup_zip_with_Some. exists k, (u + k)%nat.
  split; [done|]. split; by apply lookup_seq.
Qed.

Lemma create_file_reply now file_path file_size st :
  (create_file now file_path file_size st).1
  = Ok 200 (file_path,
            seq (uuid_drawn st) (Z.to_nat (chunk_count file_size))).
Proof. reflexivity. Qed.

Lemma create_file_entry now file_path file_size st path :
  file_to_chunks (create_file now file_path file_size st).2 !! path
  = if decide (file_path = path)
    then Some (seq (uuid_drawn st) (Z.to_nat (chunk_count file_size)))
    else file_to_chunks st !! path.
Proof. apply lookup_insert. Qed.

Lemma create_file_record now file_path file_size st (k : nat) :
  (k < Z.to_nat (chunk_count file_size))%nat →
  chunk_metadata (create_file now file_path file_size st).2
    !! (uuid_drawn st + k)%nat
  = Some (new_chunk_info (now k)).
Proof.
  intros Hk. unfold create_file. cbn [snd chunk_metadata].
  eapply record_chunks_in; [|by apply zip_seq_lookup].
  rewrite snd_zip by (by rewrite !length_seq). apply NoDup_seq.
Qed.

(** The loop of [get_file_metadata]. *)
Lemma get_loop_size cm (chunk_ids : list nat) (fm : FileMetadata) :
  size (foldl (λ file_metadata chunk_id,
                 match cm !! chunk_id with
                 | Some info =>
                     {| size := size file_metadata;
                        chunks := chunks file_metadata
                                    ++ [(chunk_id, chunk_servers info)] |}
                 | None => file_metadata
                 end) fm chunk_ids)
  = size fm.
Proof.
  revert fm. induction chunk_ids as [|c l IH]; intros fm; [done|].
  cbn [foldl]. rewrite IH. by destruct (cm !! c).
Qed.

Lemma get_loop_chunks cm (chunk_ids : list nat) (fm : FileMetadata) :
  chunks (foldl (λ file_metadata chunk_id,
                   match cm !! chunk_id with
                   | Some info =>
                       {| size := size file_metadata;
                          chunks := chunks file_metadata
                                      ++ [(chunk_id, chunk_servers info)] |}
                   | None => file_metadata
                   end) fm chunk_ids)
  = chunks fm
    ++ omap (λ chunk_id, (λ info, (chunk_id, chunk_servers info))
                           <$> cm !! chunk_id) chunk_ids.
Proof.
  revert fm. induction chunk_ids as [|c l IH]; intros fm.
  - cbn. by rewrite app_nil_r.
  - cbn [foldl omap list_omap]. rewrite IH.
    destruct (cm !! c); cbn; [by rewrite <- app_assoc|done].
Qed.

Lemma get_file_metadata_present file_path st chunk_ids :
  file_to_chunks st !! file_path = Some chunk_ids →
  get_file_metadata file_path st
  = Ok 200 (file_path,
            {| size := 0;
               chunks := omap (λ chunk_id,
                                 (λ info, (chunk_id, chunk_servers info))
                                   <$> chunk_metadata st !! chunk_id)
                              chunk_ids |}).
Proof.
  intros H. unfold get_file_metadata. rewrite H. do 2 f_equal.
  match goal with |- ?x = _ => destruct x as [s c] eqn:E end.
  apply (f_equal size) in E as Es. apply (f_equal chunks) in E as Ec.
  rewrite get_loop_size in Es. rewrite get_loop_chunks in Ec.
  cbn in Es, Ec. by subst.
Qed.

Lemma get_file_metadata_absent file_path st :
  file_to_chunks st !! file_path = None →
  get_file_metadata file_path st = Err 404 "File not found".
Proof. intros H. unfold get_file_metadata. by rewrite H. Qed.

(** The loop of [delete_file] over [chunks_to_delete]. *)
Lemma delete_loop_lookup cm (l : list nat) (c : nat) :
  foldl (λ chunk_metadata chunk_id,
           match chunk_metadata !! chunk_id with
           | Some _ => delete chunk_id chunk_metadata
           | None => chunk_metadata
           end) cm l !! c
  = if decide (c ∈ l) then None else cm !! c.
Proof.
  revert cm. induction l as [|c' l IH]; intros cm.
  - cbn. by rewrite decide_False by apply not_elem_of_nil.
  - cbn [foldl]. rewrite IH.
    destruct (decide (c ∈ l)) as [Hin|Hnin].
    + by rewrite decide_True by (by right).
    + destruct (decide (c = c')) as [->|Hne].
      * rewrite decide_True by (by left).
        destruct (cm !! c') eqn:E; [apply lookup_delete_eq|done].
      * rewrite decide_False by (by intros [?|?]%elem_of_cons).
        destruct (cm !! c'); [by apply lookup_delete_ne|done].
Qed.
End metadata_facts.

(** C4. Every chunk that CreateFile generates for a size that is not
    negative gets a replica set of exactly two distinct known nodes, chosen
    round-robin from the head of the configured node list; the first of them
    is the primary, the version is 0 and the lease expires LEASE_DURATION
    after the clock reading taken for that chunk. *)
Theorem create_file_placement (now : nat → Z) (file_path : string)
    (file_size : Z) (st : Metadata.State) (chunks : list nat)
    (k chunk_id : nat) :
  0 ≤ file_size →
  (Metadata.create_file now file_path file_size st).1
    = Ok 200 (file_path, chunks) →
  chunks !! k = Some chunk_id →
  ∃ info,
    Metadata.chunk_metadata (Metadata.create_file now file_path file_size st).2
      !! chunk_id = Some info
    ∧ Metadata.chunk_servers info = round_robin Metadata.available_nodes 2
    ∧ length (Metadata.chunk_servers info) = 2%nat
    ∧ NoDup (Metadata.chunk_servers info)
    ∧ (∀ node_id, node_id ∈ Metadata.chunk_servers info →
                  node_id ∈ Metadata.available_nodes)
    ∧ head (Metadata.chunk_servers info) = Some (Metadata.primary info)
    ∧ Metadata.version info = 0
    ∧ Metadata.lease_expiration info = now k + Metadata.LEASE_DURATION.
Proof.
  intros _ Hreply Hk. rewrite create_file_reply in Hreply.
  injection Hreply as <-. apply lookup_seq in Hk as [-> Hk].
  exists (Metadata.new_chunk_info (now k)).
  split; [by apply create_file_record|].
  split; [exact assign_servers_round_robin|].
  split; [reflexivity|].
  split.
  { apply NoDup_cons. split; [|apply NoDup_singleton].
    rewrite list_elem_of_singleton. discriminate. }
  split; [|by repeat split].
  intros node_id Hin.
  change Metadata.available_nodes with ["node1"; "node2"; "node3"].
  change (node_id ∈ ["node1"; "node2"]) in Hin.
  apply elem_of_cons in Hin as [->|Hin]; [apply list_elem_of_here|].
  apply list_elem_of_singleton in Hin as ->.
  apply list_elem_of_further, list_elem_of_here.
Qed.

Lemma create_file_placement_witness :
  0 ≤ 9000000
  ∧ (Metadata.create_file (λ k, 1000 + Z.of_nat k) "/dfs/a.bin" 9000000
                          Metadata.initial).1
      = Ok 200 ("/dfs/a.bin", [0; 1; 2]%nat)
  ∧ [0; 1; 2]%nat !! 2%nat = Some 2%nat
  ∧ ∃ info,
      Metadata.chunk_metadata
        (Metadata.create_file (λ k, 1000 + Z.of_nat k) "/dfs/a.bin" 9000000
                              Metadata.initial).2 !! 2%nat = Some info
      ∧ Metadata.chunk_servers info = round_robin Metadata.available_nodes 2
      ∧ length (Metadata.chunk_servers info) = 2%nat
      ∧ NoDup (Metadata.chunk_servers info)
      ∧ (∀ node_id, node_id ∈ Metadata.chunk_servers info →
                    node_id ∈ Metadata.available_nodes)
      ∧ head (Metadata.chunk_servers info) = Some (Metadata.primary info)
      ∧ Metadata.version info = 0
      ∧ Metadata.lease_expiration info
        = (1000 + Z.of_nat 2) + Metadata.LEASE_DURATION.
Proof.
  split; [lia|]. split; [reflexivity|]. split; [reflexivity|].
  apply (create_file_placement (λ k, 1000 + Z.of_nat k) "/dfs/a.bin" 9000000
           Metadata.initial [0; 1; 2]%nat 2 2); [lia|reflexivity|reflexivity].
Defined.

(** C5, as the code has it.  The claim that a negative size is refused
    fails: CreateFile of size -1 answers 200 with no chunks. *)
Lemma create_file_accepts_negative_size :
  -1 < 0
  ∧ Metadata.create_file (λ _, 0) "/dfs/a.bin" (-1) Metadata.initial
    = (Ok 200 ("/dfs/a.bin", []),
       Metadata.mkState {[ "/dfs/a.bin" := [] ]} ∅ 0).
Proof. split; [lia|]. reflexivity. Qed.

(** C5, amended.  CreateFile never refuses a size: it answers 200 and
    registers the path with the chunk identifiers it returns; there are none
    when the size is zero or negative, and for a positive size their number
    n is ceil(size / CHUNK_SIZE), that is (n-1) * CHUNK_SIZE < size <= n *
    CHUNK_SIZE. *)
Theorem create_file_chunk_count :
  ∀ (now : nat → Z) (file_path : string) (file_size : Z) (st : Metadata.State),
  ∃ chunks,
    (Metadata.create_file now file_path file_size st).1
      = Ok 200 (file_path, chunks)
    ∧ Metadata.file_to_chunks (Metadata.create_file now file_path file_size st).2
        !! file_path = Some chunks
    ∧ (file_size ≤ 0 → chunks = [])
    ∧ (0 < file_size →
       (Z.of_nat (length chunks) - 1) * CHUNK_SIZE < file_size
       ∧ file_size ≤ Z.of_nat (length chunks) * CHUNK_SIZE).
Proof.
  intros now file_path file_size st.
  exists (seq (Metadata.uuid_drawn st) (Z.to_nat (Metadata.chunk_count file_size))).
  split; [apply create_file_reply|].
  split; [by rewrite create_file_entry, decide_True|].
  unfold Metadata.chunk_count, CHUNK_SIZE. split.
  - intros Hle.
    assert ((file_size + 4194304 - 1) `div` 4194304 ≤ 0) as Hdiv
      by (Z.div_mod_to_equations; lia).
    by replace (Z.to_nat _) with 0%nat by lia.
  - intros Hpos. rewrite length_seq.
    rewrite Z2Nat.id by (Z.div_mod_to_equations; lia).
    Z.div_mod_to_equations. lia.
Qed.

(** C7 on a scenario: a file created with size 5 is reported with size 0. *)
Lemma get_file_metadata_size_not_recorded :
  0 ≤ 5
  ∧ Metadata.get_file_metadata "/dfs/a.bin"
      (Metadata.create_file (λ _, 0) "/dfs/a.bin" 5 Metadata.initial).2
    = Ok 200 ("/dfs/a.bin",
              {| Metadata.size := 0;
                 Metadata.chunks := [(0%nat, ["node1"; "node2"])] |})
  ∧ (0 : Z) ≠ 5.
Proof. split; [lia|]. split; [by vm_compute|lia]. Qed.

(** C7, where the code departs from the claim.  [get_file_metadata] answers
    the constant 0 in the size field, which the source marks a placeholder,
    and [create_file] keeps no size.  So for every file registered by
    CreateFile, GetFile succeeds with size 0, which is not the size of the
    file unless that is 0; and the same holds for every path that is in the
    namespace. *)
Theorem get_file_metadata_size_placeholder :
  (∀ (now : nat → Z) (file_path : string) (file_size : Z) (st : Metadata.State),
      ∃ file_metadata,
        Metadata.get_file_metadata file_path
          (Metadata.create_file now file_path file_size st).2
        = Ok 200 (file_path, file_metadata)
        ∧ Metadata.size file_metadata = 0
        ∧ (file_size ≠ 0 → Metadata.size file_metadata ≠ file_size))
  ∧ (∀ (file_path : string) (st : Metadata.State),
       is_Some (Metadata.file_to_chunks st !! file_path) →
       ∃ file_metadata,
         Metadata.get_file_metadata file_path st
         = Ok 200 (file_path, file_metadata)
         ∧ Metadata.size file_metadata = 0).
Proof.
  assert (∀ file_path st,
    is_Some (Metadata.file_to_chunks st !! file_path) →
    ∃ file_metadata,
      Metadata.get_file_metadata file_path st = Ok 200 (file_path, file_metadata)
      ∧ Metadata.size file_metadata = 0) as Hpresent.
  { intros file_path st [chunk_ids H].
    rewrite (get_file_metadata_present _ _ _ H). eauto. }
  split; [|done].
  intros now file_path file_size st.
  destruct (Hpresent file_path
              (Metadata.create_file now file_path file_size st).2)
    as (file_metadata & Hget & Hsize).
  { rewrite create_file_entry, decide_True by done. eauto. }
  exists file_metadata. split; [done|]. split; [done|].
  intros Hne. by rewrite Hsize.
Qed.

Section rename_delete_facts.
Import Metadata.
Implicit Types (st : State) (path : string).

Lemma rename_file_entry old_path new_path st path :
  file_to_chunks (rename_file old_path new_path st).2 !! path
  = match file_to_chunks st !! old_path with
    | None => file_to_chunks st !! path
    | Some chunk_ids =>
        if decide (path = old_path) then None
        else if decide (path = new_path) then Some chunk_ids
        else file_to_chunks st !! path
    end.
Proof.
  unfold rename_file. destruct (file_to_chunks st !! old_path) as [cs|] eqn:E;
    [|done].
  cbn [snd file_to_chunks]. destruct (decide (path = old_path)) as [->|Hne].
  - apply lookup_delete_eq.
  - rewrite lookup_delete_ne by done.
    destruct (decide (path = new_path)) as [->|Hne'].
    + apply lookup_insert_eq.
    + by apply lookup_insert_ne.
Qed.

Lemma rename_file_records old_path new_path st :
  chunk_metadata (rename_file old_path new_path st).2 = chunk_metadata st.
Proof. unfold rename_file. by destruct (file_to_chunks st !! old_path). Qed.

Lemma rename_file_uuid old_path new_path st :
  uuid_drawn (rename_file old_path new_path st).2 = uuid_drawn st.
Proof. unfold rename_file. by destruct (file_to_chunks st !! old_path). Qed.

Lemma delete_file_entry file_path st path :
  file_to_chunks (delete_file file_path st).2 !! path
  = if decide (path = file_path) then None else file_to_chunks st !! path.
Proof.
  unfold delete_file. destruct (file_to_chunks st !! file_path) eqn:E;
    cbn [snd file_to_chunks].
  - destruct (decide (path = file_path)) as [->|Hne].
    + apply lookup_delete_eq.
    + by apply lookup_delete_ne.
  - destruct (decide (path = file_path)) as [->|Hne]; done.
Qed.

Lemma delete_file_record file_path st (chunk_id : nat) :
  chunk_metadata (delete_file file_path st).2 !! chunk_id
  = match file_to_chunks st !! file_path with
    | None => chunk_metadata st !! chunk_id
    | Some chunks_to_delete =>
        if decide (chunk_id ∈ chunks_to_delete) then None
        else chunk_metadata st !! chunk_id
    end.
Proof.
  unfold delete_file. destruct (file_to_chunks st !! file_path) eqn:E;
    cbn [snd chunk_metadata]; [|done].
  apply delete_loop_lookup.
Qed.

Lemma delete_file_uuid file_path st :
  uuid_drawn (delete_file file_path st).2 = uuid_drawn st.
Proof. unfold delete_file. by destruct (file_to_chunks st !! file_path). Qed.

(** What DeleteFile does to the metadata: the entry and the records of its
    chunks go, and the path is then unknown. *)
Lemma delete_file_removes_metadata file_path st chunk_ids :
  file_to_chunks st !! file_path = Some chunk_ids →
  (delete_file file_path st).1 = Ok 200 (file_path, chunk_ids)
  ∧ file_to_chunks (delete_file file_path st).2 !! file_path = None
  ∧ (∀ chunk_id, chunk_id ∈ chunk_ids →
       chunk_metadata (delete_file file_path st).2 !! chunk_id = None)
  ∧ get_file_metadata file_path (delete_file file_path st).2
    = Err 404 "File not found".
Proof.
  intros H. split; [by unfold delete_file; rewrite H|].
  assert (file_to_chunks (delete_file file_path st).2 !! file_path = None)
    as Hgone by (by rewrite delete_file_entry, decide_True).
  split; [done|]. split; [|by apply get_file_metadata_absent].
  intros chunk_id Hin. by rewrite delete_file_record, H, decide_True.
Qed.

Lemma delete_file_absent file_path st :
  file_to_chunks st !! file_path = None →
  delete_file file_path st = (Err 404 "File not found", st).
Proof. intros H. unfold delete_file. by rewrite H. Qed.

(** The gateway's delete is the delete of the metadata server at the path
    the server reads from the query string; the nodes are not touched. *)
Lemma delete_file_web_server file_path (w : Gateway.World) :
  Gateway.delete_file_web file_path w
  = (match file_to_chunks (Gateway.server w) !! Gateway.query_arg file_path with
     | Some _ => Ok 200 file_path
     | None => Err 400 "Failed to delete file"
     end,
     Gateway.mkWorld
       (delete_file (Gateway.query_arg file_path) (Gateway.server w)).2
       (Gateway.net w)).
Proof.
  unfold Gateway.delete_file_web, delete_file.
  by destruct (file_to_chunks (Gateway.server w) !! Gateway.query_arg file_path).
Qed.
End rename_delete_facts.

(** C6, as the code has it.  The claim fails when the new path is the old
    one: the rename answers success and the entry is gone. *)
Lemma rename_file_same_path_drops_entry :
  Metadata.file_to_chunks
    (Metadata.create_file (λ _, 0) "/dfs/a.bin" 5 Metadata.initial).2
    !! "/dfs/a.bin" = Some [0%nat]
  ∧ (Metadata.rename_file "/dfs/a.bin" "/dfs/a.bin"
       (Metadata.create_file (λ _, 0) "/dfs/a.bin" 5 Metadata.initial).2).1
    = Ok 200 true
  ∧ Metadata.file_to_chunks
      (Metadata.rename_file "/dfs/a.bin" "/dfs/a.bin"
         (Metadata.create_file (λ _, 0) "/dfs/a.bin" 5 Metadata.initial).2).2
      !! "/dfs/a.bin" = None.
Proof. by vm_compute. Qed.

(** C6, amended.  When the old path is in the namespace and the new path is
    a different one, RenameFile succeeds, the new path then has the chunk
    sequence the old path had and GetFile on it returns the metadata GetFile
    returned on the old path, and GetFile on the old path is NotFound.  When
    the old path is absent, RenameFile is NotFound and nothing changes. *)
Theorem rename_file_moves_chunks :
  ∀ (old_path new_path : string) (st : Metadata.State),
    (∀ chunk_ids,
        Metadata.file_to_chunks st !! old_path = Some chunk_ids →
        old_path ≠ new_path →
        (Metadata.rename_file old_path new_path st).1 = Ok 200 true
        ∧ Metadata.file_to_chunks (Metadata.rename_file old_path new_path st).2
            !! new_path = Some chunk_ids
        ∧ (∃ file_metadata,
              Metadata.get_file_metadata old_path st
                = Ok 200 (old_path, file_metadata)
              ∧ Metadata.get_file_metadata new_path
                  (Metadata.rename_file old_path new_path st).2
                = Ok 200 (new_path, file_metadata))
        ∧ Metadata.get_file_metadata old_path
            (Metadata.rename_file old_path new_path st).2
          = Err 404 "File not found")
    ∧ (Metadata.file_to_chunks st !! old_path = None →
       Metadata.rename_file old_path new_path st
       = (Err 404 "File not found", st)).
Proof.
  intros old_path new_path st. split.
  - intros chunk_ids Hold Hne.
    assert (Metadata.file_to_chunks
              (Metadata.rename_file old_path new_path st).2 !! new_path
            = Some chunk_ids) as Hnew.
    { rewrite rename_file_entry, Hold.
      rewrite decide_False by done. by rewrite decide_True. }
    split; [by unfold Metadata.rename_file; rewrite Hold|].
    split; [done|]. split.
    + eexists. split; [by apply get_file_metadata_present|].
      rewrite (get_file_metadata_present _ _ _ Hnew).
      by rewrite rename_file_records.
    + apply get_file_metadata_absent.
      rewrite rename_file_entry, Hold. by rewrite decide_True.
  - intros Hold. unfold Metadata.rename_file. by rewrite Hold.
Qed.

(** C2, where the code departs from the claim.  A file is deleted through
    the gateway, POST /delete/<file_path>, where the path is in the
    namespace, has no leading slash (the route delivers none) and none of
    the characters % + & #.  DeleteFile of the metadata server answers 200
    with the chunk identifiers of the file, the gateway answers 200, the
    FileEntry and the ChunkRecords are gone and GetFile is NotFound; but no
    Delete is sent to any node: every node holds afterwards exactly the
    blobs it held before, those of the deleted file among them. *)
Theorem delete_file_leaves_blobs_on_nodes (file_path : string)
    (chunk_ids : list nat) (w : Gateway.World) :
  String.prefix "/" file_path = false →
  url_plain file_path = true →
  Metadata.file_to_chunks (Gateway.server w) !! file_path = Some chunk_ids →
  (Metadata.delete_file file_path (Gateway.server w)).1
    = Ok 200 (file_path, chunk_ids)
  ∧ (Gateway.delete_file_web file_path w).1 = Ok 200 file_path
  ∧ Metadata.file_to_chunks
      (Gateway.server (Gateway.delete_file_web file_path w).2) !! file_path
    = None
  ∧ (∀ chunk_id, chunk_id ∈ chunk_ids →
       Metadata.chunk_metadata
         (Gateway.server (Gateway.delete_file_web file_path w).2) !! chunk_id
       = None)
  ∧ Metadata.get_file_metadata file_path
      (Gateway.server (Gateway.delete_file_web file_path w).2)
    = Err 404 "File not found"
  ∧ Gateway.net (Gateway.delete_file_web file_path w).2 = Gateway.net w
  ∧ ∀ url chunk_id,
      blob (Gateway.net (Gateway.delete_file_web file_path w).2) url chunk_id
      = blob (Gateway.net w) url chunk_id.
Proof.
  intros _ Hplain Hentry.
  rewrite delete_file_web_server, query_arg_plain, Hentry by done.
  cbn [fst snd Gateway.server Gateway.net].
  destruct (delete_file_removes_metadata _ _ _ Hentry) as (H1 & H2 & H3 & H4).
  done.
Qed.

Lemma delete_file_leaves_blobs_on_nodes_witness :
  String.prefix "/" "dfs/a.bin" = false
  ∧ url_plain "dfs/a.bin" = true
  ∧ Metadata.file_to_chunks
      (Gateway.server
         (Gateway.mkWorld
            (Metadata.create_file (λ _, 0) "dfs/a.bin" 2 Metadata.initial).2
            (cluster {[ 0%nat := ["001"%byte; "002"%byte] ]}
                     {[ 0%nat := ["001"%byte; "002"%byte] ]} ∅)))
      !! "dfs/a.bin" = Some [0%nat]
  ∧ (Metadata.delete_file "dfs/a.bin"
       (Gateway.server
          (Gateway.mkWorld
             (Metadata.create_file (λ _, 0) "dfs/a.bin" 2 Metadata.initial).2
             (cluster {[ 0%nat := ["001"%byte; "002"%byte] ]}
                      {[ 0%nat := ["001"%byte; "002"%byte] ]} ∅)))).1
    = Ok 200 ("dfs/a.bin", [0%nat])
  ∧ (Gateway.delete_file_web "dfs/a.bin"
       (Gateway.mkWorld
          (Metadata.create_file (λ _, 0) "dfs/a.bin" 2 Metadata.initial).2
          (cluster {[ 0%nat := ["001"%byte; "002"%byte] ]}
                   {[ 0%nat := ["001"%byte; "002"%byte] ]} ∅))).1
    = Ok 200 "dfs/a.bin"
  ∧ Metadata.file_to_chunks
      (Gateway.server
         (Gateway.delete_file_web "dfs/a.bin"
            (Gateway.mkWorld
               (Metadata.create_file (λ _, 0) "dfs/a.bin" 2 Metadata.initial).2
               (cluster {[ 0%nat := ["001"%byte; "002"%byte] ]}
                        {[ 0%nat := ["001"%byte; "002"%byte] ]} ∅))).2)
      !! "dfs/a.bin"
    = None
  ∧ (∀ chunk_id, chunk_id ∈ [0%nat] →
       Metadata.chunk_metadata
         (Gateway.server
            (Gateway.delete_file_web "dfs/a.bin"
               (Gateway.mkWorld
                  (Metadata.create_file (λ _, 0) "dfs/a.bin" 2
                     Metadata.initial).2
                  (cluster {[ 0%nat := ["001"%byte; "002"%byte] ]}
                           {[ 0%nat := ["001"%byte; "002"%byte] ]} ∅))).2)
         !! chunk_id
       = None)
  ∧ Metadata.get_file_metadata "dfs/a.bin"
      (Gateway.server
         (Gateway.delete_file_web "dfs/a.bin"
            (Gateway.mkWorld
               (Metadata.create_file (λ _, 0) "dfs/a.bin" 2 Metadata.initial).2
               (cluster {[ 0%nat := ["001"%byte; "002"%byte] ]}
                        {[ 0%nat := ["001"%byte; "002"%byte] ]} ∅))).2)
    = Err 404 "File not found"
  ∧ Gateway.net
      (Gateway.delete_file_web "dfs/a.bin"
         (Gateway.mkWorld
            (Metadata.create_file (λ _, 0) "dfs/a.bin" 2 Metadata.initial).2
            (cluster {[ 0%nat := ["001"%byte; "002"%byte] ]}
                     {[ 0%nat := ["001"%byte; "002"%byte] ]} ∅))).2
    = Gateway.net
        (Gateway.mkWorld
           (Metadata.create_file (λ _, 0) "dfs/a.bin" 2 Metadata.initial).2
           (cluster {[ 0%nat := ["001"%byte; "002"%byte] ]}
                    {[ 0%nat := ["001"%byte; "002"%byte] ]} ∅))
  ∧ ∀ url chunk_id,
      blob (Gateway.net
              (Gateway.delete_file_web "dfs/a.bin"
                 (Gateway.mkWorld
                    (Metadata.create_file (λ _, 0) "dfs/a.bin" 2
                       Metadata.initial).2
                    (cluster {[ 0%nat := ["001"%byte; "002"%byte] ]}
                             {[ 0%nat := ["001"%byte; "002"%byte] ]} ∅))).2)
           url chunk_id
      = blob (Gateway.net
                (Gateway.mkWorld
                   (Metadata.create_file (λ _, 0) "dfs/a.bin" 2
                      Metadata.initial).2
                   (cluster {[ 0%nat := ["001"%byte; "002"%byte] ]}
                            {[ 0%nat := ["001"%byte; "002"%byte] ]} ∅)))
             url chunk_id.
Proof.
  split; [reflexivity|]. split; [reflexivity|]. split; [reflexivity|].
  apply (delete_file_leaves_blobs_on_nodes "dfs/a.bin" [0%nat]);
    reflexivity.
Defined.

(** The same on the scenario of a file of one chunk held by node1 and node2,
    registered under dfs/a.bin: after POST /delete/dfs/a.bin is answered 200
    the metadata is gone and both nodes still hold the blob. *)
Example delete_file_web_orphans_blobs :
  let w :=
    Gateway.mkWorld
      (Metadata.create_file (λ _, 0) "dfs/a.bin" 2 Metadata.initial).2
      (cluster {[ 0%nat := ["001"%byte; "002"%byte] ]}
               {[ 0%nat := ["001"%byte; "002"%byte] ]} ∅) in
  Metadata.file_to_chunks (Gateway.server w) !! "dfs/a.bin" = Some [0%nat]
  ∧ Metadata.chunk_servers <$> Metadata.chunk_metadata (Gateway.server w) !! 0%nat
    = Some ["node1"; "node2"]
  ∧ (Gateway.delete_file_web "dfs/a.bin" w).1 = Ok 200 "dfs/a.bin"
  ∧ Metadata.get_file_metadata "dfs/a.bin"
      (Gateway.server (Gateway.delete_file_web "dfs/a.bin" w).2)
    = Err 404 "File not found"
  ∧ Metadata.chunk_metadata
      (Gateway.server (Gateway.delete_file_web "dfs/a.bin" w).2) !! 0%nat
    = None
  ∧ blob (Gateway.net (Gateway.delete_file_web "dfs/a.bin" w).2)
         "http://localhost:5001" 0 = Some ["001"%byte; "002"%byte]
  ∧ blob (Gateway.net (Gateway.delete_file_web "dfs/a.bin" w).2)
         "http://localhost:5002" 0 = Some ["001"%byte; "002"%byte].
Proof. by vm_compute. Qed.

(** A file registered under an absolute path, as the upload form does by
    default, cannot be deleted through the gateway: the route hands over
    dfs/a.bin, which the metadata server does not know. *)
Example delete_file_web_absolute_path :
  Gateway.delete_file_web "dfs/a.bin"
    (Gateway.mkWorld
       (Metadata.create_file (λ _, 0) "/dfs/a.bin" 2 Metadata.initial).2
       (cluster ∅ ∅ ∅))
  = (Err 400 "Failed to delete file",
     Gateway.mkWorld
       (Metadata.create_file (λ _, 0) "/dfs/a.bin" 2 Metadata.initial).2
       (cluster ∅ ∅ ∅)).
Proof. by vm_compute. Qed.

(* ===================================================================== *)
(** ** The invariant of the chunk directory *)
(* ===================================================================== *)
Section invariant.
Import Metadata.
Implicit Types (st : State).

Lemma new_chunk_info_ok now : chunk_record_ok (new_chunk_info now).
Proof.
  split.
  - intros node_id Hin.
    change available_nodes with ["node1"; "node2"; "node3"].
    change (node_id ∈ ["node1"; "node2"]) in Hin.
    apply elem_of_cons in Hin as [->|Hin]; [apply list_elem_of_here|].
    apply list_elem_of_singleton in Hin as ->.
    apply list_elem_of_further, list_elem_of_here.
  - apply list_elem_of_here.
Qed.

Lemma directory_inv_initial : directory_inv initial.
Proof.
  split; [|split].
  - intros c info H. unfold initial in H. cbn [chunk_metadata] in H.
    by rewrite lookup_empty in H.
  - intros p cs c H. unfold initial in H. cbn [file_to_chunks] in H.
    by rewrite lookup_empty in H.
  - intros p1 p2 cs1 cs2 c H. unfold initial in H. cbn [file_to_chunks] in H.
    by rewrite lookup_empty in H.
Qed.

Lemma directory_inv_create now file_path file_size st :
  directory_inv st →
  directory_inv (create_file now file_path file_size st).2.
Proof.
  intros (Hrec & Hdrawn & Honce).
  set (count := Z.to_nat (chunk_count file_size)).
  assert (∀ path chunk_ids chunk_id,
    file_to_chunks (create_file now file_path file_size st).2 !! path
      = Some chunk_ids →
    chunk_id ∈ chunk_ids →
    (path = file_path ∧ (uuid_drawn st ≤ chunk_id < uuid_drawn st + count)%nat)
    ∨ (path ≠ file_path ∧ file_to_chunks st !! path = Some chunk_ids
       ∧ (chunk_id < uuid_drawn st)%nat)) as Hcases.
  { intros path cs c H Hin. rewrite create_file_entry in H.
    case_decide as Hp.
    - injection H as <-. left. split; [done|].
      apply elem_of_seq in Hin. lia.
    - right. split; [done|]. split; [done|]. by eapply Hdrawn. }
  split; [|split].
  - intros c info H. apply record_chunks_lookup in H as [H|[k ->]].
    + by eapply Hrec.
    + by eexists.
  - intros path cs c H Hin. cbn [snd uuid_drawn create_file].
    destruct (Hcases _ _ _ H Hin) as [[_ ?]|(_ & _ & ?)]; fold count; lia.
  - intros p1 p2 cs1 cs2 c H1 H2 Hin1 Hin2.
    destruct (Hcases _ _ _ H1 Hin1) as [[-> ?]|(? & H1' & ?)],
             (Hcases _ _ _ H2 Hin2) as [[-> ?]|(? & H2' & ?)];
      try done; try lia.
    by eapply Honce.
Qed.

Lemma directory_inv_rename old_path new_path st :
  directory_inv st → directory_inv (rename_file old_path new_path st).2.
Proof.
  intros (Hrec & Hdrawn & Honce).
  destruct (file_to_chunks st !! old_path) as [old_ids|] eqn:Hold;
    [|by unfold rename_file; rewrite Hold].
  assert (∀ path chunk_ids,
    file_to_chunks (rename_file old_path new_path st).2 !! path
      = Some chunk_ids →
    path ≠ old_path
    ∧ ((path = new_path ∧ chunk_ids = old_ids)
       ∨ (path ≠ new_path ∧ file_to_chunks st !! path = Some chunk_ids)))
    as Hcases.
  { intros path cs H. rewrite rename_file_entry, Hold in H.
    destruct (decide (path = old_path)); [done|]. split; [done|].
    destruct (decide (path = new_path)); [|by right].
    injection H as <-. by left. }
  split; [|split].
  - intros c info. rewrite rename_file_records. apply Hrec.
  - intros path cs c H Hin. rewrite rename_file_uuid.
    destruct (Hcases _ _ H) as [_ [[_ ->]|[_ H']]]; by eapply Hdrawn.
  - intros p1 p2 cs1 cs2 c H1 H2 Hin1 Hin2.
    destruct (Hcases _ _ H1) as [Hne1 [[-> ->]|[? H1']]],
             (Hcases _ _ H2) as [Hne2 [[-> ->]|[? H2']]]; try done.
    + destruct Hne2. symmetry. by eapply (Honce old_path p2).
    + destruct Hne1. by eapply (Honce p1 old_path).
    + by eapply Honce.
Qed.

Lemma directory_inv_delete file_path st :
  directory_inv st → directory_inv (delete_file file_path st).2.
Proof.
  intros (Hrec & Hdrawn & Honce).
  assert (∀ path chunk_ids,
    file_to_chunks (delete_file file_path st).2 !! path = Some chunk_ids →
    file_to_chunks st !! path = Some chunk_ids) as Hsub.
  { intros path cs. rewrite delete_file_entry. by case_decide. }
  split; [|split].
  - intros c info. rewrite delete_file_record.
    destruct (file_to_chunks st !! file_path); [case_decide; [done|]|];
      apply Hrec.
  - intros path cs c H Hin. rewrite delete_file_uuid.
    eapply Hdrawn; [by apply Hsub|done].
  - intros p1 p2 cs1 cs2 c H1 H2. apply Honce; by apply Hsub.
Qed.

Lemma reachable_directory_inv st : reachable st → directory_inv st.
Proof.
  induction 1 as [|now file_path file_size st _ IH
                  |old_path new_path st _ IH|file_path st _ IH].
  - apply directory_inv_initial.
  - by apply directory_inv_create.
  - by apply directory_inv_rename.
  - by apply directory_inv_delete.
Qed.
End invariant.

(** C9. In every state of the metadata server reachable from the empty one
    by CreateFile, RenameFile and DeleteFile, every ChunkRecord has its
    replica set within the known nodes and its primary in its replica set,
    and no chunk identifier is in the chunk sequence of two FileEntries. *)
Theorem reachable_chunk_records_ok (st : Metadata.State) :
  reachable st →
  (∀ chunk_id info,
      Metadata.chunk_metadata st !! chunk_id = Some info →
      chunk_record_ok info)
  ∧ chunks_owned_once st.
Proof.
  intros (Hrec & _ & Honce)%reachable_directory_inv. split; [|done].
  intros chunk_id info [now ->]%Hrec. apply new_chunk_info_ok.
Qed.

Lemma reachable_chunk_records_ok_witness :
  reachable
    (Metadata.rename_file "/dfs/a.bin" "/dfs/b.bin"
       (Metadata.create_file (λ _, 0) "/dfs/a.bin" 9000000 Metadata.initial).2).2
  ∧ (∀ chunk_id info,
        Metadata.chunk_metadata
          (Metadata.rename_file "/dfs/a.bin" "/dfs/b.bin"
             (Metadata.create_file (λ _, 0) "/dfs/a.bin" 9000000
                                   Metadata.initial).2).2
          !! chunk_id = Some info →
        chunk_record_ok info)
  ∧ chunks_owned_once
      (Metadata.rename_file "/dfs/a.bin" "/dfs/b.bin"
         (Metadata.create_file (λ _, 0) "/dfs/a.bin" 9000000 Metadata.initial).2).2.
Proof.
  split.
  - apply reachable_rename, reachable_create, reachable_initial.
  - apply reachable_chunk_records_ok.
    apply reachable_rename, reachable_create, reachable_initial.
Defined.

(* ===================================================================== *)
(** ** The reconciler *)
(* ===================================================================== *)
Section folds.
Context {A B : Type} (f : A → B → A).

Lemma foldl_invariant (I : A → Prop) (l : list B) (a : A) :
  I a → (∀ a b, b ∈ l → I a → I (f a b)) → I (foldl f a l).
Proof.
  revert a. induction l as [|b l IH]; intros a Ha Hstep; [done|].
  cbn [foldl]. apply IH.
  - apply Hstep; [apply list_elem_of_here|done].
  - intros a' b' Hin. apply Hstep. by apply list_elem_of_further.
Qed.

(** If every step keeps [I] and keeps [J], and the step at [b0] takes [I] to
    [J], then a loop over a list with [b0] in it takes [I] to [J]. *)
Lemma foldl_establishes (I J : A → Prop) (l : list B) (a : A) (b0 : B) :
  b0 ∈ l → I a →
  (∀ a b, b ∈ l → I a → I (f a b)) →
  (∀ a b, b ∈ l → J a → J (f a b)) →
  (∀ a, I a → J (f a b0)) →
  J (foldl f a l).
Proof.
  revert a. induction l as [|b l IH]; intros a Hin Ha HI HJ H0.
  - by apply elem_of_nil in Hin.
  - cbn [foldl]. apply elem_of_cons in Hin as [->|Hin].
    + apply foldl_invariant; [by apply H0|].
      intros a' b' Hin'. apply HJ. by apply list_elem_of_further.
    + apply IH; [done| |..].
      * apply HI; [apply list_elem_of_here|done].
      * intros a' b' Hin'. apply HI. by apply list_elem_of_further.
      * intros a' b' Hin'. apply HJ. by apply list_elem_of_further.
      * done.
Qed.
End folds.

Section network_facts.
Implicit Types (net : Net).
Implicit Types (url : string) (chunk_id : nat) (data : list byte).

Lemma node_url_cases node_id url :
  node_url node_id = Some url →
  (node_id = "node1" ∧ url = "http://localhost:5001")
  ∨ (node_id = "node2" ∧ url = "http://localhost:5002")
  ∨ (node_id = "node3" ∧ url = "http://localhost:5003").
Proof.
  unfold node_url. intros H%elem_of_list_to_map_2.
  apply elem_of_cons in H as [[= -> ->]|H]; [by left|].
  apply elem_of_cons in H as [[= -> ->]|H]; [by right; left|].
  apply list_elem_of_singleton in H as [= -> ->]. by right; right.
Qed.

Lemma node_url_inj node_a node_b url :
  node_url node_a = Some url → node_url node_b = Some url → node_a = node_b.
Proof.
  intros Ha%node_url_cases Hb%node_url_cases.
  destruct Ha as [[-> ->]|[[-> ->]|[-> ->]]],
           Hb as [[-> ?]|[[-> ?]|[-> ?]]]; done.
Qed.

Lemma blob_replica net url chunk_id data :
  blob net url chunk_id = Some data
  ↔ replica net url chunk_id = Some (Some data).
Proof.
  unfold blob, replica. destruct (net !! url) as [store|]; cbn; [|done].
  split; [by intros ->|by intros [= ->]].
Qed.

Lemma async_upload_chunk_replica node_url' data chunk_id' net url chunk_id :
  replica (async_upload_chunk node_url' data chunk_id' net) url chunk_id
  = if decide (node_url' = url ∧ chunk_id' = chunk_id ∧ data ≠ [])
    then (λ _, Some data) <$> net !! url
    else replica net url chunk_id.
Proof.
  unfold async_upload_chunk, replica.
  destruct (net !! node_url') as [store|] eqn:Hup.
  - destruct (decide (node_url' = url)) as [->|Hne].
    + rewrite lookup_insert_eq, Hup. cbn [fmap option_fmap option_map].
      rewrite upload_chunk_lookup.
      case_decide as H1; case_decide as H2; try done.
      * destruct H2. by destruct H1 as [[= ->] ?].
      * destruct H1. by destruct H2 as (_ & -> & ?).
    + rewrite lookup_insert_ne by done.
      by rewrite decide_False by (by intros [? _]).
  - case_decide as H; [|done]. destruct H as [<- _]. by rewrite Hup.
Qed.

(** One repair either leaves the nodes alone or is one upload of the chunk. *)
Lemma repair_replica_cases (chunk_servers : list string) chunk_id net node_id :
  Metadata.repair_replica chunk_servers chunk_id net node_id = net
  ∨ ∃ url data,
      Metadata.repair_replica chunk_servers chunk_id net node_id
      = async_upload_chunk url data chunk_id net.
Proof.
  unfold Metadata.repair_replica.
  destruct (node_url node_id) as [url|]; [|by left]. cbn [mbind option_bind].
  destruct (get_exists url chunk_id net) as [response|]; [|by left].
  cbn [mbind option_bind].
  destruct (negb (status_code response =? 200)%nat
            || negb (Node.json_exists response)); [|by left].
  destruct (List.find _ chunk_servers) as [backup|]; [|by left].
  destruct (node_url backup) as [backup_url|]; [|by left].
  cbn [mbind option_bind].
  destruct (get_chunk backup_url chunk_id net) as [backup_response|];
    [|by left].
  cbn [mbind option_bind].
  destruct (status_code backup_response =? 200)%nat; [|by left].
  right. eauto.
Qed.

(** Repairing one chunk tells nothing new about another. *)
Lemma repair_replica_other (chunk_servers : list string) chunk_id' net node_id
    url chunk_id :
  chunk_id' ≠ chunk_id →
  replica (Metadata.repair_replica chunk_servers chunk_id' net node_id)
          url chunk_id
  = replica net url chunk_id.
Proof.
  intros Hne.
  destruct (repair_replica_cases chunk_servers chunk_id' net node_id)
    as [->|(u & d & ->)]; [done|].
  rewrite async_upload_chunk_replica.
  by rewrite decide_False by (by intros (_ & ? & _)).
Qed.

Lemma reconcile_chunk_other st net chunk_id' url chunk_id :
  chunk_id' ≠ chunk_id →
  replica (Metadata.reconcile_chunk st net chunk_id') url chunk_id
  = replica net url chunk_id.
Proof.
  intros Hne. unfold Metadata.reconcile_chunk.
  destruct (Metadata.chunk_metadata st !! chunk_id') as [info|]; [|done].
  destruct (Metadata.chunk_servers info) as [|n l]; [done|].
  apply (foldl_invariant _ (λ net', replica net' url chunk_id
                                    = replica net url chunk_id)); [done|].
  intros net' node_id _ <-. by apply repair_replica_other.
Qed.
End network_facts.

Section self_healing.
Context (node_a node_b url_a url_b : string) (chunk_id : nat) (data : list byte).
Hypothesis Hurl_a : node_url node_a = Some url_a.
Hypothesis Hurl_b : node_url node_b = Some url_b.
Hypothesis Hdistinct : node_a ≠ node_b.
Hypothesis Hdata : data ≠ [].
Implicit Types (net : Net).
Implicit Types (st : Metadata.State) (chunk_servers : list string).

Lemma replica_present net url c d :
  replica net url c = Some (Some d) →
  get_exists url c net = Some (Ok 200 true)
  ∧ get_chunk url c net = Some (Ok 200 d).
Proof.
  unfold replica, get_exists, get_chunk,
    Node.check_chunk_exists, Node.download_chunk.
  destruct (net !! url) as [store|]; [|done]. cbn. by intros [= ->].
Qed.

Lemma replica_missing net url c :
  replica net url c = Some None → get_exists url c net = Some (Ok 200 false).
Proof.
  unfold replica, get_exists, Node.check_chunk_exists.
  destruct (net !! url) as [store|]; [|done]. cbn. by intros [= ->].
Qed.

Lemma repair_replica_present chunk_servers net node_id url d :
  node_url node_id = Some url →
  replica net url chunk_id = Some (Some d) →
  Metadata.repair_replica chunk_servers chunk_id net node_id = net.
Proof.
  intros Hurl [Hex _]%replica_present.
  unfold Metadata.repair_replica. rewrite Hurl. cbn [mbind option_bind].
  by rewrite Hex.
Qed.

(** The repair itself: node A answers that the chunk is missing, the first
    other replica is B, B returns the bytes, and they are posted to A. *)
Lemma repair_replica_missing chunk_servers net :
  chunk_servers = [node_a; node_b] ∨ chunk_servers = [node_b; node_a] →
  replica net url_a chunk_id = Some None →
  replica net url_b chunk_id = Some (Some data) →
  Metadata.repair_replica chunk_servers chunk_id net node_a
  = async_upload_chunk url_a data chunk_id net.
Proof.
  intros Hcs Hex%replica_missing [_ Hget]%replica_present.
  unfold Metadata.repair_replica. rewrite Hurl_a. cbn [mbind option_bind].
  rewrite Hex. cbn [mbind option_bind status_code Node.json_exists].
  assert (List.find (λ potential_node_id,
                       bool_decide (potential_node_id ≠ node_a))
                    chunk_servers = Some node_b) as ->.
  { destruct Hcs as [-> | ->]; cbn [List.find].
    - rewrite bool_decide_eq_false_2 by (by intros ?).
      by rewrite bool_decide_eq_true_2 by done.
    - by rewrite bool_decide_eq_true_2 by done. }
  cbn [Nat.eqb negb orb]. rewrite Hurl_b. cbn [mbind option_bind].
  by rewrite Hget.
Qed.

Lemma urls_distinct : url_a ≠ url_b.
Proof. intros ->. apply Hdistinct. by eapply node_url_inj. Qed.

Lemma repairable_upload net :
  repairable url_a url_b chunk_id data net →
  repaired url_a url_b chunk_id data
           (async_upload_chunk url_a data chunk_id net).
Proof.
  intros [Hb Ha]. split.
  - rewrite async_upload_chunk_replica.
    by rewrite decide_False by (intros [? _]; by apply urls_distinct).
  - rewrite async_upload_chunk_replica, decide_True by done.
    unfold replica in Ha. by destruct Ha as [Ha|Ha], (net !! url_a).
Qed.

Lemma repaired_repairable net :
  repaired url_a url_b chunk_id data net →
  repairable url_a url_b chunk_id data net.
Proof. intros [? ?]. split; [done|by right]. Qed.

(** A repair of the chunk at either replica, under the loop invariant. *)
Lemma repair_replica_step chunk_servers net node_id :
  chunk_servers = [node_a; node_b] ∨ chunk_servers = [node_b; node_a] →
  node_id ∈ chunk_servers →
  repairable url_a url_b chunk_id data net →
  repairable url_a url_b chunk_id data
    (Metadata.repair_replica chunk_servers chunk_id net node_id)
  ∧ (node_id = node_a →
     repaired url_a url_b chunk_id data
       (Metadata.repair_replica chunk_servers chunk_id net node_id))
  ∧ (repaired url_a url_b chunk_id data net →
     Metadata.repair_replica chunk_servers chunk_id net node_id = net).
Proof.
  intros Hcs Hin Hinv.
  assert (node_id = node_a ∨ node_id = node_b) as [-> | ->].
  { destruct Hcs as [-> | ->];
      (apply elem_of_cons in Hin as [->|Hin];
       [|apply list_elem_of_singleton in Hin as ->]); auto. }
  - destruct Hinv as [Hb [Ha|Ha]].
    + rewrite (repair_replica_missing _ _ Hcs Ha Hb).
      assert (repaired url_a url_b chunk_id data
                (async_upload_chunk url_a data chunk_id net)) as Hdone
        by (apply repairable_upload; split; [done|by left]).
      split; [by apply repaired_repairable|]. split; [done|].
      intros [_ Ha']. congruence.
    + rewrite (repair_replica_present _ _ _ _ _ Hurl_a Ha).
      split; [split; [done|by right]|]. by split.
  - destruct Hinv as [Hb Ha].
    rewrite (repair_replica_present _ _ _ _ _ Hurl_b Hb).
    split; [done|]. split; [|done]. intros ->. by destruct Hdistinct.
Qed.

Lemma reconcile_chunk_step st net c :
  (∀ info, Metadata.chunk_metadata st !! chunk_id = Some info →
           Metadata.chunk_servers info = [node_a; node_b]
           ∨ Metadata.chunk_servers info = [node_b; node_a]) →
  repairable url_a url_b chunk_id data net →
  repairable url_a url_b chunk_id data (Metadata.reconcile_chunk st net c)
  ∧ (c = chunk_id → is_Some (Metadata.chunk_metadata st !! chunk_id) →
     repaired url_a url_b chunk_id data (Metadata.reconcile_chunk st net c))
  ∧ (repaired url_a url_b chunk_id data net →
     repaired url_a url_b chunk_id data (Metadata.reconcile_chunk st net c)).
Proof.
  intros Hservers Hinv.
  destruct (decide (c = chunk_id)) as [->|Hne].
  - unfold Metadata.reconcile_chunk.
    destruct (Metadata.chunk_metadata st !! chunk_id) as [info|] eqn:Hinfo.
    2:{ split; [done|]. split; [|done]. by intros _ [? ?]. }
    specialize (Hservers info eq_refl).
    assert (∃ n l, Metadata.chunk_servers info = n :: l) as (n & l & Hnl)
      by (destruct Hservers as [-> | ->]; eauto).
    rewrite Hnl. rewrite <- Hnl.
    assert (node_a ∈ Metadata.chunk_servers info) as Hin_a.
    { destruct Hservers as [-> | ->];
        [apply list_elem_of_here|apply list_elem_of_further, list_elem_of_here]. }
    split; [|split].
    + apply (foldl_invariant _ (repairable url_a url_b chunk_id data));
        [done|].
      intros net' node_id Hin Hinv'.
      by apply (repair_replica_step _ _ _ Hservers Hin Hinv').
    + intros _ _.
      apply (foldl_establishes _ (repairable url_a url_b chunk_id data)
               (repaired url_a url_b chunk_id data) _ _ node_a Hin_a Hinv).
      * intros net' node_id Hin Hinv'.
        by apply (repair_replica_step _ _ _ Hservers Hin Hinv').
      * intros net' node_id Hin Hdone.
        destruct (repair_replica_step _ _ _ Hservers Hin
                    (repaired_repairable _ Hdone)) as (_ & _ & ->); done.
      * intros net' Hinv'.
        by apply (repair_replica_step _ _ _ Hservers Hin_a Hinv').
    + intros Hdone.
      apply (foldl_invariant _ (repaired url_a url_b chunk_id data)); [done|].
      intros net' node_id Hin Hdone'.
      destruct (repair_replica_step _ _ _ Hservers Hin
                  (repaired_repairable _ Hdone')) as (_ & _ & ->); done.
  - unfold repairable, repaired.
    rewrite !(reconcile_chunk_other st net c _ chunk_id Hne).
    split; [done|]. split; [done|]. done.
Qed.
End self_healing.

(** C3, as the code has it.  The claim fails for a ChunkRecord that no file
    lists: after /dfs/a.bin is created twice, the record of chunk 0 is still
    in the directory with replicas node1 and node2, node2 holds its bytes and
    node1 does not, and a reconciliation pass leaves node1 without them. *)
Lemma reconcile_cycle_skips_unlisted_record :
  let st :=
    (Metadata.create_file (λ _, 0) "/dfs/a.bin" 2
       (Metadata.create_file (λ _, 0) "/dfs/a.bin" 2 Metadata.initial).2).2 in
  let net := cluster ∅ {[ 0%nat := ["001"%byte; "002"%byte] ]} ∅ in
  Metadata.chunk_servers <$> Metadata.chunk_metadata st !! 0%nat
    = Some ["node1"; "node2"]
  ∧ blob net "http://localhost:5002" 0 = Some ["001"%byte; "002"%byte]
  ∧ replica net "http://localhost:5001" 0 = Some None
  ∧ replica (Metadata.reconcile_cycle st net) "http://localhost:5001" 0
    = Some None.
Proof. by vm_compute. Qed.

(** The same pass does not repair from a replica whose blob is empty: the
    Put of the empty bytes is refused by the node. *)
Example reconcile_cycle_skips_empty_blob :
  let st := (Metadata.create_file (λ _, 0) "/dfs/a.bin" 2 Metadata.initial).2 in
  let net := cluster ∅ {[ 0%nat := [] ]} ∅ in
  Metadata.file_to_chunks st !! "/dfs/a.bin" = Some [0%nat]
  ∧ Metadata.chunk_servers <$> Metadata.chunk_metadata st !! 0%nat
    = Some ["node1"; "node2"]
  ∧ blob net "http://localhost:5002" 0 = Some []
  ∧ replica (Metadata.reconcile_cycle st net) "http://localhost:5001" 0
    = Some None.
Proof. by vm_compute. Qed.

(** C3, amended.  Take a ChunkRecord whose replica set is two distinct known
    nodes A and B and whose chunk is in the chunk sequence of some file, and
    nodes such that A is up without the chunk and B holds non-empty bytes for
    it.  After one reconciliation pass every node of the replica set holds
    exactly those bytes for the chunk. *)
Theorem reconcile_cycle_heals (st : Metadata.State) (net : Net)
    (file_path : string) (chunk_ids : list nat) (chunk_id : nat)
    (info : Metadata.ChunkInfo) (node_a node_b url_a url_b : string)
    (data : list byte) :
  Metadata.file_to_chunks st !! file_path = Some chunk_ids →
  chunk_id ∈ chunk_ids →
  Metadata.chunk_metadata st !! chunk_id = Some info →
  Metadata.chunk_servers info = [node_a; node_b]
    ∨ Metadata.chunk_servers info = [node_b; node_a] →
  node_a ≠ node_b →
  node_url node_a = Some url_a →
  node_url node_b = Some url_b →
  replica net url_a chunk_id = Some None →
  blob net url_b chunk_id = Some data →
  data ≠ [] →
  ∀ node_id, node_id ∈ Metadata.chunk_servers info →
    ∃ url, node_url node_id = Some url
           ∧ blob (Metadata.reconcile_cycle st net) url chunk_id = Some data.
Proof.
  intros Hfile Hin Hinfo Hservers Hne Hurl_a Hurl_b Ha Hb Hdata.
  assert (∀ info', Metadata.chunk_metadata st !! chunk_id = Some info' →
            Metadata.chunk_servers info' = [node_a; node_b]
            ∨ Metadata.chunk_servers info' = [node_b; node_a]) as Hrec
    by (intros info' H; by simplify_eq).
  pose proof (λ net c, reconcile_chunk_step node_a node_b url_a url_b chunk_id
                data Hurl_a Hurl_b Hne Hdata st net c Hrec) as Hchunk.
  assert (repaired url_a url_b chunk_id data (Metadata.reconcile_cycle st net))
    as [Hb' Ha'].
  { unfold Metadata.reconcile_cycle.
    apply (foldl_establishes _ (repairable url_a url_b chunk_id data)
             (repaired url_a url_b chunk_id data) _ _ (file_path, chunk_ids)).
    - by apply elem_of_map_to_list.
    - split; [by apply blob_replica|by left].
    - intros net' [p ids] _ Hinv.
      apply (foldl_invariant _ (repairable url_a url_b chunk_id data));
        [done|].
      intros net'' c _ Hinv'. by apply Hchunk.
    - intros net' [p ids] _ Hdone.
      apply (foldl_invariant _ (repaired url_a url_b chunk_id data)); [done|].
      intros net'' c _ Hdone'.
      destruct (Hchunk net'' c (repaired_repairable _ _ _ _ _ Hdone'))
        as (_ & _ & H). by apply H.
    - intros net' Hinv.
      apply (foldl_establishes _ (repairable url_a url_b chunk_id data)
               (repaired url_a url_b chunk_id data) _ _ chunk_id Hin Hinv).
      + intros net'' c _ Hinv'. by apply Hchunk.
      + intros net'' c _ Hdone'.
        destruct (Hchunk net'' c (repaired_repairable _ _ _ _ _ Hdone'))
          as (_ & _ & H). by apply H.
      + intros net'' Hinv'.
        destruct (Hchunk net'' chunk_id Hinv') as (_ & H & _).
        apply H; [done|by eexists]. }
  intros node_id Hnode.
  assert (node_id = node_a ∨ node_id = node_b) as [-> | ->].
  { destruct Hservers as [H|H]; rewrite H in Hnode;
      (apply elem_of_cons in Hnode as [->|Hnode];
       [|apply list_elem_of_singleton in Hnode as ->]); auto. }
  - exists url_a. split; [done|]. by apply blob_replica.
  - exists url_b. split; [done|]. by apply blob_replica.
Qed.

Lemma reconcile_cycle_heals_witness :
  let st := (Metadata.create_file (λ _, 0) "/dfs/a.bin" 2 Metadata.initial).2 in
  let net := cluster ∅ {[ 0%nat := ["001"%byte; "002"%byte] ]} ∅ in
  let info := Metadata.new_chunk_info 0 in
  Metadata.file_to_chunks st !! "/dfs/a.bin" = Some [0%nat]
  ∧ Metadata.chunk_metadata st !! 0%nat = Some info
  ∧ Metadata.chunk_servers info = ["node1"; "node2"]
  ∧ replica net "http://localhost:5001" 0 = Some None
  ∧ blob net "http://localhost:5002" 0 = Some ["001"%byte; "002"%byte]
  ∧ ∀ node_id, node_id ∈ Metadata.chunk_servers info →
      ∃ url, node_url node_id = Some url
             ∧ blob (Metadata.reconcile_cycle st net) url 0
               = Some ["001"%byte; "002"%byte].
Proof.
  cbv zeta.
  split; [reflexivity|]. split; [reflexivity|]. split; [reflexivity|].
  split; [reflexivity|]. split; [reflexivity|].
  apply (reconcile_cycle_heals _ _ "/dfs/a.bin" [0%nat] 0 _
           "node1" "node2" "http://localhost:5001" "http://localhost:5002").
  - reflexivity.
  - apply list_elem_of_here.
  - reflexivity.
  - left. reflexivity.
  - discriminate.
  - reflexivity.
  - reflexivity.
  - reflexivity.
  - reflexivity.
  - discriminate.
Defined.

(* ===================================================================== *)
(** ** The gateway: upload and download *)
(* ===================================================================== *)
Section chunking.
Import Gateway.
Implicit Types (file data : list byte) (fuel : nat).

Lemma read_size_CHUNK_SIZE : Z.of_nat read_size = CHUNK_SIZE.
Proof. unfold read_size, CHUNK_SIZE. lia. Qed.

Lemma read_size_pos : (0 < read_size)%nat.
Proof. pose proof read_size_CHUNK_SIZE. unfold CHUNK_SIZE in *. lia. Qed.

Local Opaque read_size.

Lemma take_read_size_nil file : take read_size file = [] → file = [].
Proof.
  intros H. apply (f_equal length) in H. rewrite length_take in H.
  pose proof read_size_pos. destruct file; [done|]. cbn in H. lia.
Qed.

Lemma read_chunks_nil fuel : read_chunks fuel [] = [].
Proof. destruct fuel; [done|]. cbn [read_chunks]. by rewrite take_nil. Qed.

Lemma read_chunks_cons fuel file :
  file ≠ [] →
  read_chunks (S fuel) file
  = take read_size file :: read_chunks fuel (drop read_size file).
Proof.
  intros Hne. cbn [read_chunks].
  destruct (take read_size file) eqn:E; [|done].
  by apply take_read_size_nil in E.
Qed.

(** The reads return the file, piece by piece. *)
Lemma read_chunks_concat fuel file :
  (length file < fuel)%nat → concat (read_chunks fuel file) = file.
Proof.
  revert file. induction fuel as [|fuel IH]; intros file Hfuel; [lia|].
  destruct file as [|b file]; [by rewrite read_chunks_nil|].
  rewrite read_chunks_cons by done. cbn [concat].
  rewrite IH; [apply take_drop|].
  rewrite length_drop. pose proof read_size_pos. cbn [length] in *. lia.
Qed.

(** Their number is the least n with length file <= n * CHUNK_SIZE. *)
Lemma read_chunks_length fuel file :
  (length file < fuel)%nat →
  Z.of_nat (length file) ≤ Z.of_nat (length (read_chunks fuel file)) * CHUNK_SIZE
  ∧ Z.of_nat (length (read_chunks fuel file)) * CHUNK_SIZE
    < Z.of_nat (length file) + CHUNK_SIZE.
Proof.
  revert file. induction fuel as [|fuel IH]; intros file Hfuel; [lia|].
  destruct file as [|b file].
  { rewrite read_chunks_nil. cbn [length]. unfold CHUNK_SIZE. lia. }
  rewrite read_chunks_cons by done.
  pose proof read_size_pos. pose proof read_size_CHUNK_SIZE.
  specialize (IH (drop read_size (b :: file))).
  rewrite length_drop in IH. cbn [length] in *. unfold CHUNK_SIZE in *.
  destruct (decide (S (length file) ≤ read_size)%nat) as [Hle|Hgt].
  - rewrite drop_ge, read_chunks_nil by (cbn [length]; lia).
    cbn [length]. clear IH. lia.
  - specialize (IH ltac:(lia)). lia.
Qed.

(** Every piece is non-empty and at most CHUNK_SIZE long, and every piece
    but the last is exactly CHUNK_SIZE long. *)
Lemma read_chunks_sizes fuel file (i : nat) piece :
  (length file < fuel)%nat →
  read_chunks fuel file !! i = Some piece →
  (0 < length piece)%nat
  ∧ Z.of_nat (length piece) ≤ CHUNK_SIZE
  ∧ ((S i < length (read_chunks fuel file))%nat →
     Z.of_nat (length piece) = CHUNK_SIZE).
Proof.
  revert file i. induction fuel as [|fuel IH]; intros file i Hfuel Hi; [lia|].
  destruct file as [|b file]; [by rewrite read_chunks_nil in Hi|].
  rewrite read_chunks_cons in Hi |- * by done.
  pose proof read_size_pos. pose proof read_size_CHUNK_SIZE.
  unfold CHUNK_SIZE in *.
  destruct i as [|i].
  - cbn [lookup list_lookup] in Hi. apply (inj Some) in Hi as <-.
    rewrite length_take. cbn [length].
    split; [lia|]. split; [lia|]. intros Hmore.
    destruct (decide (S (length file) ≤ read_size)%nat) as [Hle|Hgt]; [|lia].
    rewrite drop_ge, read_chunks_nil in Hmore by (cbn [length]; lia).
    cbn [length] in Hmore. lia.
  - cbn [lookup list_lookup] in Hi.
    apply IH in Hi as (? & ? & Hrest).
    + split; [done|]. split; [done|]. intros Hmore. apply Hrest.
      cbn [length] in Hmore. lia.
    + rewrite length_drop. cbn [length] in *. lia.
Qed.

Lemma read_chunks_count data :
  length (read_chunks (S (length data)) data)
  = Z.to_nat (Metadata.chunk_count (Z.of_nat (length data))).
Proof.
  destruct (read_chunks_length (S (length data)) data) as [Hlo Hhi]; [lia|].
  unfold Metadata.chunk_count, CHUNK_SIZE in *.
  apply Nat2Z.inj. rewrite Z2Nat.id by (Z.div_mod_to_equations; lia).
  Z.div_mod_to_equations. lia.
Qed.
End chunking.

Section upload.
Import Gateway.
Implicit Types (file data : list byte) (fuel : nat).
Implicit Types (net : Net).
Local Opaque read_size.

Lemma node_url_node1 : node_url "node1" = Some "http://localhost:5001".
Proof. reflexivity. Qed.

Lemma node_url_node2 : node_url "node2" = Some "http://localhost:5002".
Proof. reflexivity. Qed.

Lemma start_threads_nodes data (chunk_id : nat) (threads : list Thread) net :
  start_threads ["node1"; "node2"] data chunk_id threads net
  = Some (threads ++ chunk_threads (chunk_id, data),
          store_chunk net (chunk_id, data)).
Proof.
  cbn [start_threads]. rewrite node_url_node1, node_url_node2.
  by rewrite <- app_assoc.
Qed.

(** The loop of [upload_file] ends at [break] when enough identifiers were
    registered: it has started the threads of every piece read, in order. *)
Lemma upload_loop_spec fuel file (chunks : list nat) (chunk_index : nat)
    (threads : list Thread) net :
  (length file < fuel)%nat →
  (chunk_index + length (read_chunks fuel file) ≤ length chunks)%nat →
  upload_loop fuel file chunks chunk_index threads net
  = Some (Break,
          threads ++ flat_map chunk_threads
                       (zip (drop chunk_index chunks) (read_chunks fuel file)),
          foldl store_chunk net
                (zip (drop chunk_index chunks) (read_chunks fuel file))).
Proof.
  revert file chunk_index threads net.
  induction fuel as [|fuel IH]; intros file idx threads net Hfuel Hids; [lia|].
  destruct file as [|b file].
  { rewrite read_chunks_nil. cbn [upload_loop]. rewrite take_nil.
    rewrite zip_with_nil_r. cbn. by rewrite app_nil_r. }
  rewrite read_chunks_cons in Hids |- * by done. cbn [upload_loop].
  destruct (take read_size (b :: file)) as [|b' piece] eqn:E;
    [by apply take_read_size_nil in E|].
  cbn [length] in Hids.
  destruct (lookup_lt_is_Some_2 chunks idx) as [chunk_id Hid]; [lia|].
  rewrite Hid, start_threads_nodes, (drop_S _ _ _ Hid).
  rewrite Nat.add_1_r, IH.
  - cbn [zip_with flat_map foldl]. by rewrite <- app_assoc.
  - rewrite length_drop. pose proof read_size_pos. cbn [length] in *. lia.
  - lia.
Qed.

(** The loop always ends, whatever identifiers were registered: a file of
    fewer bytes than [fuel] never uses the fuel up. *)
Lemma upload_loop_fuel fuel file (chunks : list nat) (chunk_index : nat)
    (threads : list Thread) net :
  (length file < fuel)%nat →
  is_Some (upload_loop fuel file chunks chunk_index threads net).
Proof.
  revert file chunk_index threads net.
  induction fuel as [|fuel IH]; intros file idx threads net Hfuel; [lia|].
  cbn [upload_loop].
  destruct (take read_size file) as [|b piece] eqn:E; [by eexists|].
  destruct (chunks !! idx) as [chunk_id|]; [|by eexists].
  rewrite start_threads_nodes. apply IH.
  rewrite length_drop. pose proof read_size_pos.
  destruct file; [by rewrite take_nil in E|]. cbn [length] in *. lia.
Qed.

(** [upload_file] on a named file: the reply, the threads and the world. *)
Lemma upload_file_spec now filename data directory (w : World) :
  filename ≠ "" →
  let pieces := read_chunks (S (length data)) data in
  let chunks := seq (Metadata.uuid_drawn (server w)) (length pieces) in
  upload_file now (Some (filename, data)) directory w
  = Some (Ok 200 directory,
          flat_map chunk_threads (zip chunks pieces),
          mkWorld
            (Metadata.create_file now (os_path_join directory filename)
               (Z.of_nat (length data)) (server w)).2
            (foldl store_chunk (net w) (zip chunks pieces))).
Proof.
  intros Hname pieces chunks. unfold upload_file.
  rewrite bool_decide_eq_false_2 by done.
  unfold Metadata.create_file. rewrite <- !read_chunks_count.
  fold pieces. fold chunks.
  rewrite upload_loop_spec; [by rewrite drop_0|lia|].
  unfold chunks. rewrite length_seq. fold pieces. lia.
Qed.
End upload.

(** C8. For every file, of any size S, the upload path answers 200 after
    starting one thread per replica for each piece of the file, in order; the
    pieces concatenate to the file, there are ceil(S / CHUNK_SIZE) of them,
    as many as chunk identifiers were registered for the path, each is
    non-empty and at most CHUNK_SIZE bytes long, and each but the last is
    exactly CHUNK_SIZE bytes long. *)
Theorem upload_file_chunking (now : nat → Z) (filename : string)
    (data : list byte) (directory : string) (w : Gateway.World) :
  filename ≠ "" →
  ∃ pieces threads w',
    Gateway.upload_file now (Some (filename, data)) directory w
      = Some (Ok 200 directory, threads, w')
    ∧ Metadata.file_to_chunks (Gateway.server w')
        !! Gateway.os_path_join directory filename
      = Some (seq (Metadata.uuid_drawn (Gateway.server w)) (length pieces))
    ∧ threads
      = flat_map chunk_threads
          (zip (seq (Metadata.uuid_drawn (Gateway.server w)) (length pieces))
               pieces)
    ∧ concat pieces = data
    ∧ (Z.of_nat (length pieces) - 1) * CHUNK_SIZE < Z.of_nat (length data)
    ∧ Z.of_nat (length data) ≤ Z.of_nat (length pieces) * CHUNK_SIZE
    ∧ ∀ (i : nat) piece, pieces !! i = Some piece →
        (0 < length piece)%nat
        ∧ Z.of_nat (length piece) ≤ CHUNK_SIZE
        ∧ ((S i < length pieces)%nat → Z.of_nat (length piece) = CHUNK_SIZE).
Proof.
  intros Hname. eexists _, _, _.
  split; [by apply upload_file_spec|].
  split.
  { cbn [Gateway.server]. rewrite create_file_entry, decide_True by done.
    by rewrite read_chunks_count. }
  split; [done|].
  split; [apply read_chunks_concat; lia|].
  destruct (read_chunks_length (S (length data)) data) as [Hlo Hhi]; [lia|].
  split; [lia|]. split; [done|].
  intros i piece Hi. eapply read_chunks_sizes; [|done]. lia.
Qed.

Lemma upload_file_chunking_witness :
  "a.bin" ≠ ""
  ∧ ∃ pieces threads w',
      Gateway.upload_file (λ _, 0)
        (Some ("a.bin", ["001"%byte; "002"%byte; "003"%byte])) "/dfs/"
        (Gateway.mkWorld Metadata.initial (cluster ∅ ∅ ∅))
      = Some (Ok 200 "/dfs/", threads, w')
      ∧ Metadata.file_to_chunks (Gateway.server w')
          !! Gateway.os_path_join "/dfs/" "a.bin"
        = Some (seq 0 (length pieces))
      ∧ threads
        = flat_map chunk_threads (zip (seq 0 (length pieces)) pieces)
      ∧ concat pieces = ["001"%byte; "002"%byte; "003"%byte]
      ∧ (Z.of_nat (length pieces) - 1) * CHUNK_SIZE < Z.of_nat 3
      ∧ Z.of_nat 3 ≤ Z.of_nat (length pieces) * CHUNK_SIZE
      ∧ ∀ (i : nat) piece, pieces !! i = Some piece →
          (0 < length piece)%nat
          ∧ Z.of_nat (length piece) ≤ CHUNK_SIZE
          ∧ ((S i < length pieces)%nat → Z.of_nat (length piece) = CHUNK_SIZE).
Proof.
  split; [discriminate|].
  apply (upload_file_chunking (λ _, 0) "a.bin"
           ["001"%byte; "002"%byte; "003"%byte] "/dfs/"
           (Gateway.mkWorld Metadata.initial (cluster ∅ ∅ ∅))).
  discriminate.
Defined.

Section download.
Import Gateway.
Implicit Types (data : list byte) (net : Net).
Local Opaque read_size.

Lemma async_upload_chunk_up url' data (chunk_id : nat) net url :
  is_Some (net !! url) →
  is_Some (async_upload_chunk url' data chunk_id net !! url).
Proof.
  intros Hup. unfold async_upload_chunk.
  destruct (net !! url') as [store|]; [|done].
  apply lookup_insert_is_Some'. by right.
Qed.

Lemma store_chunk_up net (chunk : nat * list byte) url :
  is_Some (net !! url) → is_Some (store_chunk net chunk !! url).
Proof. intros Hup. by do 2 apply async_upload_chunk_up. Qed.

(** What node1 holds after the two uploads of one chunk. *)
Lemma store_chunk_replica net (chunk : nat * list byte) (chunk_id : nat) :
  replica (store_chunk net chunk) "http://localhost:5001" chunk_id
  = if decide (chunk.1 = chunk_id ∧ chunk.2 ≠ [])
    then (λ _, Some chunk.2) <$> net !! "http://localhost:5001"
    else replica net "http://localhost:5001" chunk_id.
Proof.
  unfold store_chunk. rewrite async_upload_chunk_replica.
  rewrite decide_False by (by intros [? _]).
  rewrite async_upload_chunk_replica.
  case_decide as H1; case_decide as H2; try done.
  - destruct H2. by destruct H1 as (_ & ? & ?).
  - by destruct H1.
Qed.

Lemma store_chunks_notin net (l : list (nat * list byte)) (chunk_id : nat) :
  chunk_id ∉ l.*1 →
  replica (foldl store_chunk net l) "http://localhost:5001" chunk_id
  = replica net "http://localhost:5001" chunk_id.
Proof.
  revert net. induction l as [|chunk l IH]; intros net Hc; [done|].
  cbn [foldl]. rewrite fmap_cons, not_elem_of_cons in Hc.
  destruct Hc as [Hne Hc]. rewrite IH by done.
  rewrite store_chunk_replica. by rewrite decide_False by (by intros [? _]).
Qed.

Lemma store_chunks_in net (l : list (nat * list byte)) (i chunk_id : nat) data :
  NoDup l.*1 → l !! i = Some (chunk_id, data) → data ≠ [] →
  is_Some (net !! "http://localhost:5001") →
  replica (foldl store_chunk net l) "http://localhost:5001" chunk_id
  = Some (Some data).
Proof.
  revert net i. induction l as [|chunk l IH]; intros net i Hnd Hi Hdata Hup;
    [done|].
  cbn [foldl]. rewrite fmap_cons in Hnd.
  apply NoDup_cons in Hnd as [Hnotin Hnd].
  destruct i as [|i].
  - injection Hi as ->. rewrite store_chunks_notin by done.
    rewrite store_chunk_replica, decide_True by done.
    by destruct Hup as [store ->].
  - eapply IH; [done|done|done|]. by apply store_chunk_up.
Qed.

(** A turn of the download loop for a chunk the primary node1 holds. *)
Lemma download_turn_primary net (chunk_id : nat) data :
  replica net "http://localhost:5001" chunk_id = Some (Some data) →
  download_turn net (chunk_id, ["node1"; "node2"]) = inr data.
Proof.
  intros [Hex Hget]%replica_present. unfold download_turn.
  cbn [lookup list_lookup mbind option_bind].
  rewrite node_url_node1. cbn [mbind option_bind].
  rewrite Hex. cbn [mbind option_bind status_code Node.json_exists Nat.eqb andb].
  by rewrite Hget.
Qed.

(** The loop keeps the bytes of the last chunk only: each turn starts from an
    empty [file_data]. *)
Lemma download_loop_stored net (chunk_ids : list nat)
    (pieces : list (list byte)) (file_data : option (list byte)) :
  Forall2 (λ chunk_id piece,
             replica net "http://localhost:5001" chunk_id = Some (Some piece))
          chunk_ids pieces →
  download_loop net ((λ chunk_id, (chunk_id, ["node1"; "node2"])) <$> chunk_ids)
                file_data
  = inr (match last pieces with
         | Some piece => Some piece
         | None => file_data
         end).
Proof.
  intros H. revert file_data.
  induction H as [|chunk_id piece chunk_ids pieces Hhead _ IH];
    intros file_data; [done|].
  cbn [fmap list_fmap download_loop].
  rewrite (download_turn_primary _ _ _ Hhead), IH, last_cons.
  by destruct (last pieces).
Qed.

Lemma omap_total {A B} (f : A → option B) (g : A → B) (l : list A) :
  (∀ x, x ∈ l → f x = Some (g x)) → omap f l = g <$> l.
Proof.
  induction l as [|x l IH]; intros H; [done|].
  cbn [omap list_omap fmap list_fmap].
  rewrite (H x) by apply list_elem_of_here.
  rewrite IH; [done|]. intros y Hy. apply H. by apply list_elem_of_further.
Qed.

(** GetFile on a path that was just created. *)
Lemma get_file_metadata_created now file_path file_size (st : Metadata.State) :
  Metadata.get_file_metadata file_path
    (Metadata.create_file now file_path file_size st).2
  = Ok 200
      (file_path,
       {| Metadata.size := 0;
          Metadata.chunks :=
            (λ chunk_id, (chunk_id, ["node1"; "node2"]))
              <$> seq (Metadata.uuid_drawn st)
                      (Z.to_nat (Metadata.chunk_count file_size)) |}).
Proof.
  erewrite get_file_metadata_present;
    [|by rewrite create_file_entry, decide_True].
  do 3 f_equal. apply omap_total. intros chunk_id Hin.
  apply elem_of_seq in Hin.
  replace chunk_id
    with (Metadata.uuid_drawn st + (chunk_id - Metadata.uuid_drawn st))%nat
    by lia.
  rewrite create_file_record by lia. done.
Qed.

(** Download after upload, with node1 up: the reply carries the last piece
    of the file, and no bytes at all when the file is empty.  The file is
    registered under the route path with a slash before it. *)
Lemma download_after_upload now filename data directory file_path (w : World) :
  filename ≠ "" →
  String.prefix "/" file_path = false →
  url_plain file_path = true →
  os_path_join directory filename = "/" +:+ file_path →
  is_Some (net w !! "http://localhost:5001") →
  ∃ threads w',
    upload_file now (Some (filename, data)) directory w
      = Some (Ok 200 directory, threads, w')
    ∧ download_file file_path w'
      = match last (read_chunks (S (length data)) data) with
        | Some piece => Ok 200 piece
        | None => Err 500 "General error during download"
        end.
Proof.
  intros Hname Hslash Hplain Hpath Hup. eexists _, _.
  split; [by apply upload_file_spec|].
  rewrite download_file_route by done. rewrite <- Hpath. cbn [server net].
  rewrite get_file_metadata_created, <- read_chunks_count.
  cbn [Metadata.chunks].
  set (pieces := read_chunks (S (length data)) data).
  set (chunk_ids := seq (Metadata.uuid_drawn (server w)) (length pieces)).
  rewrite (download_loop_stored _ chunk_ids pieces); [by destruct (last pieces)|].
  assert (length chunk_ids = length pieces) as Hlen
    by (unfold chunk_ids; by rewrite length_seq).
  apply Forall2_same_length_lookup_2; [done|].
  intros i chunk_id piece Hid Hpiece.
  apply (store_chunks_in _ _ i); [| |..|done].
  - rewrite fst_zip by lia. apply NoDup_seq.
  - apply lookup_zip_with_Some. exists chunk_id, piece.
    split; [reflexivity|]. split; assumption.
  - destruct (read_chunks_sizes (S (length data)) data i piece) as [Hpos _];
      [lia|done|]. intros ->. cbn in Hpos. lia.
Qed.
End download.

Section round_trip.
Import Gateway.
Implicit Types (data : list byte).
Local Opaque read_size.

Lemma read_chunks_single fuel data :
  data ≠ [] → Z.of_nat (length data) ≤ CHUNK_SIZE →
  read_chunks (S fuel) data = [data].
Proof.
  intros Hne Hle. pose proof read_size_CHUNK_SIZE.
  rewrite read_chunks_cons by done.
  by rewrite take_ge, drop_ge, read_chunks_nil by lia.
Qed.

Lemma read_chunks_last_short data :
  data ≠ [] →
  ∃ piece, last (read_chunks (S (length data)) data) = Some piece
           ∧ Z.of_nat (length piece) ≤ CHUNK_SIZE.
Proof.
  intros Hne.
  destruct (last (read_chunks (S (length data)) data)) as [piece|] eqn:E.
  - exists piece. split; [done|]. rewrite last_lookup in E.
    by destruct (read_chunks_sizes _ _ _ _ (Nat.lt_succ_diag_r _) E)
      as (_ & ? & _).
  - apply last_None in E.
    destruct (read_chunks_length (S (length data)) data) as [Hlo _]; [lia|].
    rewrite E in Hlo. destruct data; [done|]. cbn [length] in Hlo. lia.
Qed.
End round_trip.

(** A file of one chunk comes back as it was written.  Data of 1 to
    CHUNK_SIZE bytes is uploaded while node1 is up, and the upload registers
    it under the absolute path "/" + p, where p has no leading slash (the
    download route delivers none) and none of the characters % + & #, which
    the query string to the metadata server would alter.  Then
    GET /download/p answers 200 with the same bytes. *)
Lemma round_trip_single_chunk (now : nat → Z) (filename : string)
    (data : list byte) (directory file_path : string) (w : Gateway.World) :
  filename ≠ "" →
  String.prefix "/" file_path = false →
  url_plain file_path = true →
  Gateway.os_path_join directory filename = "/" +:+ file_path →
  is_Some (Gateway.net w !! "http://localhost:5001") →
  data ≠ [] →
  Z.of_nat (length data) ≤ CHUNK_SIZE →
  ∃ threads w',
    Gateway.upload_file now (Some (filename, data)) directory w
      = Some (Ok 200 directory, threads, w')
    ∧ Gateway.download_file file_path w' = Ok 200 data.
Proof.
  intros Hname Hslash Hplain Hpath Hup Hne Hle.
  destruct (download_after_upload now filename data directory file_path w
              Hname Hslash Hplain Hpath Hup)
    as (threads & w' & Hupload & Hdownload).
  exists threads, w'. split; [done|].
  by rewrite Hdownload, read_chunks_single.
Qed.

Lemma round_trip_single_chunk_witness :
  "a.bin" ≠ ""
  ∧ String.prefix "/" "dfs/a.bin" = false
  ∧ url_plain "dfs/a.bin" = true
  ∧ Gateway.os_path_join "/dfs/" "a.bin" = "/" +:+ "dfs/a.bin"
  ∧ is_Some (cluster ∅ ∅ ∅ !! "http://localhost:5001")
  ∧ ["001"%byte; "002"%byte] ≠ []
  ∧ Z.of_nat (length ["001"%byte; "002"%byte]) ≤ CHUNK_SIZE
  ∧ ∃ threads w',
      Gateway.upload_file (λ _, 0) (Some ("a.bin", ["001"%byte; "002"%byte]))
        "/dfs/" (Gateway.mkWorld Metadata.initial (cluster ∅ ∅ ∅))
      = Some (Ok 200 "/dfs/", threads, w')
      ∧ Gateway.download_file "dfs/a.bin" w' = Ok 200 ["001"%byte; "002"%byte].
Proof.
  split; [discriminate|]. split; [reflexivity|]. split; [reflexivity|].
  split; [reflexivity|].
  split; [by eexists|]. split; [discriminate|]. split; [discriminate|].
  apply (round_trip_single_chunk (λ _, 0) "a.bin" ["001"%byte; "002"%byte]
           "/dfs/" "dfs/a.bin"
           (Gateway.mkWorld Metadata.initial (cluster ∅ ∅ ∅))).
  - discriminate.
  - reflexivity.
  - reflexivity.
  - reflexivity.
  - by eexists.
  - discriminate.
  - discriminate.
Defined.

(** C1, where the code departs from the claim, for the empty file: the
    upload of zero bytes to /dfs/a.bin registers a file without chunks and
    answers 200, and GET /download/dfs/a.bin answers 500 instead of the
    empty byte sequence. *)
Lemma download_after_upload_empty_file :
  Gateway.upload_file (λ _, 0) (Some ("a.bin", [])) "/dfs/"
    (Gateway.mkWorld Metadata.initial (cluster ∅ ∅ ∅))
  = Some (Ok 200 "/dfs/", [],
          Gateway.mkWorld (Metadata.mkState {[ "/dfs/a.bin" := [] ]} ∅ 0)
                          (cluster ∅ ∅ ∅))
  ∧ Gateway.download_file "dfs/a.bin"
      (Gateway.mkWorld (Metadata.mkState {[ "/dfs/a.bin" := [] ]} ∅ 0)
                       (cluster ∅ ∅ ∅))
    = Err 500 "General error during download".
Proof. split; by vm_compute. Qed.

(** C1, where the code departs from the claim, for a file of more than one
    chunk: when more than CHUNK_SIZE bytes are uploaded, with node1 up, and
    registered under the absolute path "/" + p (p without a leading slash,
    as the download route delivers it, and without the characters % + & #,
    which the query string to the metadata server would alter), then
    GET /download/p answers 200 with at most CHUNK_SIZE bytes, the last chunk
    alone, which is not the file that was written. *)
Theorem download_after_upload_keeps_last_chunk_only (now : nat → Z)
    (filename : string) (data : list byte) (directory file_path : string)
    (w : Gateway.World) :
  filename ≠ "" →
  String.prefix "/" file_path = false →
  url_plain file_path = true →
  Gateway.os_path_join directory filename = "/" +:+ file_path →
  is_Some (Gateway.net w !! "http://localhost:5001") →
  CHUNK_SIZE < Z.of_nat (length data) →
  ∃ threads w' piece,
    Gateway.upload_file now (Some (filename, data)) directory w
      = Some (Ok 200 directory, threads, w')
    ∧ Gateway.download_file file_path w' = Ok 200 piece
    ∧ last (read_chunks (S (length data)) data) = Some piece
    ∧ Z.of_nat (length piece) ≤ CHUNK_SIZE
    ∧ piece ≠ data.
Proof.
  intros Hname Hslash Hplain Hpath Hup Hlong.
  destruct (download_after_upload now filename data directory file_path w
              Hname Hslash Hplain Hpath Hup)
    as (threads & w' & Hupload & Hdownload).
  destruct (read_chunks_last_short data) as (piece & Hlast & Hshort).
  { intros ->. cbn [length] in Hlong. unfold CHUNK_SIZE in Hlong. lia. }
  exists threads, w', piece. rewrite Hlast in Hdownload.
  split; [done|]. split; [done|]. split; [done|]. split; [done|].
  intros ->. lia.
Qed.

Lemma download_after_upload_keeps_last_chunk_only_witness :
  "a.bin" ≠ ""
  ∧ String.prefix "/" "dfs/a.bin" = false
  ∧ url_plain "dfs/a.bin" = true
  ∧ Gateway.os_path_join "/dfs/" "a.bin" = "/" +:+ "dfs/a.bin"
  ∧ is_Some (cluster ∅ ∅ ∅ !! "http://localhost:5001")
  ∧ CHUNK_SIZE < Z.of_nat (length (replicate (S Gateway.read_size) "000"%byte))
  ∧ ∃ threads w' piece,
      Gateway.upload_file (λ _, 0)
        (Some ("a.bin", replicate (S Gateway.read_size) "000"%byte)) "/dfs/"
        (Gateway.mkWorld Metadata.initial (cluster ∅ ∅ ∅))
      = Some (Ok 200 "/dfs/", threads, w')
      ∧ Gateway.download_file "dfs/a.bin" w' = Ok 200 piece
      ∧ last (read_chunks
                (S (length (replicate (S Gateway.read_size) "000"%byte)))
                (replicate (S Gateway.read_size) "000"%byte)) = Some piece
      ∧ Z.of_nat (length piece) ≤ CHUNK_SIZE
      ∧ piece ≠ replicate (S Gateway.read_size) "000"%byte.
Proof.
  assert (CHUNK_SIZE
          < Z.of_nat (length (replicate (S Gateway.read_size) "000"%byte)))
    as Hlong.
  { rewrite length_replicate, Nat2Z.inj_succ, read_size_CHUNK_SIZE. lia. }
  split; [discriminate|]. split; [reflexivity|]. split; [reflexivity|].
  split; [reflexivity|].
  split; [by eexists|]. split; [exact Hlong|].
  apply (download_after_upload_keeps_last_chunk_only (λ _, 0) "a.bin"
           (replicate (S Gateway.read_size) "000"%byte) "/dfs/" "dfs/a.bin"
           (Gateway.mkWorld Metadata.initial (cluster ∅ ∅ ∅))).
  - discriminate.
  - reflexivity.
  - reflexivity.
  - reflexivity.
  - by eexists.
  - exact Hlong.
Defined.

(* ===================================================================== *)
(** ** More on the chunk store *)
(* ===================================================================== *)

(** A Put with a chunk identifier and a non-empty body is answered 201;
    the chunk then exists and a Get returns exactly the body, whatever was
    stored under the identifier before; every other chunk reads as before. *)
Theorem upload_then_download_chunk (chunk_id : nat) (chunk_data : list byte)
    (store : Store) :
  chunk_data ≠ [] →
  (Node.upload_chunk (Some chunk_id) chunk_data store).1 = Ok 201 chunk_id
  ∧ Node.download_chunk chunk_id
      (Node.upload_chunk (Some chunk_id) chunk_data store).2
    = Ok 200 chunk_data
  ∧ Node.check_chunk_exists chunk_id
      (Node.upload_chunk (Some chunk_id) chunk_data store).2
    = Ok 200 true
  ∧ ∀ other, other ≠ chunk_id →
      Node.download_chunk other
        (Node.upload_chunk (Some chunk_id) chunk_data store).2
      = Node.download_chunk other store
      ∧ Node.check_chunk_exists other
          (Node.upload_chunk (Some chunk_id) chunk_data store).2
        = Node.check_chunk_exists other store.
Proof.
  intros Hne. split; [by destruct chunk_data|].
  unfold Node.download_chunk, Node.check_chunk_exists.
  rewrite !upload_chunk_lookup, decide_True by done.
  split; [done|]. split; [done|].
  intros other Hother. rewrite !upload_chunk_lookup.
  by rewrite decide_False by (intros [[= ?] _]; by apply Hother).
Qed.

Lemma upload_then_download_chunk_witness :
  ["007"%byte] ≠ []
  ∧ (Node.upload_chunk (Some 3%nat) ["007"%byte] {[ 3%nat := ["001"%byte] ]}).1
    = Ok 201 3%nat
  ∧ Node.download_chunk 3
      (Node.upload_chunk (Some 3%nat) ["007"%byte] {[ 3%nat := ["001"%byte] ]}).2
    = Ok 200 ["007"%byte]
  ∧ Node.check_chunk_exists 3
      (Node.upload_chunk (Some 3%nat) ["007"%byte] {[ 3%nat := ["001"%byte] ]}).2
    = Ok 200 true
  ∧ ∀ other, other ≠ 3%nat →
      Node.download_chunk other
        (Node.upload_chunk (Some 3%nat) ["007"%byte]
           {[ 3%nat := ["001"%byte] ]}).2
      = Node.download_chunk other {[ 3%nat := ["001"%byte] ]}
      ∧ Node.check_chunk_exists other
          (Node.upload_chunk (Some 3%nat) ["007"%byte]
             {[ 3%nat := ["001"%byte] ]}).2
        = Node.check_chunk_exists other {[ 3%nat := ["001"%byte] ]}.
Proof.
  split; [discriminate|].
  apply (upload_then_download_chunk 3 ["007"%byte] {[ 3%nat := ["001"%byte] ]}).
  discriminate.
Defined.

(** Delete answers 200 exactly when the chunk is stored and 404 otherwise;
    after it the chunk does not exist, a Get and a second Delete are both
    404, and every other chunk reads as before. *)
Theorem delete_chunk_then_gone :
  ∀ (chunk_id : nat) (store : Store),
    status_code (Node.delete_chunk chunk_id store).1
      = (if Node.json_exists (Node.check_chunk_exists chunk_id store)
         then 200 else 404)%nat
    ∧ Node.check_chunk_exists chunk_id (Node.delete_chunk chunk_id store).2
      = Ok 200 false
    ∧ Node.download_chunk chunk_id (Node.delete_chunk chunk_id store).2
      = Err 404 "Chunk not found"
    ∧ Node.delete_chunk chunk_id (Node.delete_chunk chunk_id store).2
      = (Err 404 "Chunk not found", (Node.delete_chunk chunk_id store).2)
    ∧ ∀ other, other ≠ chunk_id →
        Node.download_chunk other (Node.delete_chunk chunk_id store).2
        = Node.download_chunk other store.
Proof.
  intros chunk_id store.
  assert ((Node.delete_chunk chunk_id store).2 !! chunk_id = None) as Hgone.
  { unfold Node.delete_chunk.
    destruct (store !! chunk_id) eqn:E; [apply lookup_delete_eq|done]. }
  split.
  { unfold Node.delete_chunk, Node.check_chunk_exists.
    by destruct (store !! chunk_id). }
  unfold Node.check_chunk_exists, Node.download_chunk.
  rewrite Hgone. split; [done|]. split; [done|].
  split; [by unfold Node.delete_chunk at 1; rewrite Hgone|].
  intros other Hother. unfold Node.delete_chunk.
  destruct (store !! chunk_id); [|done]. cbn [snd].
  by rewrite lookup_delete_ne.
Qed.

(* ===================================================================== *)
(** ** More on the metadata server *)
(* ===================================================================== *)
Section directory_facts.
Import Metadata.
Implicit Types (st : State) (now : nat → Z) (cm : gmap nat ChunkInfo).

Lemma record_chunks_key now (l : list (nat * nat)) cm (c : nat) info :
  foldl (λ chunk_metadata '(k, chunk_id),
           <[chunk_id := new_chunk_info (now k)]> chunk_metadata) cm l !! c
  = Some info →
  cm !! c = Some info ∨ c ∈ l.*2.
Proof.
  revert cm. induction l as [|[k c'] l IH]; intros cm; [by left|].
  cbn [foldl]. intros [H|H]%IH.
  - rewrite lookup_insert in H. case_decide as Hc; [|by left].
    right. rewrite fmap_cons. subst c'. apply list_elem_of_here.
  - right. rewrite fmap_cons. by apply list_elem_of_further.
Qed.

Lemma record_chunks_is_Some now (l : list (nat * nat)) cm (c : nat) :
  is_Some (cm !! c) →
  is_Some (foldl (λ chunk_metadata '(k, chunk_id),
                    <[chunk_id := new_chunk_info (now k)]> chunk_metadata)
                 cm l !! c).
Proof.
  revert cm. induction l as [|[k c'] l IH]; intros cm H; [done|].
  cbn [foldl]. apply IH. apply lookup_insert_is_Some'. by right.
Qed.

Lemma create_file_record_key now file_path file_size st (c : nat) info :
  chunk_metadata (create_file now file_path file_size st).2 !! c = Some info →
  chunk_metadata st !! c = Some info
  ∨ (uuid_drawn st ≤ c < uuid_drawn st + Z.to_nat (chunk_count file_size))%nat.
Proof.
  unfold create_file. cbn [snd chunk_metadata].
  intros [H|H]%record_chunks_key; [by left|right].
  rewrite snd_zip in H by (by rewrite !length_seq).
  apply elem_of_seq in H. lia.
Qed.

Lemma create_file_record_old now file_path file_size st (c : nat) :
  (c < uuid_drawn st)%nat →
  chunk_metadata (create_file now file_path file_size st).2 !! c
  = chunk_metadata st !! c.
Proof.
  intros Hc. unfold create_file. cbn [snd chunk_metadata].
  apply record_chunks_notin.
  rewrite snd_zip by (by rewrite !length_seq).
  intros H%elem_of_seq. lia.
Qed.

Lemma reachable_records st :
  reachable st → listed_have_records st ∧ records_drawn st.
Proof.
  induction 1 as [|now file_path file_size st Hst [IHl IHd]
                  |old_path new_path st Hst [IHl IHd]
                  |file_path st Hst [IHl IHd]].
  - split.
    + intros p cs c H. unfold initial in H. cbn [file_to_chunks] in H.
      by rewrite lookup_empty in H.
    + intros c info H. unfold initial in H. cbn [chunk_metadata] in H.
      by rewrite lookup_empty in H.
  - split.
    + intros p cs c H Hin. rewrite create_file_entry in H.
      case_decide as Hp.
      * injection H as <-. apply elem_of_seq in Hin.
        replace c with (uuid_drawn st + (c - uuid_drawn st))%nat by lia.
        rewrite create_file_record by lia. by eexists.
      * unfold create_file. cbn [snd chunk_metadata].
        apply record_chunks_is_Some. by eapply IHl.
    + intros c info [H|H]%create_file_record_key;
        cbn [create_file snd uuid_drawn]; [|lia].
      apply IHd in H. lia.
  - split.
    + intros p cs c H Hin. rewrite rename_file_records.
      rewrite rename_file_entry in H.
      destruct (file_to_chunks st !! old_path) as [old_ids|] eqn:Hold;
        [|by eapply IHl].
      destruct (decide (p = old_path)); [done|].
      destruct (decide (p = new_path)); [|by eapply IHl].
      injection H as <-. by eapply IHl.
    + intros c info. rewrite rename_file_records, rename_file_uuid. apply IHd.
  - destruct (reachable_directory_inv st Hst) as (_ & _ & Honce). split.
    + intros p cs c H Hin. rewrite delete_file_entry in H.
      case_decide as Hp; [done|]. rewrite delete_file_record.
      destruct (file_to_chunks st !! file_path) as [gone|] eqn:Hgone;
        [|by eapply IHl].
      rewrite decide_False; [by apply (IHl p cs)|].
      intros Hc. apply Hp. by eapply (Honce p file_path).
    + intros c info. rewrite delete_file_record, delete_file_uuid.
      destruct (file_to_chunks st !! file_path); [case_decide; [done|]|];
        apply IHd.
Qed.

(** GetFile reads the entry of its path and the records of its chunks. *)
Lemma get_file_metadata_ext file_path st1 st2 :
  file_to_chunks st1 !! file_path = file_to_chunks st2 !! file_path →
  (∀ chunk_ids chunk_id,
      file_to_chunks st2 !! file_path = Some chunk_ids →
      chunk_id ∈ chunk_ids →
      chunk_metadata st1 !! chunk_id = chunk_metadata st2 !! chunk_id) →
  get_file_metadata file_path st1 = get_file_metadata file_path st2.
Proof.
  intros Hentry Hrec.
  destruct (file_to_chunks st2 !! file_path) as [cs|] eqn:E.
  - rewrite (get_file_metadata_present _ _ cs Hentry).
    rewrite (get_file_metadata_present _ _ cs E).
    do 3 f_equal. specialize (Hrec cs).
    clear E Hentry. induction cs as [|c cs IH]; [done|].
    cbn [omap list_omap]. rewrite (Hrec c eq_refl) by apply list_elem_of_here.
    rewrite IH; [done|]. intros c' _ Hin. apply Hrec; [done|].
    by apply list_elem_of_further.
  - by rewrite !get_file_metadata_absent.
Qed.
End directory_facts.

(** In every reachable state GetFile on a path of the namespace answers 200
    and lists every chunk of the file, in the order of its chunk sequence,
    each with the replicas node1 and node2. *)
Theorem get_file_metadata_lists_every_chunk (st : Metadata.State)
    (file_path : string) (chunk_ids : list nat) :
  reachable st →
  Metadata.file_to_chunks st !! file_path = Some chunk_ids →
  Metadata.get_file_metadata file_path st
  = Ok 200 (file_path,
            {| Metadata.size := 0;
               Metadata.chunks :=
                 (λ chunk_id, (chunk_id, ["node1"; "node2"])) <$> chunk_ids |}).
Proof.
  intros Hst Hentry.
  destruct (reachable_records st Hst) as [Hlisted _].
  destruct (reachable_directory_inv st Hst) as (Hrec & _ & _).
  rewrite (get_file_metadata_present _ _ _ Hentry). do 3 f_equal.
  apply omap_total. intros c Hin.
  destruct (Hlisted _ _ _ Hentry Hin) as [info Hinfo].
  rewrite Hinfo. by destruct (Hrec _ _ Hinfo) as [now ->].
Qed.

Lemma get_file_metadata_lists_every_chunk_witness :
  reachable
    (Metadata.rename_file "/dfs/a.bin" "/dfs/b.bin"
       (Metadata.create_file (λ _, 0) "/dfs/a.bin" 9000000 Metadata.initial).2).2
  ∧ Metadata.file_to_chunks
      (Metadata.rename_file "/dfs/a.bin" "/dfs/b.bin"
         (Metadata.create_file (λ _, 0) "/dfs/a.bin" 9000000
            Metadata.initial).2).2 !! "/dfs/b.bin"
    = Some [0; 1; 2]%nat
  ∧ Metadata.get_file_metadata "/dfs/b.bin"
      (Metadata.rename_file "/dfs/a.bin" "/dfs/b.bin"
         (Metadata.create_file (λ _, 0) "/dfs/a.bin" 9000000
            Metadata.initial).2).2
    = Ok 200 ("/dfs/b.bin",
              {| Metadata.size := 0;
                 Metadata.chunks :=
                   (λ chunk_id, (chunk_id, ["node1"; "node2"]))
                     <$> [0; 1; 2]%nat |}).
Proof.
  split; [apply reachable_rename, reachable_create, reachable_initial|].
  split; [reflexivity|].
  apply get_file_metadata_lists_every_chunk; [|reflexivity].
  apply reachable_rename, reachable_create, reachable_initial.
Defined.

(** In a reachable state, what GetFile answers for a path is not changed by
    CreateFile or DeleteFile of another path, nor by a RenameFile between two
    other paths. *)
Theorem get_file_metadata_other_path (st : Metadata.State) (path : string) :
  reachable st →
  (∀ now file_path file_size, file_path ≠ path →
     Metadata.get_file_metadata path
       (Metadata.create_file now file_path file_size st).2
     = Metadata.get_file_metadata path st)
  ∧ (∀ file_path, file_path ≠ path →
       Metadata.get_file_metadata path (Metadata.delete_file file_path st).2
       = Metadata.get_file_metadata path st)
  ∧ (∀ old_path new_path, old_path ≠ path → new_path ≠ path →
       Metadata.get_file_metadata path
         (Metadata.rename_file old_path new_path st).2
       = Metadata.get_file_metadata path st).
Proof.
  intros Hst.
  destruct (reachable_directory_inv st Hst) as (_ & Hdrawn & Honce).
  split; [|split].
  - intros now file_path file_size Hne. apply get_file_metadata_ext.
    + rewrite create_file_entry. by rewrite decide_False.
    + intros cs c Hcs Hin. apply create_file_record_old. by eapply Hdrawn.
  - intros file_path Hne. apply get_file_metadata_ext.
    + rewrite delete_file_entry. by rewrite decide_False.
    + intros cs c Hcs Hin. rewrite delete_file_record.
      destruct (Metadata.file_to_chunks st !! file_path) as [gone|] eqn:Hgone;
        [|done].
      rewrite decide_False; [done|].
      intros Hc. apply Hne. by eapply (Honce file_path path).
  - intros old_path new_path Hold Hnew. apply get_file_metadata_ext.
    + rewrite rename_file_entry.
      destruct (Metadata.file_to_chunks st !! old_path); [|done].
      rewrite decide_False by done. by rewrite decide_False.
    + intros cs c _ _. by rewrite rename_file_records.
Qed.

Lemma get_file_metadata_other_path_witness :
  reachable (Metadata.create_file (λ _, 0) "/dfs/a.bin" 5 Metadata.initial).2
  ∧ (∀ now file_path file_size, file_path ≠ "/dfs/a.bin" →
       Metadata.get_file_metadata "/dfs/a.bin"
         (Metadata.create_file now file_path file_size
            (Metadata.create_file (λ _, 0) "/dfs/a.bin" 5 Metadata.initial).2).2
       = Metadata.get_file_metadata "/dfs/a.bin"
           (Metadata.create_file (λ _, 0) "/dfs/a.bin" 5 Metadata.initial).2)
  ∧ (∀ file_path, file_path ≠ "/dfs/a.bin" →
       Metadata.get_file_metadata "/dfs/a.bin"
         (Metadata.delete_file file_path
            (Metadata.create_file (λ _, 0) "/dfs/a.bin" 5 Metadata.initial).2).2
       = Metadata.get_file_metadata "/dfs/a.bin"
           (Metadata.create_file (λ _, 0) "/dfs/a.bin" 5 Metadata.initial).2)
  ∧ (∀ old_path new_path, old_path ≠ "/dfs/a.bin" → new_path ≠ "/dfs/a.bin" →
       Metadata.get_file_metadata "/dfs/a.bin"
         (Metadata.rename_file old_path new_path
            (Metadata.create_file (λ _, 0) "/dfs/a.bin" 5 Metadata.initial).2).2
       = Metadata.get_file_metadata "/dfs/a.bin"
           (Metadata.create_file (λ _, 0) "/dfs/a.bin" 5 Metadata.initial).2).
Proof.
  split; [apply reachable_create, reachable_initial|].
  apply get_file_metadata_other_path.
  apply reachable_create, reachable_initial.
Defined.

(** In a reachable state, creating a file at a path that is not in the
    namespace and deleting it again leaves the namespace and the chunk
    directory exactly as they were. *)
Theorem create_then_delete_restores (now : nat → Z) (file_path : string)
    (file_size : Z) (st : Metadata.State) :
  reachable st →
  Metadata.file_to_chunks st !! file_path = None →
  status_code
    (Metadata.delete_file file_path
       (Metadata.create_file now file_path file_size st).2).1 = 200%nat
  ∧ Metadata.file_to_chunks
      (Metadata.delete_file file_path
         (Metadata.create_file now file_path file_size st).2).2
    = Metadata.file_to_chunks st
  ∧ Metadata.chunk_metadata
      (Metadata.delete_file file_path
         (Metadata.create_file now file_path file_size st).2).2
    = Metadata.chunk_metadata st.
Proof.
  intros Hst Habsent.
  destruct (reachable_records st Hst) as [_ Hdrawn].
  pose proof (create_file_entry now file_path file_size st file_path) as Hnew.
  rewrite decide_True in Hnew by done.
  split; [|split].
  - unfold Metadata.delete_file at 1. by rewrite Hnew.
  - apply map_eq. intros p. rewrite delete_file_entry.
    case_decide as Hp; [by subst p|].
    rewrite create_file_entry. by rewrite decide_False.
  - apply map_eq. intros c. rewrite delete_file_record, Hnew.
    case_decide as Hc.
    + apply elem_of_seq in Hc.
      destruct (Metadata.chunk_metadata st !! c) as [info|] eqn:E; [|done].
      apply Hdrawn in E. lia.
    + unfold Metadata.create_file. cbn [snd Metadata.chunk_metadata].
      apply record_chunks_notin.
      by rewrite snd_zip by (by rewrite !length_seq).
Qed.

Lemma create_then_delete_restores_witness :
  reachable (Metadata.create_file (λ _, 0) "/dfs/a.bin" 5 Metadata.initial).2
  ∧ Metadata.file_to_chunks
      (Metadata.create_file (λ _, 0) "/dfs/a.bin" 5 Metadata.initial).2
      !! "/dfs/b.bin" = None
  ∧ status_code
      (Metadata.delete_file "/dfs/b.bin"
         (Metadata.create_file (λ _, 7) "/dfs/b.bin" 9000000
            (Metadata.create_file (λ _, 0) "/dfs/a.bin" 5
               Metadata.initial).2).2).1 = 200%nat
  ∧ Metadata.file_to_chunks
      (Metadata.delete_file "/dfs/b.bin"
         (Metadata.create_file (λ _, 7) "/dfs/b.bin" 9000000
            (Metadata.create_file (λ _, 0) "/dfs/a.bin" 5
               Metadata.initial).2).2).2
    = Metadata.file_to_chunks
        (Metadata.create_file (λ _, 0) "/dfs/a.bin" 5 Metadata.initial).2
  ∧ Metadata.chunk_metadata
      (Metadata.delete_file "/dfs/b.bin"
         (Metadata.create_file (λ _, 7) "/dfs/b.bin" 9000000
            (Metadata.create_file (λ _, 0) "/dfs/a.bin" 5
               Metadata.initial).2).2).2
    = Metadata.chunk_metadata
        (Metadata.create_file (λ _, 0) "/dfs/a.bin" 5 Metadata.initial).2.
Proof.
  split; [apply reachable_create, reachable_initial|].
  split; [reflexivity|].
  apply create_then_delete_restores; [|reflexivity].
  apply reachable_create, reachable_initial.
Defined.

(** CreateFile on a path that is already in the namespace replaces the
    entry and leaves the ChunkRecords of the replaced chunks in the chunk
    directory: in a reachable state each of them is still there afterwards,
    no file lists it any more, and a DeleteFile of the path does not remove
    it. *)
Theorem create_file_overwrite_orphans_records (now : nat → Z)
    (file_path : string) (file_size : Z) (st : Metadata.State)
    (chunk_ids : list nat) (chunk_id : nat) :
  reachable st →
  Metadata.file_to_chunks st !! file_path = Some chunk_ids →
  chunk_id ∈ chunk_ids →
  is_Some (Metadata.chunk_metadata st !! chunk_id)
  ∧ Metadata.chunk_metadata
      (Metadata.create_file now file_path file_size st).2 !! chunk_id
    = Metadata.chunk_metadata st !! chunk_id
  ∧ (∀ path listed,
       Metadata.file_to_chunks
         (Metadata.create_file now file_path file_size st).2 !! path
       = Some listed →
       chunk_id ∉ listed)
  ∧ Metadata.chunk_metadata
      (Metadata.delete_file file_path
         (Metadata.create_file now file_path file_size st).2).2 !! chunk_id
    = Metadata.chunk_metadata st !! chunk_id.
Proof.
  intros Hst Hentry Hin.
  destruct (reachable_records st Hst) as [Hlisted _].
  destruct (reachable_directory_inv st Hst) as (_ & Hdrawn & Honce).
  pose proof (Hdrawn _ _ _ Hentry Hin) as Hlt.
  split; [by eapply Hlisted|].
  split; [by apply create_file_record_old|]. split.
  - intros path listed Hpath Hc. rewrite create_file_entry in Hpath.
    case_decide as Hp.
    + injection Hpath as <-. apply elem_of_seq in Hc. lia.
    + apply Hp. by eapply (Honce file_path path).
  - rewrite delete_file_record, create_file_entry, decide_True by done.
    rewrite decide_False by (intros Hc%elem_of_seq; lia).
    by apply create_file_record_old.
Qed.

Lemma create_file_overwrite_orphans_records_witness :
  reachable (Metadata.create_file (λ _, 0) "/dfs/a.bin" 5 Metadata.initial).2
  ∧ Metadata.file_to_chunks
      (Metadata.create_file (λ _, 0) "/dfs/a.bin" 5 Metadata.initial).2
      !! "/dfs/a.bin" = Some [0%nat]
  ∧ 0%nat ∈ [0%nat]
  ∧ is_Some (Metadata.chunk_metadata
               (Metadata.create_file (λ _, 0) "/dfs/a.bin" 5
                  Metadata.initial).2 !! 0%nat)
  ∧ Metadata.chunk_metadata
      (Metadata.create_file (λ _, 9) "/dfs/a.bin" 7
         (Metadata.create_file (λ _, 0) "/dfs/a.bin" 5 Metadata.initial).2).2
      !! 0%nat
    = Metadata.chunk_metadata
        (Metadata.create_file (λ _, 0) "/dfs/a.bin" 5 Metadata.initial).2
        !! 0%nat
  ∧ (∀ path listed,
       Metadata.file_to_chunks
         (Metadata.create_file (λ _, 9) "/dfs/a.bin" 7
            (Metadata.create_file (λ _, 0) "/dfs/a.bin" 5
               Metadata.initial).2).2 !! path
       = Some listed →
       0%nat ∉ listed)
  ∧ Metadata.chunk_metadata
      (Metadata.delete_file "/dfs/a.bin"
         (Metadata.create_file (λ _, 9) "/dfs/a.bin" 7
            (Metadata.create_file (λ _, 0) "/dfs/a.bin" 5
               Metadata.initial).2).2).2 !! 0%nat
    = Metadata.chunk_metadata
        (Metadata.create_file (λ _, 0) "/dfs/a.bin" 5 Metadata.initial).2
        !! 0%nat.
Proof.
  split; [apply reachable_create, reachable_initial|].
  split; [reflexivity|]. split; [apply list_elem_of_here|].
  apply (create_file_overwrite_orphans_records (λ _, 9) "/dfs/a.bin" 7
           (Metadata.create_file (λ _, 0) "/dfs/a.bin" 5 Metadata.initial).2
           [0%nat] 0).
  - apply reachable_create, reachable_initial.
  - reflexivity.
  - apply list_elem_of_here.
Defined.

Section listing.
Import Metadata.

(** [path.startswith(directory)] holds exactly of the strings that extend
    [directory]. *)
Lemma prefix_startswith (directory path : string) :
  String.prefix directory path = true ↔ ∃ rest, path = directory +:+ rest.
Proof.
  revert path. induction directory as [|a directory IH]; intros path.
  - split; [intros _; by exists path|intros _; by destruct path].
  - destruct path as [|b path]; cbn [String.prefix].
    + split; [done|]. by intros [rest ?].
    + destruct (Ascii.ascii_dec a b) as [->|Hne].
      * rewrite IH. split; intros [rest Hrest]; exists rest.
        -- change (String b path = String b (directory +:+ rest)).
           congruence.
        -- change (String b path = String b (directory +:+ rest)) in Hrest.
           congruence.
      * split; [done|]. intros [rest Hrest].
        change (String b path = String a (directory +:+ rest)) in Hrest.
        congruence.
Qed.

(** The loop of [list_files]. *)
Lemma list_files_loop (directory : string) (l : list (string * list nat))
    (files : gmap string nat) (path : string) :
  NoDup l.*1 →
  foldl (λ (files : gmap string nat) '(path, chunk_ids),
           if String.prefix directory path
           then <[path := length (chunk_ids : list nat)]> files
           else files) files l !! path
  = match (list_to_map l : gmap string (list nat)) !! path with
    | Some chunk_ids =>
        if String.prefix directory path then Some (length chunk_ids)
        else files !! path
    | None => files !! path
    end.
Proof.
  revert files. induction l as [|[q cs] l IH]; intros files Hnd; [done|].
  rewrite fmap_cons in Hnd. apply NoDup_cons in Hnd as [Hq Hnd].
  cbn [foldl list_to_map foldr]. rewrite IH by done.
  change (foldr (λ p, <[p.1:=p.2]>) ∅ l)
    with (list_to_map l : gmap string (list nat)).
  destruct (decide (path = q)) as [->|Hne].
  - rewrite lookup_insert_eq.
    rewrite (not_elem_of_list_to_map_1 _ _ Hq).
    destruct (String.prefix directory q); [apply lookup_insert_eq|done].
  - rewrite (lookup_insert_ne _ q path) by done.
    assert ((if String.prefix directory q
             then <[q := length cs]> files else files) !! path
            = files !! path) as ->; [|done].
    destruct (String.prefix directory q); [by apply lookup_insert_ne|done].
Qed.
End listing.

(** ListFiles answers 200 with exactly the paths of the namespace that
    start with the directory asked for ("/" when none is given), each with
    the number of chunks of its file; a path that merely shares a shorter
    prefix with the directory is not listed. *)
Theorem list_files_prefix_filter :
  ∀ (directory : option string) (st : Metadata.State),
  ∃ files,
    Metadata.list_files directory st = Ok 200 files
    ∧ ∀ (path : string) (chunk_count : nat),
        files !! path = Some chunk_count
        ↔ (∃ rest, path = default "/" directory +:+ rest)
          ∧ ∃ chunk_ids,
              Metadata.file_to_chunks st !! path = Some chunk_ids
              ∧ chunk_count = length chunk_ids.
Proof.
  intros directory st. eexists. split; [reflexivity|].
  intros path n. rewrite list_files_loop by apply NoDup_fst_map_to_list.
  rewrite list_to_map_to_list, lookup_empty, <- prefix_startswith.
  destruct (Metadata.file_to_chunks st !! path) as [cs|].
  - destruct (String.prefix (default "/" directory) path).
    + split; [intros [= <-]; eauto|]. by intros [_ (cs' & [= <-] & ->)].
    + split; [done|]. by intros [? _].
  - split; [done|]. by intros [_ (cs' & ? & _)].
Qed.

(** The listing of the scenario of the specification: /dfs/docs/ lists the
    file below it and not the one below /dfs/documents/. *)
Example list_files_docs :
  Metadata.list_files (Some "/dfs/docs/")
    (Metadata.create_file (λ _, 0) "/dfs/documents/b.txt" 5
       (Metadata.create_file (λ _, 0) "/dfs/docs/a.txt" 9000000
          Metadata.initial).2).2
  = Ok 200 {[ "/dfs/docs/a.txt" := 3%nat ]}.
Proof. by vm_compute. Qed.

(* ===================================================================== *)
(** ** More on the reconciler *)
(* ===================================================================== *)
Section reconciler_facts.
Implicit Types (net : Net) (st : Metadata.State).

Lemma keeps_blobs_refl net : keeps_blobs net net.
Proof.
  intros url c. destruct (replica net url c) as [[d|]|]; [done| |done].
  by eexists.
Qed.

Lemma keeps_blobs_trans net1 net2 net3 :
  keeps_blobs net1 net2 → keeps_blobs net2 net3 → keeps_blobs net1 net3.
Proof.
  intros H12 H23 url c. specialize (H12 url c). specialize (H23 url c).
  destruct (replica net1 url c) as [[d|]|].
  - by rewrite H12 in H23.
  - destruct H12 as [[d|] H12]; rewrite H12 in H23; [by eexists|done].
  - by rewrite H12 in H23.
Qed.

(** A repair uploads to a node only a chunk that the node, being up, lacks. *)
Lemma repair_replica_writes_missing (chunk_servers : list string)
    (chunk_id : nat) net node_id :
  Metadata.repair_replica chunk_servers chunk_id net node_id = net
  ∨ ∃ url data,
      replica net url chunk_id = Some None
      ∧ Metadata.repair_replica chunk_servers chunk_id net node_id
        = async_upload_chunk url data chunk_id net.
Proof.
  unfold Metadata.repair_replica.
  destruct (node_url node_id) as [url|]; [|by left]. cbn [mbind option_bind].
  destruct (get_exists url chunk_id net) as [response|] eqn:Hex; [|by left].
  unfold get_exists in Hex.
  destruct (net !! url) as [store|] eqn:Hup; [|done].
  injection Hex as <-. unfold Node.check_chunk_exists.
  destruct (store !! chunk_id) as [d|] eqn:Hblob; [by left|].
  cbn [mbind option_bind status_code Node.json_exists Nat.eqb negb orb].
  destruct (List.find _ chunk_servers) as [backup|]; [|by left].
  destruct (node_url backup) as [backup_url|]; [|by left].
  cbn [mbind option_bind].
  destruct (get_chunk backup_url chunk_id net) as [backup_response|];
    [|by left].
  cbn [mbind option_bind].
  destruct (status_code backup_response =? 200)%nat; [|by left].
  right. exists url, (Node.content backup_response). split; [|done].
  unfold replica. by rewrite Hup, <- Hblob.
Qed.

Lemma repair_replica_keeps_blobs (chunk_servers : list string)
    (chunk_id : nat) net node_id :
  keeps_blobs net (Metadata.repair_replica chunk_servers chunk_id net node_id).
Proof.
  destruct (repair_replica_writes_missing chunk_servers chunk_id net node_id)
    as [->|(u & data & Hmissing & ->)]; [apply keeps_blobs_refl|].
  intros url c. rewrite async_upload_chunk_replica.
  case_decide as H.
  - destruct H as (<- & <- & _). rewrite Hmissing.
    unfold replica in Hmissing. destruct (net !! u); [by eexists|done].
  - apply keeps_blobs_refl.
Qed.

Lemma reconcile_chunk_keeps_blobs st net chunk_id :
  keeps_blobs net (Metadata.reconcile_chunk st net chunk_id).
Proof.
  unfold Metadata.reconcile_chunk.
  destruct (Metadata.chunk_metadata st !! chunk_id) as [info|];
    [|apply keeps_blobs_refl].
  destruct (Metadata.chunk_servers info) as [|n l]; [apply keeps_blobs_refl|].
  apply (foldl_invariant _ (keeps_blobs net)); [apply keeps_blobs_refl|].
  intros net' node_id _ H. eapply keeps_blobs_trans; [done|].
  apply repair_replica_keeps_blobs.
Qed.

Lemma reconcile_cycle_keeps_blobs st net :
  keeps_blobs net (Metadata.reconcile_cycle st net).
Proof.
  unfold Metadata.reconcile_cycle.
  apply (foldl_invariant _ (keeps_blobs net)); [apply keeps_blobs_refl|].
  intros net' [p cs] _ H.
  apply (foldl_invariant _ (keeps_blobs net)); [done|].
  intros net'' c _ H'. eapply keeps_blobs_trans; [done|].
  apply reconcile_chunk_keeps_blobs.
Qed.

Lemma replica_up net url (chunk_id : nat) :
  is_Some (replica net url chunk_id) ↔ is_Some (net !! url).
Proof. unfold replica. by rewrite fmap_is_Some. Qed.

(** A pass over chunks that are all different from [chunk_id] tells nothing
    new about it. *)
Lemma reconcile_cycle_other st net url (chunk_id : nat) :
  (∀ path chunk_ids, Metadata.file_to_chunks st !! path = Some chunk_ids →
                     chunk_id ∉ chunk_ids) →
  replica (Metadata.reconcile_cycle st net) url chunk_id
  = replica net url chunk_id.
Proof.
  intros Hunlisted. unfold Metadata.reconcile_cycle.
  apply (foldl_invariant _ (λ net', replica net' url chunk_id
                                    = replica net url chunk_id)); [done|].
  intros net' [p cs] Hin%elem_of_map_to_list H.
  apply (foldl_invariant _ (λ net', replica net' url chunk_id
                                    = replica net url chunk_id)); [done|].
  intros net'' c Hc <-. apply reconcile_chunk_other.
  intros ->. by eapply Hunlisted.
Qed.

(** With every replica of every listed chunk in place, a pass changes
    nothing. *)
Lemma reconcile_cycle_in_place st net :
  (∀ path chunk_ids chunk_id info node_id,
      Metadata.file_to_chunks st !! path = Some chunk_ids →
      chunk_id ∈ chunk_ids →
      Metadata.chunk_metadata st !! chunk_id = Some info →
      node_id ∈ Metadata.chunk_servers info →
      ∃ url data, node_url node_id = Some url
                  ∧ replica net url chunk_id = Some (Some data)) →
  Metadata.reconcile_cycle st net = net.
Proof.
  intros Hplace. unfold Metadata.reconcile_cycle.
  apply (foldl_invariant _ (λ net', net' = net)); [done|].
  intros net' [p cs] Hin%elem_of_map_to_list ->.
  apply (foldl_invariant _ (λ net', net' = net)); [done|].
  intros net' c Hc ->. unfold Metadata.reconcile_chunk.
  destruct (Metadata.chunk_metadata st !! c) as [info|] eqn:Hinfo; [|done].
  destruct (Metadata.chunk_servers info) as [|n l] eqn:Hservers; [done|].
  apply (foldl_invariant _ (λ net', net' = net)); [done|].
  intros net' node_id Hnode ->.
  destruct (Hplace p cs c info node_id Hin Hc Hinfo)
    as (url & data & Hurl & Hblob); [by rewrite Hservers|].
  by eapply repair_replica_present.
Qed.
End reconciler_facts.

(** A reconciliation pass only ever adds blobs: whatever the metadata and
    the nodes, afterwards the same nodes are up, every blob a node held is
    still there with the same bytes, and a chunk that no file lists is on
    exactly the nodes it was on. *)
Theorem reconcile_cycle_only_adds :
  ∀ (st : Metadata.State) (net : Net),
    (∀ url, is_Some (Metadata.reconcile_cycle st net !! url)
            ↔ is_Some (net !! url))
    ∧ (∀ url chunk_id data,
         blob net url chunk_id = Some data →
         blob (Metadata.reconcile_cycle st net) url chunk_id = Some data)
    ∧ (∀ chunk_id,
         (∀ path chunk_ids,
            Metadata.file_to_chunks st !! path = Some chunk_ids →
            chunk_id ∉ chunk_ids) →
         ∀ url, blob (Metadata.reconcile_cycle st net) url chunk_id
                = blob net url chunk_id).
Proof.
  intros st net. pose proof (reconcile_cycle_keeps_blobs st net) as Hkeep.
  split; [|split].
  - intros url. specialize (Hkeep url 0%nat).
    rewrite <- !(replica_up _ url 0).
    destruct (replica net url 0) as [[d|]|].
    + rewrite Hkeep. split; by eexists.
    + split; [by eexists|done].
    + rewrite Hkeep. done.
  - intros url c data Hblob%blob_replica. apply blob_replica.
    specialize (Hkeep url c). by rewrite Hblob in Hkeep.
  - intros c Hunlisted url.
    pose proof (reconcile_cycle_other st net url c Hunlisted) as Hsame.
    unfold blob, replica in *.
    destruct (Metadata.reconcile_cycle st net !! url), (net !! url);
      cbn in *; congruence.
Qed.

(** When every replica of every chunk that a file lists holds the chunk, a
    reconciliation pass leaves the nodes exactly as they are. *)
Theorem reconcile_cycle_healthy_noop (st : Metadata.State) (net : Net) :
  (∀ path chunk_ids chunk_id info node_id,
      Metadata.file_to_chunks st !! path = Some chunk_ids →
      chunk_id ∈ chunk_ids →
      Metadata.chunk_metadata st !! chunk_id = Some info →
      node_id ∈ Metadata.chunk_servers info →
      ∃ url data, node_url node_id = Some url
                  ∧ blob net url chunk_id = Some data) →
  Metadata.reconcile_cycle st net = net.
Proof.
  intros Hplace. apply reconcile_cycle_in_place.
  intros path cs c info node_id Hpath Hc Hinfo Hnode.
  destruct (Hplace path cs c info node_id Hpath Hc Hinfo Hnode)
    as (url & data & Hurl & Hblob%blob_replica).
  by exists url, data.
Qed.

Lemma reconcile_cycle_healthy_noop_witness :
  (∀ path chunk_ids chunk_id info node_id,
      Metadata.file_to_chunks
        (Metadata.create_file (λ _, 0) "/dfs/a.bin" 2 Metadata.initial).2
        !! path = Some chunk_ids →
      chunk_id ∈ chunk_ids →
      Metadata.chunk_metadata
        (Metadata.create_file (λ _, 0) "/dfs/a.bin" 2 Metadata.initial).2
        !! chunk_id = Some info →
      node_id ∈ Metadata.chunk_servers info →
      ∃ url data,
        node_url node_id = Some url
        ∧ blob (cluster {[ 0%nat := ["001"%byte; "002"%byte] ]}
                        {[ 0%nat := ["001"%byte; "002"%byte] ]} ∅)
               url chunk_id = Some data)
  ∧ Metadata.reconcile_cycle
      (Metadata.create_file (λ _, 0) "/dfs/a.bin" 2 Metadata.initial).2
      (cluster {[ 0%nat := ["001"%byte; "002"%byte] ]}
               {[ 0%nat := ["001"%byte; "002"%byte] ]} ∅)
    = cluster {[ 0%nat := ["001"%byte; "002"%byte] ]}
              {[ 0%nat := ["001"%byte; "002"%byte] ]} ∅.
Proof.
  assert (∀ path chunk_ids chunk_id info node_id,
      Metadata.file_to_chunks
        (Metadata.create_file (λ _, 0) "/dfs/a.bin" 2 Metadata.initial).2
        !! path = Some chunk_ids →
      chunk_id ∈ chunk_ids →
      Metadata.chunk_metadata
        (Metadata.create_file (λ _, 0) "/dfs/a.bin" 2 Metadata.initial).2
        !! chunk_id = Some info →
      node_id ∈ Metadata.chunk_servers info →
      ∃ url data,
        node_url node_id = Some url
        ∧ blob (cluster {[ 0%nat := ["001"%byte; "002"%byte] ]}
                        {[ 0%nat := ["001"%byte; "002"%byte] ]} ∅)
               url chunk_id = Some data) as Hplace.
  { intros path cs c info node_id Hpath Hc Hinfo Hnode.
    rewrite create_file_entry in Hpath. case_decide; [|done].
    injection Hpath as <-.
    apply list_elem_of_singleton in Hc as ->.
    injection Hinfo as <-.
    apply elem_of_cons in Hnode as [->|Hnode].
    - by exists "http://localhost:5001", ["001"%byte; "002"%byte].
    - apply list_elem_of_singleton in Hnode as ->.
      by exists "http://localhost:5002", ["001"%byte; "002"%byte]. }
  split; [exact Hplace|].
  apply (reconcile_cycle_healthy_noop _ _ Hplace).
Defined.

(* ===================================================================== *)
(** ** More on the gateway *)
(* ===================================================================== *)
Section replicas.
Import Gateway.
Implicit Types (data : list byte) (net : Net) (url : string).
Local Opaque read_size.

Lemma async_upload_chunk_lookup_ne node_url' data (chunk_id : nat) net url :
  node_url' ≠ url →
  async_upload_chunk node_url' data chunk_id net !! url = net !! url.
Proof.
  intros Hne. unfold async_upload_chunk.
  destruct (net !! node_url'); [by apply lookup_insert_ne|done].
Qed.

Lemma async_upload_chunk_down node_url' data (chunk_id : nat) net url :
  net !! url = None →
  async_upload_chunk node_url' data chunk_id net !! url = None.
Proof.
  intros Hdown. unfold async_upload_chunk.
  destruct (net !! node_url') eqn:E; [|done].
  rewrite lookup_insert_ne; [done|]. intros ->. congruence.
Qed.

(** What the two uploads of one chunk do at a node: node1 and node2 get the
    chunk when the body is not empty, and no other node is written to. *)
Lemma store_chunk_replica_at net (chunk : nat * list byte) url (chunk_id : nat) :
  replica (store_chunk net chunk) url chunk_id
  = if decide ((url = "http://localhost:5001" ∨ url = "http://localhost:5002")
               ∧ chunk.1 = chunk_id ∧ chunk.2 ≠ [])
    then (λ _, Some chunk.2) <$> net !! url
    else replica net url chunk_id.
Proof.
  unfold store_chunk. rewrite async_upload_chunk_replica.
  case_decide as H2.
  - destruct H2 as (<- & Hc & Hd).
    rewrite async_upload_chunk_lookup_ne by done.
    by rewrite decide_True by auto.
  - rewrite async_upload_chunk_replica.
    case_decide as H1.
    + destruct H1 as (<- & Hc & Hd). by rewrite decide_True by auto.
    + rewrite decide_False; [done|].
      intros ([-> | ->] & Hc & Hd); [by apply H1|by apply H2].
Qed.

Lemma store_chunk_down net (chunk : nat * list byte) url :
  net !! url = None → store_chunk net chunk !! url = None.
Proof. intros H. unfold store_chunk. by do 2 apply async_upload_chunk_down. Qed.

Lemma store_chunks_down net (l : list (nat * list byte)) url :
  net !! url = None → foldl store_chunk net l !! url = None.
Proof.
  intros H. apply (foldl_invariant _ (λ net', net' !! url = None)); [done|].
  intros net' chunk _. apply store_chunk_down.
Qed.

Lemma store_chunks_other_node net (l : list (nat * list byte)) url :
  url ≠ "http://localhost:5001" → url ≠ "http://localhost:5002" →
  foldl store_chunk net l !! url = net !! url.
Proof.
  intros H1 H2.
  apply (foldl_invariant _ (λ net', net' !! url = net !! url)); [done|].
  intros net' chunk _ <-. unfold store_chunk.
  by rewrite !async_upload_chunk_lookup_ne.
Qed.

Lemma store_chunks_notin_at net (l : list (nat * list byte)) url
    (chunk_id : nat) :
  chunk_id ∉ l.*1 →
  replica (foldl store_chunk net l) url chunk_id = replica net url chunk_id.
Proof.
  revert net. induction l as [|chunk l IH]; intros net Hc; [done|].
  cbn [foldl]. rewrite fmap_cons, not_elem_of_cons in Hc.
  destruct Hc as [Hne Hc]. rewrite IH by done.
  rewrite store_chunk_replica_at.
  by rewrite decide_False by (by intros (_ & ? & _)).
Qed.

Lemma store_chunks_in_at net (l : list (nat * list byte)) url
    (i chunk_id : nat) data :
  url = "http://localhost:5001" ∨ url = "http://localhost:5002" →
  NoDup l.*1 → l !! i = Some (chunk_id, data) → data ≠ [] →
  is_Some (net !! url) →
  replica (foldl store_chunk net l) url chunk_id = Some (Some data).
Proof.
  intros Hurl. revert net i.
  induction l as [|chunk l IH]; intros net i Hnd Hi Hdata Hup; [done|].
  cbn [foldl]. rewrite fmap_cons in Hnd.
  apply NoDup_cons in Hnd as [Hnotin Hnd].
  destruct i as [|i].
  - injection Hi as ->. rewrite store_chunks_notin_at by done.
    rewrite store_chunk_replica_at, decide_True by done.
    by destruct Hup as [store ->].
  - eapply IH; [done|done|done|]. by apply store_chunk_up.
Qed.

(** A turn of the download loop when the primary is up without the chunk
    and the second replica holds it. *)
Lemma download_turn_fallback net (chunk_id : nat) node1 node2 url1 url2
    (rest : list string) data :
  node_url node1 = Some url1 → node_url node2 = Some url2 →
  replica net url1 chunk_id = Some None →
  replica net url2 chunk_id = Some (Some data) →
  download_turn net (chunk_id, node1 :: node2 :: rest) = inr data.
Proof.
  intros Hurl1 Hurl2 Hmiss%replica_missing [Hex Hget]%replica_present.
  unfold download_turn. cbn [lookup list_lookup mbind option_bind].
  rewrite Hurl1. cbn [mbind option_bind].
  rewrite Hmiss.
  cbn [mbind option_bind status_code Node.json_exists Nat.eqb andb length
       Nat.ltb Nat.leb].
  rewrite Hurl2. cbn [mbind option_bind].
  rewrite Hex. cbn [mbind option_bind status_code Node.json_exists Nat.eqb andb].
  by rewrite Hget.
Qed.

(** A turn of the download loop when the primary is down. *)
Lemma download_turn_primary_down net (chunk_id : nat) node1 url1
    (rest : list string) :
  node_url node1 = Some url1 → net !! url1 = None →
  download_turn net (chunk_id, node1 :: rest)
  = inl (Err 500 "Error downloading chunk").
Proof.
  intros Hurl1 Hdown. unfold download_turn.
  cbn [lookup list_lookup mbind option_bind].
  rewrite Hurl1. cbn [mbind option_bind].
  unfold get_exists. by rewrite Hdown.
Qed.

(** A pass of the reconciler over a listed chunk with replicas A and B,
    under the conditions of the repair. *)
Lemma reconcile_cycle_repairs_listed (st : Metadata.State) net
    (file_path : string) (chunk_ids : list nat) (chunk_id : nat)
    (info : Metadata.ChunkInfo) (node_a node_b url_a url_b : string) data :
  Metadata.file_to_chunks st !! file_path = Some chunk_ids →
  chunk_id ∈ chunk_ids →
  Metadata.chunk_metadata st !! chunk_id = Some info →
  Metadata.chunk_servers info = [node_a; node_b] →
  node_a ≠ node_b →
  node_url node_a = Some url_a →
  node_url node_b = Some url_b →
  data ≠ [] →
  repairable url_a url_b chunk_id data net →
  repaired url_a url_b chunk_id data (Metadata.reconcile_cycle st net).
Proof.
  intros Hfile Hin Hinfo Hservers Hne Hurl_a Hurl_b Hdata Hstart.
  assert (∀ info', Metadata.chunk_metadata st !! chunk_id = Some info' →
            Metadata.chunk_servers info' = [node_a; node_b]
            ∨ Metadata.chunk_servers info' = [node_b; node_a]) as Hrec
    by (intros info' H; left; by simplify_eq).
  pose proof (λ net c, reconcile_chunk_step node_a node_b url_a url_b chunk_id
                data Hurl_a Hurl_b Hne Hdata st net c Hrec) as Hchunk.
  unfold Metadata.reconcile_cycle.
  apply (foldl_establishes _ (repairable url_a url_b chunk_id data)
           (repaired url_a url_b chunk_id data) _ _ (file_path, chunk_ids)).
  - by apply elem_of_map_to_list.
  - done.
  - intros net' [p ids] _ Hinv.
    apply (foldl_invariant _ (repairable url_a url_b chunk_id data)); [done|].
    intros net'' c _ Hinv'. by apply Hchunk.
  - intros net' [p ids] _ Hdone.
    apply (foldl_invariant _ (repaired url_a url_b chunk_id data)); [done|].
    intros net'' c _ Hdone'.
    destruct (Hchunk net'' c (repaired_repairable _ _ _ _ _ Hdone'))
      as (_ & _ & H). by apply H.
  - intros net' Hinv.
    apply (foldl_establishes _ (repairable url_a url_b chunk_id data)
             (repaired url_a url_b chunk_id data) _ _ chunk_id Hin Hinv).
    + intros net'' c _ Hinv'. by apply Hchunk.
    + intros net'' c _ Hdone'.
      destruct (Hchunk net'' c (repaired_repairable _ _ _ _ _ Hdone'))
        as (_ & _ & H). by apply H.
    + intros net'' Hinv'.
      destruct (Hchunk net'' chunk_id Hinv') as (_ & H & _).
      apply H; [done|by eexists].
Qed.
End replicas.

(** Replica fallback on read.  A file of one chunk is registered under the
    absolute path "/" + p, where p has no leading slash (the download route
    delivers none) and none of the characters % + & #, which the query
    string to the metadata server would alter.  If its primary replica is up
    but has lost the chunk while the second replica holds it,
    GET /download/p answers 200 with the bytes of the second replica. *)
Theorem download_file_falls_back (st : Metadata.State) (net : Net)
    (file_path : string) (chunk_id : nat) (info : Metadata.ChunkInfo)
    (node1 node2 url1 url2 : string) (data : list byte) :
  String.prefix "/" file_path = false →
  url_plain file_path = true →
  Metadata.file_to_chunks st !! ("/" +:+ file_path) = Some [chunk_id] →
  Metadata.chunk_metadata st !! chunk_id = Some info →
  Metadata.chunk_servers info = [node1; node2] →
  node_url node1 = Some url1 →
  node_url node2 = Some url2 →
  replica net url1 chunk_id = Some None →
  blob net url2 chunk_id = Some data →
  Gateway.download_file file_path (Gateway.mkWorld st net) = Ok 200 data.
Proof.
  intros Hslash Hplain Hentry Hinfo Hservers Hurl1 Hurl2 Hmiss
    Hblob%blob_replica.
  rewrite download_file_route by done. cbn [Gateway.server Gateway.net].
  rewrite (get_file_metadata_present _ _ _ Hentry).
  cbn [omap list_omap Metadata.chunks]. rewrite Hinfo.
  cbn [fmap option_fmap option_map mbind option_bind]. rewrite Hservers.
  cbn [Gateway.download_loop].
  by rewrite (download_turn_fallback _ _ _ _ _ _ _ _ Hurl1 Hurl2 Hmiss Hblob).
Qed.

Lemma download_file_falls_back_witness :
  String.prefix "/" "dfs/a.bin" = false
  ∧ url_plain "dfs/a.bin" = true
  ∧ Metadata.file_to_chunks
      (Metadata.create_file (λ _, 0) "/dfs/a.bin" 2 Metadata.initial).2
      !! ("/" +:+ "dfs/a.bin") = Some [0%nat]
  ∧ replica (cluster ∅ {[ 0%nat := ["001"%byte; "002"%byte] ]} ∅)
            "http://localhost:5001" 0 = Some None
  ∧ blob (cluster ∅ {[ 0%nat := ["001"%byte; "002"%byte] ]} ∅)
         "http://localhost:5002" 0 = Some ["001"%byte; "002"%byte]
  ∧ Gateway.download_file "dfs/a.bin"
      (Gateway.mkWorld
         (Metadata.create_file (λ _, 0) "/dfs/a.bin" 2 Metadata.initial).2
         (cluster ∅ {[ 0%nat := ["001"%byte; "002"%byte] ]} ∅))
    = Ok 200 ["001"%byte; "002"%byte].
Proof.
  split; [reflexivity|]. split; [reflexivity|]. split; [reflexivity|].
  split; [reflexivity|]. split; [reflexivity|].
  apply (download_file_falls_back _ _ "dfs/a.bin" 0
           (Metadata.new_chunk_info 0) "node1" "node2"
           "http://localhost:5001" "http://localhost:5002");
    reflexivity.
Defined.

(** No fallback when the primary is down.  A file is registered under the
    absolute path "/" + p, where p has no leading slash (the download route
    delivers none) and none of the characters % + & #, which the query
    string to the metadata server would alter.  If the node of the first
    replica of its first chunk does not answer, GET /download/p answers 500
    without asking any other replica, whatever the other nodes hold. *)
Theorem download_file_primary_down (st : Metadata.State) (net : Net)
    (file_path : string) (chunk_id : nat) (chunk_ids : list nat)
    (info : Metadata.ChunkInfo) (node1 url1 : string) (others : list string) :
  String.prefix "/" file_path = false →
  url_plain file_path = true →
  Metadata.file_to_chunks st !! ("/" +:+ file_path)
    = Some (chunk_id :: chunk_ids) →
  Metadata.chunk_metadata st !! chunk_id = Some info →
  Metadata.chunk_servers info = node1 :: others →
  node_url node1 = Some url1 →
  net !! url1 = None →
  Gateway.download_file file_path (Gateway.mkWorld st net)
  = Err 500 "Error downloading chunk".
Proof.
  intros Hslash Hplain Hentry Hinfo Hservers Hurl1 Hdown.
  rewrite download_file_route by done. cbn [Gateway.server Gateway.net].
  rewrite (get_file_metadata_present _ _ _ Hentry).
  cbn [omap list_omap Metadata.chunks]. rewrite Hinfo.
  cbn [fmap option_fmap option_map mbind option_bind]. rewrite Hservers.
  cbn [Gateway.download_loop].
  by rewrite (download_turn_primary_down _ _ _ _ _ Hurl1 Hdown).
Qed.

Lemma download_file_primary_down_witness :
  String.prefix "/" "dfs/a.bin" = false
  ∧ url_plain "dfs/a.bin" = true
  ∧ Metadata.file_to_chunks
      (Metadata.create_file (λ _, 0) "/dfs/a.bin" 2 Metadata.initial).2
      !! ("/" +:+ "dfs/a.bin") = Some [0%nat]
  ∧ ({[ "http://localhost:5002" := {[ 0%nat := ["001"%byte; "002"%byte] ]} ]}
       : Net) !! "http://localhost:5001" = None
  ∧ Gateway.download_file "dfs/a.bin"
      (Gateway.mkWorld
         (Metadata.create_file (λ _, 0) "/dfs/a.bin" 2 Metadata.initial).2
         {[ "http://localhost:5002" := {[ 0%nat := ["001"%byte; "002"%byte] ]} ]})
    = Err 500 "Error downloading chunk".
Proof.
  split; [reflexivity|]. split; [reflexivity|]. split; [reflexivity|].
  split; [reflexivity|].
  apply (download_file_primary_down _ _ "dfs/a.bin" 0 []
           (Metadata.new_chunk_info 0) "node1" "http://localhost:5001"
           ["node2"]);
    reflexivity.
Defined.

(** The upload writes every piece of the file to every replica the metadata
    server assigned to its chunk: with node1 and node2 up, after the upload
    the ChunkRecord of the i-th chunk exists and each node of its replica set
    holds exactly the i-th piece under the chunk's identifier; no other node
    is written to. *)
Theorem upload_file_stores_on_replicas (now : nat → Z) (filename : string)
    (data : list byte) (directory : string) (w : Gateway.World) :
  filename ≠ "" →
  is_Some (Gateway.net w !! "http://localhost:5001") →
  is_Some (Gateway.net w !! "http://localhost:5002") →
  ∃ threads w',
    Gateway.upload_file now (Some (filename, data)) directory w
      = Some (Ok 200 directory, threads, w')
    ∧ (∀ (i : nat) piece,
         read_chunks (S (length data)) data !! i = Some piece →
         ∃ info,
           Metadata.chunk_metadata (Gateway.server w')
             !! (Metadata.uuid_drawn (Gateway.server w) + i)%nat = Some info
           ∧ ∀ node_id, node_id ∈ Metadata.chunk_servers info →
               ∃ url, node_url node_id = Some url
                      ∧ blob (Gateway.net w') url
                             (Metadata.uuid_drawn (Gateway.server w) + i)
                        = Some piece)
    ∧ ∀ url, url ≠ "http://localhost:5001" → url ≠ "http://localhost:5002" →
        Gateway.net w' !! url = Gateway.net w !! url.
Proof.
  intros Hname Hup1 Hup2. eexists _, _.
  split; [by apply upload_file_spec|]. cbn [Gateway.server Gateway.net].
  split; [|intros url; apply store_chunks_other_node].
  intros i piece Hpiece.
  pose proof (lookup_lt_Some _ _ _ Hpiece) as Hi.
  exists (Metadata.new_chunk_info (now i)).
  split; [apply create_file_record; by rewrite <- read_chunks_count|].
  assert (∀ url,
    url = "http://localhost:5001" ∨ url = "http://localhost:5002" →
    is_Some (Gateway.net w !! url) →
    blob (foldl store_chunk (Gateway.net w)
            (zip (seq (Metadata.uuid_drawn (Gateway.server w))
                      (length (read_chunks (S (length data)) data)))
                 (read_chunks (S (length data)) data)))
         url (Metadata.uuid_drawn (Gateway.server w) + i)
    = Some piece) as Hstored.
  { intros url Hurl Hup. apply blob_replica.
    apply (store_chunks_in_at _ _ _ i); [done| | |..|done].
    - rewrite fst_zip by (rewrite length_seq; lia). apply NoDup_seq.
    - apply lookup_zip_with_Some.
      exists (Metadata.uuid_drawn (Gateway.server w) + i)%nat, piece.
      split; [reflexivity|]. split; [by apply lookup_seq|assumption].
    - destruct (read_chunks_sizes (S (length data)) data i piece) as [Hpos _];
        [lia|done|]. intros ->. cbn in Hpos. lia. }
  intros node_id Hnode.
  change (node_id ∈ ["node1"; "node2"]) in Hnode.
  apply elem_of_cons in Hnode as [->|Hnode].
  - exists "http://localhost:5001". split; [reflexivity|]. apply Hstored; auto.
  - apply list_elem_of_singleton in Hnode as ->.
    exists "http://localhost:5002". split; [reflexivity|]. apply Hstored; auto.
Qed.

Lemma upload_file_stores_on_replicas_witness :
  "a.bin" ≠ ""
  ∧ is_Some (cluster ∅ ∅ ∅ !! "http://localhost:5001")
  ∧ is_Some (cluster ∅ ∅ ∅ !! "http://localhost:5002")
  ∧ ∃ threads w',
      Gateway.upload_file (λ _, 0)
        (Some ("a.bin", ["001"%byte; "002"%byte])) "/dfs/"
        (Gateway.mkWorld Metadata.initial (cluster ∅ ∅ ∅))
      = Some (Ok 200 "/dfs/", threads, w')
      ∧ (∀ (i : nat) piece,
           read_chunks (S (length ["001"%byte; "002"%byte]))
             ["001"%byte; "002"%byte] !! i = Some piece →
           ∃ info,
             Metadata.chunk_metadata (Gateway.server w')
               !! (Metadata.uuid_drawn
                     (Gateway.server
                        (Gateway.mkWorld Metadata.initial (cluster ∅ ∅ ∅)))
                   + i)%nat = Some info
             ∧ ∀ node_id, node_id ∈ Metadata.chunk_servers info →
                 ∃ url, node_url node_id = Some url
                        ∧ blob (Gateway.net w') url
                               (Metadata.uuid_drawn
                                  (Gateway.server
                                     (Gateway.mkWorld Metadata.initial
                                        (cluster ∅ ∅ ∅))) + i)
                          = Some piece)
      ∧ ∀ url, url ≠ "http://localhost:5001" → url ≠ "http://localhost:5002" →
          Gateway.net w' !! url
          = Gateway.net (Gateway.mkWorld Metadata.initial (cluster ∅ ∅ ∅))
              !! url.
Proof.
  split; [discriminate|]. split; [by eexists|]. split; [by eexists|].
  apply (upload_file_stores_on_replicas (λ _, 0) "a.bin"
           ["001"%byte; "002"%byte] "/dfs/"
           (Gateway.mkWorld Metadata.initial (cluster ∅ ∅ ∅))).
  - discriminate.
  - by eexists.
  - by eexists.
Defined.

Section end_to_end.
Import Gateway.
Implicit Types (data : list byte) (net : Net).
Local Opaque read_size.

Lemma lose_chunk_replica url (chunk_id : nat) net url' (chunk_id' : nat) :
  replica (lose_chunk url chunk_id net) url' chunk_id'
  = if decide (url = url' ∧ chunk_id = chunk_id')
    then (λ _, None) <$> net !! url'
    else replica net url' chunk_id'.
Proof.
  unfold lose_chunk, replica, Node.delete_chunk.
  destruct (net !! url) as [store|] eqn:Hup.
  - destruct (decide (url = url')) as [<-|Hne].
    + rewrite lookup_insert_eq, Hup. cbn [fmap option_fmap option_map].
      destruct (decide (chunk_id = chunk_id')) as [<-|Hc].
      * rewrite decide_True by done.
        destruct (store !! chunk_id) eqn:E; cbn [snd];
          [by rewrite lookup_delete_eq|by rewrite E].
      * rewrite decide_False by (by intros [_ ?]).
        destruct (store !! chunk_id); cbn [snd];
          [by rewrite lookup_delete_ne|done].
    + rewrite lookup_insert_ne by done.
      by rewrite decide_False by (by intros [? _]).
  - case_decide as H; [|done]. destruct H as [<- _]. by rewrite Hup.
Qed.

Lemma read_chunks_count_single data :
  data ≠ [] → Z.of_nat (length data) ≤ CHUNK_SIZE →
  Z.to_nat (Metadata.chunk_count (Z.of_nat (length data))) = 1%nat.
Proof.
  intros Hne Hle. rewrite <- read_chunks_count.
  by rewrite read_chunks_single.
Qed.
End end_to_end.

(** The upload reports success without looking at the replies of the nodes.
    With the primary node1 down, the upload of a non-empty file still answers
    200 and node1 stays without the file.  When the file is registered under
    the absolute path "/" + p, where p has no leading slash (the download
    route delivers none) and none of the characters % + & # (which the query
    string to the metadata server would alter), GET /download/p then answers
    500, even if node2 took every chunk. *)
Theorem upload_file_ignores_failed_writes (now : nat → Z) (filename : string)
    (data : list byte) (directory file_path : string) (w : Gateway.World) :
  filename ≠ "" →
  String.prefix "/" file_path = false →
  url_plain file_path = true →
  Gateway.os_path_join directory filename = "/" +:+ file_path →
  data ≠ [] →
  Gateway.net w !! "http://localhost:5001" = None →
  ∃ threads w',
    Gateway.upload_file now (Some (filename, data)) directory w
      = Some (Ok 200 directory, threads, w')
    ∧ Gateway.net w' !! "http://localhost:5001" = None
    ∧ Gateway.download_file file_path w' = Err 500 "Error downloading chunk".
Proof.
  intros Hname Hslash Hplain Hpath Hne Hdown. eexists _, _.
  split; [by apply upload_file_spec|]. cbn [Gateway.net].
  split; [by apply store_chunks_down|].
  rewrite download_file_route by done. rewrite <- Hpath.
  cbn [Gateway.server Gateway.net].
  rewrite get_file_metadata_created, <- read_chunks_count.
  rewrite read_chunks_cons by done.
  cbn [length seq fmap list_fmap Metadata.chunks Gateway.download_loop].
  rewrite (download_turn_primary_down _ _ "node1" "http://localhost:5001");
    [done|reflexivity|].
  by apply store_chunks_down.
Qed.

Lemma upload_file_ignores_failed_writes_witness :
  "a.bin" ≠ ""
  ∧ String.prefix "/" "dfs/a.bin" = false
  ∧ url_plain "dfs/a.bin" = true
  ∧ Gateway.os_path_join "/dfs/" "a.bin" = "/" +:+ "dfs/a.bin"
  ∧ ["001"%byte; "002"%byte] ≠ []
  ∧ ({[ "http://localhost:5002" := ∅ ]} : Net) !! "http://localhost:5001" = None
  ∧ ∃ threads w',
      Gateway.upload_file (λ _, 0)
        (Some ("a.bin", ["001"%byte; "002"%byte])) "/dfs/"
        (Gateway.mkWorld Metadata.initial {[ "http://localhost:5002" := ∅ ]})
      = Some (Ok 200 "/dfs/", threads, w')
      ∧ Gateway.net w' !! "http://localhost:5001" = None
      ∧ Gateway.download_file "dfs/a.bin" w'
        = Err 500 "Error downloading chunk".
Proof.
  split; [discriminate|]. split; [reflexivity|]. split; [reflexivity|].
  split; [reflexivity|]. split; [discriminate|].
  split; [reflexivity|].
  apply (upload_file_ignores_failed_writes (λ _, 0) "a.bin"
           ["001"%byte; "002"%byte] "/dfs/" "dfs/a.bin"
           (Gateway.mkWorld Metadata.initial {[ "http://localhost:5002" := ∅ ]})).
  - discriminate.
  - reflexivity.
  - reflexivity.
  - reflexivity.
  - discriminate.
  - reflexivity.
Defined.

(** Upload, loss, read, repair.  A file of one chunk is uploaded with node1
    and node2 up and registered under the absolute path "/" + p, where p has
    no leading slash (the download route delivers none) and none of the
    characters % + & #, which the query string to the metadata server would
    alter.  After node1 loses the chunk through a Delete sent to it directly,
    GET /download/p still returns the file, and one reconciliation pass puts
    the same bytes back on node1. *)
Theorem upload_loss_download_reconcile (now : nat → Z) (filename : string)
    (data : list byte) (directory file_path : string) (w : Gateway.World) :
  filename ≠ "" →
  String.prefix "/" file_path = false →
  url_plain file_path = true →
  Gateway.os_path_join directory filename = "/" +:+ file_path →
  data ≠ [] →
  Z.of_nat (length data) ≤ CHUNK_SIZE →
  is_Some (Gateway.net w !! "http://localhost:5001") →
  is_Some (Gateway.net w !! "http://localhost:5002") →
  ∃ threads w',
    Gateway.upload_file now (Some (filename, data)) directory w
      = Some (Ok 200 directory, threads, w')
    ∧ replica (lose_chunk "http://localhost:5001"
                 (Metadata.uuid_drawn (Gateway.server w)) (Gateway.net w'))
              "http://localhost:5001" (Metadata.uuid_drawn (Gateway.server w))
      = Some None
    ∧ Gateway.download_file file_path
        (Gateway.mkWorld (Gateway.server w')
           (lose_chunk "http://localhost:5001"
              (Metadata.uuid_drawn (Gateway.server w)) (Gateway.net w')))
      = Ok 200 data
    ∧ blob (Metadata.reconcile_cycle (Gateway.server w')
              (lose_chunk "http://localhost:5001"
                 (Metadata.uuid_drawn (Gateway.server w)) (Gateway.net w')))
           "http://localhost:5001" (Metadata.uuid_drawn (Gateway.server w))
      = Some data.
Proof.
  intros Hname Hslash Hplain Hpath Hne Hle Hup1 Hup2. eexists _, _.
  split; [by apply upload_file_spec|]. cbn [Gateway.server Gateway.net].
  rewrite read_chunks_single by done. cbn [length seq zip_with foldl].
  set (u := Metadata.uuid_drawn (Gateway.server w)).
  set (net1 := store_chunk (Gateway.net w) (u, data)).
  set (st1 := (Metadata.create_file now (Gateway.os_path_join directory filename)
                 (Z.of_nat (length data)) (Gateway.server w)).2).
  assert (replica net1 "http://localhost:5001" u = Some (Some data)) as H1.
  { unfold net1. rewrite store_chunk_replica_at, decide_True by auto.
    by destruct Hup1 as [s ->]. }
  assert (replica net1 "http://localhost:5002" u = Some (Some data)) as H2.
  { unfold net1. rewrite store_chunk_replica_at, decide_True by auto.
    by destruct Hup2 as [s ->]. }
  assert (replica (lose_chunk "http://localhost:5001" u net1)
                  "http://localhost:5001" u = Some None) as Hlost1.
  { rewrite lose_chunk_replica, decide_True by done.
    unfold replica in H1. by destruct (net1 !! "http://localhost:5001"). }
  assert (replica (lose_chunk "http://localhost:5001" u net1)
                  "http://localhost:5002" u = Some (Some data)) as Hlost2.
  { rewrite lose_chunk_replica. by rewrite decide_False by (by intros [? _]). }
  assert (Metadata.file_to_chunks st1 !! Gateway.os_path_join directory filename
          = Some [u]) as Hentry.
  { unfold st1. rewrite create_file_entry, decide_True by done.
    by rewrite read_chunks_count_single. }
  assert (Metadata.chunk_metadata st1 !! u
          = Some (Metadata.new_chunk_info (now 0%nat))) as Hinfo.
  { pose proof (create_file_record now
                  (Gateway.os_path_join directory filename)
                  (Z.of_nat (length data)) (Gateway.server w) 0) as H.
    rewrite Nat.add_0_r in H. apply H.
    rewrite read_chunks_count_single; [lia|done..]. }
  split; [done|]. split.
  - rewrite download_file_route by done. rewrite <- Hpath.
    cbn [Gateway.server Gateway.net].
    rewrite (get_file_metadata_present _ _ _ Hentry).
    cbn [omap list_omap Metadata.chunks]. rewrite Hinfo.
    cbn [fmap option_fmap option_map mbind option_bind Gateway.download_loop].
    change (Metadata.chunk_servers (Metadata.new_chunk_info (now 0%nat)))
      with ["node1"; "node2"].
    by rewrite (download_turn_fallback _ u "node1" "node2"
                  "http://localhost:5001" "http://localhost:5002" []
                  data eq_refl eq_refl Hlost1 Hlost2).
  - apply blob_replica.
    by destruct (reconcile_cycle_repairs_listed st1
                   (lose_chunk "http://localhost:5001" u net1)
                   _ [u] u _ "node1" "node2"
                   "http://localhost:5001" "http://localhost:5002" data
                   Hentry (list_elem_of_here _ _) Hinfo eq_refl
                   ltac:(discriminate) eq_refl eq_refl Hne
                   (conj Hlost2 (or_introl Hlost1))) as [_ ?].
Qed.

Lemma upload_loss_download_reconcile_witness :
  "a.bin" ≠ ""
  ∧ String.prefix "/" "dfs/a.bin" = false
  ∧ url_plain "dfs/a.bin" = true
  ∧ Gateway.os_path_join "/dfs/" "a.bin" = "/" +:+ "dfs/a.bin"
  ∧ ["001"%byte; "002"%byte] ≠ []
  ∧ Z.of_nat (length ["001"%byte; "002"%byte]) ≤ CHUNK_SIZE
  ∧ is_Some (cluster ∅ ∅ ∅ !! "http://localhost:5001")
  ∧ is_Some (cluster ∅ ∅ ∅ !! "http://localhost:5002")
  ∧ ∃ threads w',
      Gateway.upload_file (λ _, 0)
        (Some ("a.bin", ["001"%byte; "002"%byte])) "/dfs/"
        (Gateway.mkWorld Metadata.initial (cluster ∅ ∅ ∅))
      = Some (Ok 200 "/dfs/", threads, w')
      ∧ replica (lose_chunk "http://localhost:5001" 0 (Gateway.net w'))
                "http://localhost:5001" 0
        = Some None
      ∧ Gateway.download_file "dfs/a.bin"
          (Gateway.mkWorld (Gateway.server w')
             (lose_chunk "http://localhost:5001" 0 (Gateway.net w')))
        = Ok 200 ["001"%byte; "002"%byte]
      ∧ blob (Metadata.reconcile_cycle (Gateway.server w')
                (lose_chunk "http://localhost:5001" 0 (Gateway.net w')))
             "http://localhost:5001" 0
        = Some ["001"%byte; "002"%byte].
Proof.
  split; [discriminate|]. split; [reflexivity|]. split; [reflexivity|].
  split; [reflexivity|]. split; [discriminate|].
  split; [discriminate|]. split; [by eexists|]. split; [by eexists|].
  apply (upload_loss_download_reconcile (λ _, 0) "a.bin"
           ["001"%byte; "002"%byte] "/dfs/" "dfs/a.bin"
           (Gateway.mkWorld Metadata.initial (cluster ∅ ∅ ∅))).
  - discriminate.
  - reflexivity.
  - reflexivity.
  - reflexivity.
  - discriminate.
  - discriminate.
  - by eexists.
  - by eexists.
Defined.

(** How the gateway reports a path the metadata server does not know.  A
    rename of an unknown old path is answered 500, where the metadata server
    answered 404, and nothing changes.  A delete, POST /delete/<file_path>,
    of a path that has none of the characters % + & # (which the query
    string to the metadata server would alter) and is not in the namespace
    is answered 400, where the metadata server answered 404, and nothing
    changes.  A rename without one of its two paths is answered 400 before
    the metadata server is asked. *)
Theorem gateway_reports_unknown_path :
  (∀ (old_path new_path : string) (w : Gateway.World),
      old_path ≠ "" → new_path ≠ "" →
      Metadata.file_to_chunks (Gateway.server w) !! old_path = None →
      (Metadata.rename_file old_path new_path (Gateway.server w)).1
        = Err 404 "File not found"
      ∧ Gateway.rename_file (Some old_path) (Some new_path) w
        = (Err 500 "Rename request failed", w))
  ∧ (∀ (file_path : string) (w : Gateway.World),
       url_plain file_path = true →
       Metadata.file_to_chunks (Gateway.server w) !! file_path = None →
       (Metadata.delete_file file_path (Gateway.server w)).1
         = Err 404 "File not found"
       ∧ Gateway.delete_file_web file_path w
         = (Err 400 "Failed to delete file", w))
  ∧ (∀ (old_path new_path : option string) (w : Gateway.World),
       old_path = None ∨ old_path = Some "" ∨ new_path = None
         ∨ new_path = Some "" →
       Gateway.rename_file old_path new_path w
       = (Err 400 "old_path and new_path are required", w)).
Proof.
  split; [|split].
  - intros old_path new_path [st net] Hold Hnew Habsent.
    cbn [Gateway.server] in *. unfold Gateway.rename_file.
    rewrite !bool_decide_eq_false_2 by done. cbn [orb Gateway.server].
    unfold Metadata.rename_file. by rewrite Habsent.
  - intros file_path [st net] Hplain Habsent. cbn [Gateway.server] in *.
    rewrite delete_file_web_server, query_arg_plain by done.
    cbn [Gateway.server Gateway.net].
    by rewrite Habsent, delete_file_absent.
  - intros old_path new_path w H. unfold Gateway.rename_file.
    destruct old_path as [old_path|], new_path as [new_path|]; try done.
    destruct H as [H|[H|[H|H]]]; try done; injection H as ->.
    + by rewrite bool_decide_eq_true_2.
    + rewrite (bool_decide_eq_true_2 ("" = "")) by done.
      by rewrite orb_true_r.
Qed.

(** The delete of the gateway acts on the path the metadata server reads
    from the query string, which is not always the path of the request:
    POST /delete/dfs/a.bin&x is answered 200 and removes dfs/a.bin. *)
Example delete_file_web_cut_at_ampersand :
  Gateway.delete_file_web "dfs/a.bin&x"
    (Gateway.mkWorld
       (Metadata.create_file (λ _, 0) "dfs/a.bin" 2 Metadata.initial).2
       (cluster ∅ ∅ ∅))
  = (Ok 200 "dfs/a.bin&x",
     Gateway.mkWorld (Metadata.mkState ∅ ∅ 1) (cluster ∅ ∅ ∅)).
Proof. by vm_compute. Qed.



(* ===================================================================== *)
(** ** Browsing *)
(* ===================================================================== *)
Section paths.
Import Gateway.
Implicit Types (s a b path : string) (parts : list string).

Lemma string_app_nil_r s : s +:+ "" = s.
Proof. induction s as [|c s IH]; [done|]. unfold String.app. cbn. by f_equal. Qed.

Lemma string_app_cons c a b : String c a +:+ b = String c (a +:+ b).
Proof. reflexivity. Qed.

Lemma string_app_assoc a b s : (a +:+ b) +:+ s = a +:+ (b +:+ s).
Proof.
  induction a as [|c a IH]; [done|]. rewrite !string_app_cons. by f_equal.
Qed.

Lemma count_slash_app a b : count_slash (a +:+ b) = (count_slash a + count_slash b)%nat.
Proof.
  induction a as [|c a IH]; [done|]. rewrite string_app_cons.
  cbn [count_slash]. rewrite IH. by destruct (bool_decide (c = "/"%char)).
Qed.

Lemma split_slash_nonempty path : split_slash path ≠ [].
Proof.
  destruct path as [|c path]; [done|]. cbn [split_slash].
  destruct (bool_decide (c = "/"%char)); [done|].
  by destruct (split_slash path).
Qed.

Lemma split_slash_length path :
  length (split_slash path) = S (count_slash path).
Proof.
  induction path as [|c path IH]; [done|]. cbn [split_slash count_slash].
  destruct (bool_decide (c = "/"%char)); cbn [length]; [by rewrite IH|].
  pose proof (split_slash_nonempty path).
  by destruct (split_slash path).
Qed.

(** No piece of a split has a slash. *)
Lemma split_slash_pieces path :
  Forall (λ part, count_slash part = 0%nat) (split_slash path).
Proof.
  induction path as [|c path IH]; [by repeat constructor|].
  cbn [split_slash]. destruct (bool_decide (c = "/"%char)) eqn:Hc.
  - by constructor.
  - destruct (split_slash path) as [|part parts].
    + constructor; [|done]. cbn [count_slash]. by rewrite Hc.
    + apply Forall_cons in IH as [Hpart Hparts].
      constructor; [|done]. cbn [count_slash]. by rewrite Hc.
Qed.

Lemma join_slash_cons part parts :
  parts ≠ [] → join_slash (part :: parts) = part +:+ "/" +:+ join_slash parts.
Proof. by destruct parts. Qed.

(** Joining the pieces of a split gives the string back. *)
Lemma join_split_slash path : join_slash (split_slash path) = path.
Proof.
  induction path as [|c path IH]; [done|]. cbn [split_slash].
  pose proof (split_slash_nonempty path) as Hne.
  destruct (bool_decide (c = "/"%char)) eqn:Hc.
  - apply bool_decide_eq_true_1 in Hc as ->.
    rewrite join_slash_cons by done. by rewrite IH.
  - destruct (split_slash path) as [|part [|part' parts]]; [done|..].
    + cbn [join_slash] in *. by rewrite IH.
    + rewrite join_slash_cons in IH |- * by done.
      rewrite string_app_cons. by rewrite IH.
Qed.

Lemma split_slash_plain s : count_slash s = 0%nat → split_slash s = [s].
Proof.
  induction s as [|c s IH]; [done|]. cbn [count_slash split_slash].
  destruct (bool_decide (c = "/"%char)); [done|].
  intros H. by rewrite IH.
Qed.

Lemma split_slash_app a b :
  split_slash (a +:+ "/" +:+ b) = split_slash a ++ split_slash b.
Proof.
  induction a as [|c a IH].
  - change ("" +:+ "/" +:+ b) with (String "/"%char b).
    cbn [split_slash]. by rewrite bool_decide_eq_true_2.
  - rewrite string_app_cons. cbn [split_slash]. rewrite IH.
    destruct (bool_decide (c = "/"%char)); [done|].
    pose proof (split_slash_nonempty a).
    by destruct (split_slash a).
Qed.

Lemma join_slash_snoc parts name :
  parts ≠ [] →
  join_slash (parts ++ [name]) = join_slash parts +:+ "/" +:+ name.
Proof.
  induction parts as [|part parts IH]; [done|]. intros _.
  destruct parts as [|part' parts].
  - done.
  - change ((part :: part' :: parts) ++ [name])
      with (part :: ((part' :: parts) ++ [name])).
    rewrite join_slash_cons by (by intros [? ?]%app_nil).
    rewrite IH by done.
    rewrite (join_slash_cons part (part' :: parts)) by done.
    by rewrite !string_app_assoc.
Qed.

(** The directory [browse] computes for a path is the path up to its last
    slash, when the path has at least two slashes. *)
Lemma parent_dir_spec path (d : string) :
  (2 <? length (split_slash path))%nat = true
  ∧ d = join_slash (removelast (split_slash path)) +:+ "/"
  ↔ (2 ≤ count_slash path)%nat
    ∧ ∃ d0 name, d = d0 +:+ "/" ∧ path = d +:+ name ∧ count_slash name = 0%nat.
Proof.
  rewrite Nat.ltb_lt, split_slash_length. split.
  - intros [Hlen ->]. split; [lia|].
    pose proof (app_removelast_last "" (split_slash_nonempty path)) as Hsplit.
    pose proof (split_slash_pieces path) as Hpieces.
    pose proof (join_split_slash path) as Hjoin.
    pose proof (split_slash_length path) as Hl.
    set (init := removelast (split_slash path)) in *.
    set (name := List.last (split_slash path) "") in *.
    rewrite Hsplit in Hpieces, Hjoin, Hl.
    rewrite length_app in Hl. cbn [length] in Hl.
    exists (join_slash init), name. split; [done|]. split.
    + rewrite <- Hjoin at 1.
      rewrite join_slash_snoc; [by rewrite string_app_assoc|].
      intros Hinit. rewrite Hinit in Hl. cbn [length] in Hl. lia.
    + apply Forall_app in Hpieces as [_ Hname].
      exact (Forall_inv Hname).
  - intros [Hcount (d0 & name & -> & -> & Hname)].
    rewrite string_app_assoc in Hcount |- *.
    split; [lia|].
    rewrite split_slash_app, (split_slash_plain name) by done.
    by rewrite removelast_last, join_split_slash.
Qed.

(** The loop of [browse] over the listed paths. *)
Lemma browse_loop (directory : string) (paths : list string)
    (directories : gset string) (d : string) :
  d ∈ foldl (λ (directories : gset string) path,
               let parts := split_slash path in
               if (2 <? length parts)%nat then
                 let parent_dir := join_slash (removelast parts) +:+ "/" in
                 if String.prefix directory parent_dir
                    && negb (bool_decide (parent_dir = directory))
                 then {[ parent_dir ]} ∪ directories
                 else directories
               else directories) directories paths
  ↔ d ∈ directories
    ∨ ∃ path, path ∈ paths
        ∧ (2 <? length (split_slash path))%nat = true
        ∧ d = join_slash (removelast (split_slash path)) +:+ "/"
        ∧ String.prefix directory d = true
        ∧ d ≠ directory.
Proof.
  revert directories. induction paths as [|path paths IH]; intros directories.
  - cbn [foldl]. split; [by left|]. intros [?|(path & []%elem_of_nil & _)]; done.
  - cbn [foldl]. rewrite IH. cbv zeta.
    destruct (2 <? length (split_slash path))%nat eqn:Hlen.
    + destruct (String.prefix directory
                  (join_slash (removelast (split_slash path)) +:+ "/")) eqn:Hpre;
        cbn [andb].
      * destruct (decide (join_slash (removelast (split_slash path)) +:+ "/"
                          = directory)) as [Heq|Hne].
        -- rewrite bool_decide_eq_true_2 by done. cbn [negb]. split.
           ++ intros [?|(p & Hp & ?)]; [by left|right].
              exists p. split; [by apply list_elem_of_further|done].
           ++ intros [?|(p & Hp & H2 & -> & H3 & H4)]; [by left|].
              apply elem_of_cons in Hp as [->|Hp]; [done|].
              right. by exists p.
        -- rewrite bool_decide_eq_false_2 by done. cbn [negb]. split.
           ++ intros [[->%elem_of_singleton|?]%elem_of_union|(p & Hp & ?)].
              ** right. exists path. split; [apply list_elem_of_here|done].
              ** by left.
              ** right. exists p. split; [by apply list_elem_of_further|done].
           ++ intros [?|(p & Hp & H2 & -> & H3 & H4)].
              ** left. apply elem_of_union. by right.
              ** apply elem_of_cons in Hp as [->|Hp].
                 --- left. apply elem_of_union. left. by apply elem_of_singleton.
                 --- right. by exists p.
      * split.
        -- intros [?|(p & Hp & ?)]; [by left|right].
           exists p. split; [by apply list_elem_of_further|done].
        -- intros [?|(p & Hp & H2 & -> & H3 & H4)]; [by left|].
           apply elem_of_cons in Hp as [->|Hp]; [congruence|].
           right. by exists p.
    + split.
      * intros [?|(p & Hp & ?)]; [by left|right].
        exists p. split; [by apply list_elem_of_further|done].
      * intros [?|(p & Hp & H2 & -> & H3 & H4)]; [by left|].
        apply elem_of_cons in Hp as [->|Hp]; [congruence|].
        right. by exists p.
Qed.
End paths.

Section browsing.
Import Gateway.

(** The paths [list_files] answers with. *)
Lemma list_files_listed (directory : string) (st : Metadata.State)
    (files : gmap string nat) (path : string) :
  Metadata.list_files (Some directory) st = Ok 200 files →
  path ∈ (map_to_list files).*1
  ↔ String.prefix directory path = true
    ∧ is_Some (Metadata.file_to_chunks st !! path).
Proof.
  intros [= <-]. cbn [default].
  assert (path ∈ (map_to_list
            (foldl (λ (files : gmap string nat) '(path, chunk_ids),
                      if String.prefix directory path
                      then <[path := length (chunk_ids : list nat)]> files
                      else files)
                   ∅ (map_to_list (Metadata.file_to_chunks st)))).*1
          ↔ is_Some (foldl (λ (files : gmap string nat) '(path, chunk_ids),
                      if String.prefix directory path
                      then <[path := length (chunk_ids : list nat)]> files
                      else files)
                   ∅ (map_to_list (Metadata.file_to_chunks st)) !! path))
    as ->.
  { rewrite list_elem_of_fmap. split.
    - intros ([p n] & -> & Hin). apply elem_of_map_to_list in Hin. by exists n.
    - intros [n Hn]. exists (path, n). split; [done|].
      by apply elem_of_map_to_list. }
  rewrite list_files_loop by apply NoDup_fst_map_to_list.
  rewrite list_to_map_to_list, lookup_empty.
  destruct (Metadata.file_to_chunks st !! path) as [cs|].
  - destruct (String.prefix directory path).
    + split; [by eauto|by intros _; eexists].
    + split; [by intros [? ?]|by intros [? _]].
  - split; [by intros [? ?]|]. by intros [_ [? ?]].
Qed.
End browsing.

(** X18.  Browse of a directory that has none of the characters % + & #
    (which the query string to the metadata server would alter; "/" when no
    directory is given) answers 200 with the listing of the metadata server
    for that directory, the directory itself, and a sorted, duplicate-free
    list of directories.  A directory is listed exactly when it differs from
    the directory asked for, starts with it, ends with a slash, and some
    file of the namespace is named by it followed by a slash-free name, with
    at least two slashes in the whole path.  So every level below the one
    asked for is listed, not only the next one, and a directory holding only
    sub-directories is not listed. *)
Theorem browse_lists_parent_directories :
  ∀ (dir : option string) (w : Gateway.World),
  url_plain (default "/" dir) = true →
  ∃ files directories,
    Gateway.browse dir w = Ok 200 (files, directories, default "/" dir)
    ∧ Metadata.list_files (Some (default "/" dir)) (Gateway.server w)
      = Ok 200 files
    ∧ Sorted String.le directories
    ∧ NoDup directories
    ∧ ∀ d : string,
        d ∈ directories
        ↔ d ≠ default "/" dir
          ∧ (∃ rest, d = default "/" dir +:+ rest)
          ∧ (∃ d0, d = d0 +:+ "/")
          ∧ ∃ name,
              count_slash name = 0%nat
              ∧ (2 ≤ count_slash (d +:+ name))%nat
              ∧ is_Some (Metadata.file_to_chunks (Gateway.server w)
                           !! (d +:+ name)).
Proof.
  intros dir w Hplain. unfold Gateway.browse. rewrite query_arg_plain by done.
  destruct (Metadata.list_files (Some (default "/" dir)) (Gateway.server w))
    as [code files|code msg] eqn:Hlist; [|discriminate Hlist].
  assert (code = 200%nat) as -> by (by injection Hlist).
  eexists _, _. split; [reflexivity|]. split; [done|].
  split; [apply Sorted_merge_sort, _|].
  split; [rewrite merge_sort_Permutation; apply NoDup_elements|].
  intros d. rewrite merge_sort_Permutation, elem_of_elements, browse_loop.
  split.
  - intros [[]%elem_of_empty|(path & Hin & Hlen & Hd & Hpre & Hne)].
    apply (list_files_listed _ _ _ _ Hlist) in Hin as [_ Hfile].
    destruct (proj1 (parent_dir_spec path d) (conj Hlen Hd))
      as (Hcount & d0 & name & Hd0 & -> & Hname).
    split; [done|]. split; [by apply prefix_startswith|].
    split; [by exists d0|]. by exists name.
  - intros (Hne & [rest Hrest] & [d0 Hd0] & name & Hname & Hcount & Hfile).
    right. exists (d +:+ name).
    destruct (proj2 (parent_dir_spec (d +:+ name) d)) as [Hlen Hd].
    { split; [done|]. by exists d0, name. }
    split; [|split; [done|split; [done|split; [|done]]]].
    + apply (list_files_listed _ _ _ _ Hlist). split; [|done].
      apply prefix_startswith. exists (rest +:+ name).
      rewrite Hrest at 1. apply string_app_assoc.
    + apply prefix_startswith. by exists rest.
Qed.

Lemma browse_lists_parent_directories_witness :
  url_plain (default "/" (Some "/dfs/")) = true
  ∧ ∃ files directories,
      Gateway.browse (Some "/dfs/")
        (Gateway.mkWorld
           (Metadata.create_file (λ _, 0) "/dfs/b/c.txt" 1
              (Metadata.create_file (λ _, 0) "/dfs/a.txt" 5
                 Metadata.initial).2).2 ∅)
      = Ok 200 (files, directories, default "/" (Some "/dfs/"))
      ∧ Metadata.list_files (Some (default "/" (Some "/dfs/")))
          (Gateway.server
             (Gateway.mkWorld
                (Metadata.create_file (λ _, 0) "/dfs/b/c.txt" 1
                   (Metadata.create_file (λ _, 0) "/dfs/a.txt" 5
                      Metadata.initial).2).2 ∅))
        = Ok 200 files
      ∧ Sorted String.le directories
      ∧ NoDup directories
      ∧ ∀ d : string,
          d ∈ directories
          ↔ d ≠ default "/" (Some "/dfs/")
            ∧ (∃ rest, d = default "/" (Some "/dfs/") +:+ rest)
            ∧ (∃ d0, d = d0 +:+ "/")
            ∧ ∃ name,
                count_slash name = 0%nat
                ∧ (2 ≤ count_slash (d +:+ name))%nat
                ∧ is_Some
                    (Metadata.file_to_chunks
                       (Gateway.server
                          (Gateway.mkWorld
                             (Metadata.create_file (λ _, 0) "/dfs/b/c.txt" 1
                                (Metadata.create_file (λ _, 0) "/dfs/a.txt" 5
                                   Metadata.initial).2).2 ∅))
                       !! (d +:+ name)).
Proof.
  split; [reflexivity|].
  apply (browse_lists_parent_directories (Some "/dfs/")
           (Gateway.mkWorld
              (Metadata.create_file (λ _, 0) "/dfs/b/c.txt" 1
                 (Metadata.create_file (λ _, 0) "/dfs/a.txt" 5
                    Metadata.initial).2).2 ∅)).
  reflexivity.
Defined.

(** A namespace with files at three depths, browsed at /dfs/: the directory
    asked for and the one with only a sub-directory (/dfs/x/) are not
    listed. *)
Example browse_dfs :
  match
    Gateway.browse (Some "/dfs/")
      (Gateway.mkWorld
         (Metadata.create_file (λ _, 0) "/top.txt" 1
            (Metadata.create_file (λ _, 0) "/dfs/b/c.txt" 1
               (Metadata.create_file (λ _, 0) "/dfs/x/y/z.txt" 5
                  (Metadata.create_file (λ _, 0) "/dfs/a.txt" 5
                     Metadata.initial).2).2).2).2 ∅)
  with
  | Ok code (_, directories, current_dir) =>
      code = 200%nat ∧ directories = ["/dfs/b/"; "/dfs/x/y/"]
      ∧ current_dir = "/dfs/"
  | Err _ _ => False
  end.
Proof. by vm_compute. Qed.

(** Browsing a directory with a plus sign: the metadata server reads the
    plus as a space and lists the files below "/a b/", and no directory is
    listed, since none of those paths starts with "/a+b/". *)
Example browse_plus_directory :
  Gateway.browse (Some "/a+b/")
    (Gateway.mkWorld
       (Metadata.create_file (λ _, 0) "/a b/d/y.txt" 1
          (Metadata.create_file (λ _, 0) "/a+b/c/x.txt" 1
             Metadata.initial).2).2 ∅)
  = Ok 200 ({[ "/a b/d/y.txt" := 1%nat ]}, [], "/a+b/").
Proof. by vm_compute. Qed.
